(** * AIDataAccessor: a shallow embedding of [ai_data_accessor.py]

    The analytics layer of the repository reads three SQLite tables
    (users, products, orders) through a cursor and derives profiles,
    recommendations, similar users, purchase predictions and a
    personalised search ranking.

    Conventions of the embedding:
    - Python [float]/[numpy.float64] values are idealised as exact
      rationals ([Q]); Python [int] and SQLite INTEGER values are [Z].
    - A timestamp (the ISO text stored in [order_date]) is the number of
      microseconds since an arbitrary epoch, so that the text order used
      by ORDER BY is the chronological order.
    - A raised Python exception is the [Raise] case of [result].
    - The accessor object is a state: the store it is connected to and
      the rows still pending in its cursor. *)

From Stdlib Require Import ZArith QArith Qround Qabs String Ascii Bool List.
From Stdlib Require Import Lia Lqa Sorting.Sorted Sorting.Permutation.
Import ListNotations.

Local Open Scope string_scope.
Local Open Scope Z_scope.

(* ================================================================== *)
(** * Python primitives *)
(* ================================================================== *)

Module Py.

Inductive exn : Type :=
| ZeroDivisionError
| IndexError
| KeyError.

Inductive result (A : Type) : Type :=
| Ok (a : A)
| Raise (e : exn).
Arguments Ok {A} a.
Arguments Raise {A} e.

Definition rbind {A B} (r : result A) (k : A -> result B) : result B :=
  match r with
  | Ok a => k a
  | Raise e => Raise e
  end.

(** Strict comparison of two numbers, [x < y]. *)
Definition Qltb (x y : Q) : bool :=
  match (x ?= y)%Q with
  | Lt => true
  | _ => false
  end.

(** [max(a, b)]: the first argument unless the second is strictly larger. *)
Definition py_max (a b : Q) : Q := if Qltb a b then b else a.

(** [min(a, b)]: the first argument unless the second is strictly smaller. *)
Definition py_min (a b : Q) : Q := if Qltb b a then b else a.

(** [a / b] on numbers; raises on a zero divisor. *)
Definition py_div (a b : Q) : result Q :=
  if Qeq_bool b 0 then Raise ZeroDivisionError else Ok (a / b)%Q.

(** Nearest integer, ties to the even neighbour. *)
Definition round_half_even (x : Q) : Z :=
  let f := Qfloor x in
  match (x - inject_Z f ?= 1 # 2)%Q with
  | Lt => f
  | Gt => f + 1
  | Eq => if Z.even f then f else f + 1
  end.

(** [round(x, ndigits)]. *)
Definition py_round (x : Q) (ndigits : nat) : Q :=
  let m := inject_Z (10 ^ Z.of_nat ndigits) in
  (inject_Z (round_half_even (x * m)) / m)%Q.

(** [sum(xs)], starting from 0. *)
Definition py_sum (xs : list Q) : Q := fold_left Qplus xs 0%Q.

(** [l[:n]]; a negative [n] counts from the end. *)
Definition py_take {A} (n : Z) (l : list A) : list A :=
  if n <? 0 then firstn (length l - Z.to_nat (- n))%nat l
  else firstn (Z.to_nat n) l.

(** [l[i]] for a non-negative index. *)
Definition py_index {A} (l : list A) (i : nat) : result A :=
  match nth_error l i with
  | Some a => Ok a
  | None => Raise IndexError
  end.

(** [d[k] += v] on a [defaultdict]: an insertion-ordered dictionary as
    an association list; a new key is appended with [zero + v]. *)
Fixpoint dict_add {V} (plus : V -> V -> V) (zero : V)
         (k : string) (v : V) (d : list (string * V)) : list (string * V) :=
  match d with
  | [] => [(k, plus zero v)]
  | (k', v') :: d' =>
      if String.eqb k k' then (k', plus v' v) :: d'
      else (k', v') :: dict_add plus zero k v d'
  end.

(** [d[k]] on a [defaultdict]: the default for a missing key. *)
Fixpoint dict_get {V} (zero : V) (d : list (string * V)) (k : string) : V :=
  match d with
  | [] => zero
  | (k', v') :: d' => if String.eqb k k' then v' else dict_get zero d' k
  end.

(** [sorted(l, key=key, reverse=True)]: a stable sort in descending key
    order; elements with equal keys keep their original order.  [lt] is
    the strict order on keys. *)
Section SortedReverse.
Context {A K : Type} (key : A -> K) (lt : K -> K -> bool).

Fixpoint insert_desc (x : A) (l : list A) : list A :=
  match l with
  | [] => [x]
  | y :: l' =>
      if lt (key x) (key y) then y :: insert_desc x l' else x :: l
  end.

Definition sorted_reverse (l : list A) : list A :=
  fold_right insert_desc [] l.

End SortedReverse.

(** Tuple comparison [(a1, b1) < (a2, b2)] for an integer and a number. *)
Definition lt_ZQ (a b : Z * Q) : bool :=
  (fst a <? fst b) || ((fst a =? fst b) && Qltb (snd a) (snd b)).

(** [numpy.mean] of a non-empty list of integers. *)
Definition np_mean (xs : list Z) : Q :=
  let total := fold_left Z.add xs 0 in
  let n := Z.of_nat (length xs) in
  (inject_Z total / inject_Z n)%Q.

(** A [datetime] is a count of microseconds; [(d1 - d2).days] is the
    floor of the difference in days. *)
Definition datetime : Type := Z.
Definition us_per_day : Z := 86400000000.
Definition timedelta_days (d1 d2 : datetime) : Z := (d1 - d2) / us_per_day.

End Py.

(* ================================================================== *)
(** * The store: the three tables of [database_setup.py] *)
(* ================================================================== *)

Module Store.

(** [users(user_id, username, email, created_at, is_active)] *)
Record User : Type := {
  user_id : Z;
  username : string;
  email : string;
  user_created_at : Py.datetime;
  is_active : bool
}.

(** [products(product_id, product_name, category, price, stock_quantity,
    created_at)] *)
Record Product : Type := {
  product_id : Z;
  product_name : string;
  category : string;
  price : Q;
  stock_quantity : Z;
  product_created_at : Py.datetime
}.

(** [orders(order_id, user_id, product_id, quantity, total_price,
    order_date, status)] *)
Record Order : Type := {
  order_id : Z;
  order_user_id : Z;
  order_product_id : Z;
  quantity : Z;
  total_price : Q;
  order_date : Py.datetime;
  status : string
}.

(** A table is the list of its rows in rowid order. *)
Record DB : Type := {
  users : list User;
  products : list Product;
  orders : list Order
}.

(** The key constraints the schema declares: each id column is an
    INTEGER PRIMARY KEY. *)
Definition primary_keys (db : DB) : Prop :=
  NoDup (map user_id (users db)) /\
  NoDup (map product_id (products db)) /\
  NoDup (map order_id (orders db)).

(** The FOREIGN KEY clauses of [orders]. *)
Definition foreign_keys (db : DB) : Prop :=
  Forall (fun o => In (order_user_id o) (map user_id (users db))
                   /\ In (order_product_id o) (map product_id (products db)))
         (orders db).

(** The CHECK clauses: prices and stock are not negative, quantities are
    positive. *)
Definition checks (db : DB) : Prop :=
  Forall (fun p => (0 <= price p)%Q /\ 0 <= stock_quantity p) (products db)
  /\ Forall (fun o => 0 < quantity o) (orders db).

Definition well_formed (db : DB) : Prop :=
  primary_keys db /\ foreign_keys db /\ checks db.

End Store.

(* ================================================================== *)
(** * SQL: the SELECT statements the accessor issues *)
(* ================================================================== *)

Module Sql.
Import Store.

(** [LIMIT n]: a negative [n] means no limit. *)
Definition limit {A} (n : Z) (rows : list A) : list A :=
  if n <? 0 then rows else firstn (Z.to_nat n) rows.

(** [ORDER BY key DESC]: rows with equal keys stay in the order in which
    the scan produced them. *)
Definition order_by_desc {A K} (key : A -> K) (lt : K -> K -> bool)
           (rows : list A) : list A :=
  Py.sorted_reverse key lt rows.

(** [(a1, b1) < (a2, b2)] for [ORDER BY a DESC, b DESC] on two counts. *)
Definition lt_ZZ (a b : Z * Z) : bool :=
  (fst a <? fst b) || ((fst a =? fst b) && (snd a <? snd b)).

(** [x IN (?, ?, ...)] on text; a NULL parameter matches nothing. *)
Definition text_in (x : string) (params : list (option string)) : bool :=
  existsb (fun c => match c with
                    | Some c' => String.eqb x c'
                    | None => false
                    end) params.

(** [LIKE]: [%] matches any run of characters, [_] exactly one, and
    ASCII letters match without regard to case. *)
Definition ascii_lower (c : ascii) : ascii :=
  let n := nat_of_ascii c in
  if ((65 <=? n) && (n <=? 90))%nat then ascii_of_nat (n + 32) else c.

Fixpoint like_chars (pattern : list ascii) : list ascii -> bool :=
  match pattern with
  | [] => fun text => match text with [] => true | _ :: _ => false end
  | c :: pattern' =>
      if Ascii.eqb c "%" then
        fix star (text : list ascii) : bool :=
          like_chars pattern' text
          || match text with [] => false | _ :: text' => star text' end
      else if Ascii.eqb c "_" then
        fun text =>
          match text with [] => false | _ :: text' => like_chars pattern' text' end
      else
        fun text =>
          match text with
          | [] => false
          | d :: text' =>
              Ascii.eqb (ascii_lower c) (ascii_lower d)
              && like_chars pattern' text'
          end
  end.

Definition like (text pattern : string) : bool :=
  like_chars (list_ascii_of_string pattern) (list_ascii_of_string text).

(** ** Result rows *)

(** A row of the order-history query: an order joined with its product. *)
Record OrderRow : Type := {
  or_order_id : Z;
  or_product_id : Z;
  or_quantity : Z;
  or_total_price : Q;
  or_order_date : Py.datetime;
  or_product_name : string;
  or_category : string;
  or_price : Q
}.

(** [p.*, COUNT(o.order_id)]: a product with the number of orders that
    reference it (aliased [popularity_score], [order_count] or
    [popularity] by the three queries that select it). *)
Record ProductCount : Type := {
  pc_product : Product;
  pc_count : Z
}.

(** A row of the similar-users query. *)
Record SimilarUser : Type := {
  su_user_id : Z;
  su_username : string;
  common_categories : Z;
  su_total_orders : Z
}.

(** [COUNT(o.order_id)] of the group of product [p] in
    [products p LEFT JOIN orders o ON p.product_id = o.product_id
     GROUP BY p.product_id].  The grouping column is the primary key
    ([primary_keys]), so every product row is a group of its own and the
    groups come in table order. *)
Definition order_count (db : DB) (p : Product) : Z :=
  Z.of_nat (length (filter (fun o => order_product_id o =? product_id p)
                           (orders db))).

Definition with_count (db : DB) (p : Product) : ProductCount :=
  {| pc_product := p; pc_count := order_count db p |}.

(** [SELECT * FROM users WHERE user_id = ?] *)
Definition select_user (uid : Z) (db : DB) : list User :=
  filter (fun u => user_id u =? uid) (users db).

(** [SELECT o.order_id, o.product_id, o.quantity, o.total_price,
    o.order_date, p.product_name, p.category, p.price
    FROM orders o JOIN products p ON o.product_id = p.product_id
    WHERE o.user_id = ? ORDER BY o.order_date DESC] *)
Definition join_order (o : Order) (p : Product) : OrderRow :=
  {| or_order_id := order_id o;
     or_product_id := order_product_id o;
     or_quantity := quantity o;
     or_total_price := total_price o;
     or_order_date := order_date o;
     or_product_name := product_name p;
     or_category := category p;
     or_price := price p |}.

Definition select_user_orders (uid : Z) (db : DB) : list OrderRow :=
  order_by_desc or_order_date Z.ltb
    (flat_map
       (fun o => map (join_order o)
                     (filter (fun p => order_product_id o =? product_id p)
                             (products db)))
       (filter (fun o => order_user_id o =? uid) (orders db))).

(** [SELECT p.*, COUNT(o.order_id) as popularity_score
    FROM products p LEFT JOIN orders o ON p.product_id = o.product_id
    WHERE p.category IN (...) AND p.stock_quantity > 0
    GROUP BY p.product_id ORDER BY popularity_score DESC LIMIT ?] *)
Definition select_category_products (cats : list string) (n : Z) (db : DB)
  : list ProductCount :=
  limit n
    (order_by_desc pc_count Z.ltb
       (map (with_count db)
            (filter (fun p => text_in (category p) (map Some cats)
                              && (0 <? stock_quantity p))
                    (products db)))).

(** [SELECT p.*, COUNT(o.order_id) as order_count
    FROM products p LEFT JOIN orders o ON p.product_id = o.product_id
    WHERE p.stock_quantity > 0
    GROUP BY p.product_id ORDER BY order_count DESC LIMIT ?] *)
Definition select_popular_products (n : Z) (db : DB) : list ProductCount :=
  limit n
    (order_by_desc pc_count Z.ltb
       (map (with_count db)
            (filter (fun p => 0 <? stock_quantity p) (products db)))).

(** [SELECT u.user_id, u.username,
           COUNT(DISTINCT p.category) as common_categories,
           COUNT(o.order_id) as total_orders
    FROM users u JOIN orders o ON u.user_id = o.user_id
                 JOIN products p ON o.product_id = p.product_id
    WHERE u.user_id != ? AND p.category IN (?, ?, ?)
    GROUP BY u.user_id
    ORDER BY common_categories DESC, total_orders DESC LIMIT ?]

    [matched_categories] lists, for one user, the category of every
    joined row that passes the category filter.  [u.user_id] is the
    primary key ([primary_keys]), so the groups are the users that have
    at least one such row, in table order. *)
Definition matched_categories (params : list (option string)) (db : DB)
           (u : User) : list string :=
  flat_map
    (fun o => map category
                  (filter (fun p => (order_product_id o =? product_id p)
                                    && text_in (category p) params)
                          (products db)))
    (filter (fun o => order_user_id o =? user_id u) (orders db)).

Definition similar_group (params : list (option string)) (db : DB)
           (u : User) : list SimilarUser :=
  match matched_categories params db u with
  | [] => []
  | cats =>
      [ {| su_user_id := user_id u;
           su_username := username u;
           common_categories := Z.of_nat (length (nodup string_dec cats));
           su_total_orders := Z.of_nat (length cats) |} ]
  end.

Definition select_similar_users (uid : Z) (params : list (option string))
           (n : Z) (db : DB) : list SimilarUser :=
  limit n
    (order_by_desc (fun r => (common_categories r, su_total_orders r)) lt_ZZ
       (flat_map (similar_group params db)
                 (filter (fun u => negb (user_id u =? uid)) (users db)))).

(** [SELECT p.*, COUNT(o.order_id) as popularity
    FROM products p LEFT JOIN orders o ON p.product_id = o.product_id
    WHERE p.product_name LIKE ? OR p.category LIKE ?
    GROUP BY p.product_id ORDER BY popularity DESC LIMIT 20] *)
Definition select_search (pattern : string) (db : DB) : list ProductCount :=
  limit 20
    (order_by_desc pc_count Z.ltb
       (map (with_count db)
            (filter (fun p => like (product_name p) pattern
                              || like (category p) pattern)
                    (products db)))).

End Sql.

(* ================================================================== *)
(** * The accessor *)
(* ================================================================== *)

Module AIDataAccessor.
Import Py Store Sql.

(** ** The accessor object and its cursor *)

Inductive Row : Type :=
| RUser (u : User)
| ROrderRow (o : OrderRow)
| RProductCount (p : ProductCount)
| RSimilarUser (r : SimilarUser).

(** [self.conn] is the connected [store]; [self.cursor] holds the rows of
    the last statement that have not been fetched yet. *)
Record Accessor : Type := {
  store : DB;
  cursor : list Row
}.

(** A method of the accessor: it may read and update the accessor and
    either returns a value or raises. *)
Definition M (A : Type) : Type := Accessor -> result A * Accessor.

Definition ret {A} (a : A) : M A := fun s => (Ok a, s).

Definition bind {A B} (m : M A) (k : A -> M B) : M B :=
  fun s =>
    match m s with
    | (Ok a, s') => k a s'
    | (Raise e, s') => (Raise e, s')
    end.

Definition lift {A} (r : result A) : M A := fun s => (r, s).

Notation "x <- m ;; k" := (bind m (fun x => k))
  (at level 61, m at next level, right associativity).

(** [self.cursor.execute(query, params)] then [self.cursor.fetchone()]. *)
Definition execute_fetchone {A} (inj : A -> Row) (query : DB -> list A)
  : M (option A) :=
  fun s =>
    let rows := query (store s) in
    (Ok (hd_error rows), {| store := store s; cursor := map inj (tl rows) |}).

(** [self.cursor.execute(query, params)] then [self.cursor.fetchall()]. *)
Definition execute_fetchall {A} (inj : A -> Row) (query : DB -> list A)
  : M (list A) :=
  fun s =>
    let rows := query (store s) in
    (Ok rows, {| store := store s; cursor := [] |}).

(** ** Derived values *)

Record Profile : Type := {
  user_info : User;
  total_orders : Z;
  total_spent : Q;
  avg_order_value : Q;
  favorite_categories : list string;
  recent_orders : list OrderRow;
  customer_segment : string
}.

Record Prediction : Type := {
  avg_days_between_orders : Q;
  days_since_last_order : Z;
  predicted_days_until_next_purchase : Q;
  likely_category : option string;
  purchase_probability : Q
}.

(** A search result: the fetched row, and the [relevance_score] key once
    the personalised branch has set it. *)
Record SearchResult : Type := {
  sr_product : Product;
  popularity : Z;
  relevance_score : option Q
}.

(** ** Core data access by unique id *)

Definition get_user_by_id (user_id : Z) : M (option User) :=
  execute_fetchone RUser (select_user user_id).

(** ** Profiles *)

Definition _classify_customer (total_spent : Q) (total_orders : Z) : string :=
  if Qltb 2000 total_spent && (10 <? total_orders) then "VIP Customer"
  else if Qltb 1000 total_spent || (5 <? total_orders) then "Regular Customer"
  else if 0 <? total_orders then "Occasional Buyer"
  else "New User".

(** The loop over [orders] that fills [category_counts] and
    [category_spending]. *)
Definition count_categories (orders : list OrderRow)
  : list (string * Z) * list (string * Q) :=
  fold_left
    (fun acc order =>
       (dict_add Z.add 0 (or_category order) 1 (fst acc),
        dict_add Qplus 0%Q (or_category order) (or_total_price order) (snd acc)))
    orders ([], []).

Definition build_user_profile (user_id : Z) : M (option Profile) :=
  user <- get_user_by_id user_id ;;
  match user with
  | None => ret None
  | Some user =>
      orders <- execute_fetchall ROrderRow (select_user_orders user_id) ;;
      let total_spent := py_sum (map or_total_price orders) in
      let total_orders := Z.of_nat (length orders) in
      avg_order_value <-
        (if 0 <? total_orders
         then lift (py_div total_spent (inject_Z total_orders))
         else ret 0%Q) ;;
      let category_counts := fst (count_categories orders) in
      let category_spending := snd (count_categories orders) in
      let favorite_categories :=
        sorted_reverse
          (fun x => (snd x, dict_get 0%Q category_spending (fst x)))
          lt_ZQ category_counts in
      ret (Some
             {| user_info := user;
                total_orders := total_orders;
                total_spent := py_round total_spent 2;
                avg_order_value := py_round avg_order_value 2;
                favorite_categories := map fst (firstn 3 favorite_categories);
                recent_orders := firstn 5 orders;
                customer_segment := _classify_customer total_spent total_orders |})
  end.

(** ** Recommendations *)

Definition _get_popular_products (limit : Z) : M (list ProductCount) :=
  execute_fetchall RProductCount (select_popular_products limit).

Definition is_empty {A} (l : list A) : bool :=
  match l with [] => true | _ :: _ => false end.

Definition recommend_products_for_user (user_id : Z) (limit : Z)
  : M (list ProductCount) :=
  profile <- build_user_profile user_id ;;
  match profile with
  | None => _get_popular_products limit
  | Some profile =>
      if is_empty (favorite_categories profile)
      then _get_popular_products limit
      else
        let purchased_product_ids := map or_product_id (recent_orders profile) in
        let favorite_cats := favorite_categories profile in
        all_recommendations <-
          execute_fetchall RProductCount
            (select_category_products favorite_cats (limit * 2)) ;;
        ret (py_take limit
               (filter
                  (fun prod =>
                     negb (existsb (Z.eqb (product_id (pc_product prod)))
                                   purchased_product_ids))
                  all_recommendations))
  end.

(** ** Similar users *)

Definition find_similar_users (user_id : Z) (limit : Z)
  : M (list SimilarUser) :=
  profile <- build_user_profile user_id ;;
  match profile with
  | None => ret []
  | Some profile =>
      if is_empty (favorite_categories profile)
      then ret []
      else
        let target_categories := nodup string_dec (favorite_categories profile) in
        let categories_params :=
          (map Some target_categories
           ++ repeat None (3 - length target_categories)%nat)%list in
        execute_fetchall RSimilarUser
          (select_similar_users user_id (firstn 3 categories_params) limit)
  end.

(** ** Purchase prediction *)

Definition _calculate_purchase_probability (days_since avg_days : Q)
  : result Q :=
  if Qeq_bool avg_days 0 then Ok (1 # 10)%Q
  else
    rbind (py_div days_since avg_days) (fun ratio =>
    let probability := py_min 1 (py_max (1 # 10) ratio) in
    Ok (py_round probability 2)).

(** The loop over [range(len(orders) - 1)]: the day gap between each
    order and the next one in the list. *)
Fixpoint time_diffs (orders : list OrderRow) : list Z :=
  match orders with
  | o1 :: rest =>
      match rest with
      | o2 :: _ =>
          Z.abs (timedelta_days (or_order_date o1) (or_order_date o2))
          :: time_diffs rest
      | [] => []
      end
  | [] => []
  end.

(** [now] is the value [datetime.now()] returns during the call. *)
Definition predict_next_purchase (user_id : Z) (now : datetime)
  : M (option Prediction) :=
  profile <- build_user_profile user_id ;;
  match profile with
  | None => ret None
  | Some profile =>
      if (length (recent_orders profile) <? 2)%nat then ret None
      else
        let orders := recent_orders profile in
        let diffs := time_diffs orders in
        let avg_days_between_orders :=
          if is_empty diffs then 30%Q else np_mean diffs in
        last_order <- lift (py_index orders 0) ;;
        let days_since_last := timedelta_days now (or_order_date last_order) in
        let predicted_days_until_next :=
          py_max 0 (avg_days_between_orders - inject_Z days_since_last) in
        let recommended_category := hd_error (favorite_categories profile) in
        probability <-
          lift (_calculate_purchase_probability
                  (inject_Z days_since_last) avg_days_between_orders) ;;
        ret (Some
               {| avg_days_between_orders := py_round avg_days_between_orders 1;
                  days_since_last_order := days_since_last;
                  predicted_days_until_next_purchase :=
                    py_round predicted_days_until_next 1;
                  likely_category := recommended_category;
                  purchase_probability := probability |})
  end.

(** ** Personalised search *)

Definition of_row (r : ProductCount) : SearchResult :=
  {| sr_product := pc_product r;
     popularity := pc_count r;
     relevance_score := None |}.

(** The body of the loop that sets [result['relevance_score']]. *)
Definition set_relevance (favorite_cats : list string) (r : SearchResult)
  : SearchResult :=
  {| sr_product := sr_product r;
     popularity := popularity r;
     relevance_score :=
       Some (if existsb (String.eqb (category (sr_product r))) favorite_cats
             then (inject_Z (popularity r) * (3 # 2))%Q
             else inject_Z (popularity r)) |}.

(** [x['relevance_score']], the sort key. *)
Definition relevance_key (x : SearchResult) : result Q :=
  match relevance_score x with
  | Some q => Ok q
  | None => Raise KeyError
  end.

(** The key of every element, computed before sorting. *)
Fixpoint decorate {A K} (key : A -> result K) (l : list A)
  : result (list (K * A)) :=
  match l with
  | [] => Ok []
  | x :: l' =>
      rbind (key x) (fun k =>
      rbind (decorate key l') (fun rest => Ok ((k, x) :: rest)))
  end.

(** [results.sort(key=lambda x: x['relevance_score'], reverse=True)] *)
Definition sort_by_relevance (results : list SearchResult)
  : result (list SearchResult) :=
  rbind (decorate relevance_key results) (fun keyed =>
  Ok (map snd (sorted_reverse fst Qltb keyed))).

(** [if user_id:] holds for an id other than [None] and [0]. *)
Definition truthy (user_id : option Z) : bool :=
  match user_id with
  | Some n => negb (n =? 0)
  | None => false
  end.

Definition get_smart_search_results (search_term : string)
           (user_id : option Z) : M (list SearchResult) :=
  let search_pattern := "%" ++ search_term ++ "%" in
  rows <- execute_fetchall RProductCount (select_search search_pattern) ;;
  let results := map of_row rows in
  results <-
    match user_id with
    | Some uid =>
        if truthy user_id then
          profile <- build_user_profile uid ;;
          match profile with
          | Some profile =>
              if is_empty (favorite_categories profile) then ret results
              else
                let favorite_cats := favorite_categories profile in
                lift (sort_by_relevance (map (set_relevance favorite_cats) results))
          | None => ret results
          end
        else ret results
    | None => ret results
    end ;;
  ret (py_take 10 results).

End AIDataAccessor.

(* ================================================================== *)
(** * Sample stores *)
(* ================================================================== *)

Module Fixtures.
Import Py Store Sql AIDataAccessor.

Definition day (n : Z) : datetime := n * us_per_day.

Definition mk_user (id : Z) (name : string) : User :=
  {| user_id := id; username := name; email := name ++ "@example.com";
     user_created_at := 0; is_active := true |}.

Definition mk_product (id : Z) (name cat : string) (stock : Z) : Product :=
  {| product_id := id; product_name := name; category := cat;
     price := 1; stock_quantity := stock; product_created_at := 0 |}.

Definition mk_order (id uid pid : Z) (total : Q) (date : datetime) : Order :=
  {| order_id := id; order_user_id := uid; order_product_id := pid;
     quantity := 1; total_price := total; order_date := date;
     status := "delivered" |}.

(** A small shop.  User 1 bought six times, user 2 three times in one
    category, user 3 once, user 4 never. *)
Definition shop : DB :=
  {| users := [mk_user 1 "alice"; mk_user 2 "bob"; mk_user 3 "carol";
               mk_user 4 "dave"];
     products := [mk_product 1 "Phone" "Electronics" 5;
                  mk_product 2 "Phone book" "Books" 3;
                  mk_product 3 "Laptop" "Electronics" 2;
                  mk_product 4 "Camera" "Electronics" 7;
                  mk_product 5 "Novel" "Books" 0;
                  mk_product 6 "Ball" "Sports" 1];
     orders := [mk_order 1 1 1 10 (day 0);
                mk_order 2 1 3 20 (day 10);
                mk_order 3 1 3 20 (day 11);
                mk_order 4 1 3 20 (day 12);
                mk_order 5 1 5 5 (day 14);
                mk_order 6 1 3 20 (day 15);
                mk_order 7 2 6 5 (day 3);
                mk_order 8 2 6 3 (day 4);
                mk_order 9 2 6 2 (day 5);
                mk_order 10 3 6 7 (day 9)] |}.

(** Three shoppers: user 1 ordered once in Electronics; user 2 ordered
    once in Electronics and four times in Books; user 3 ordered twice in
    Electronics. *)
Definition shoppers : DB :=
  {| users := [mk_user 1 "u1"; mk_user 2 "u2"; mk_user 3 "u3"];
     products := [mk_product 1 "Phone" "Electronics" 1;
                  mk_product 2 "Novel" "Books" 1;
                  mk_product 3 "Ball" "Sports" 1];
     orders := [mk_order 1 1 1 1 (day 1);
                mk_order 2 2 1 1 (day 2);
                mk_order 3 2 2 1 (day 3);
                mk_order 4 2 2 1 (day 4);
                mk_order 5 2 2 1 (day 5);
                mk_order 6 2 2 1 (day 6);
                mk_order 7 3 1 1 (day 2);
                mk_order 8 3 1 1 (day 3)] |}.

(** A user whose four orders are 2, 1 and 1 days apart. *)
Definition cadence : DB :=
  {| users := [mk_user 1 "erin"];
     products := [mk_product 1 "Tea" "Grocery" 9];
     orders := [mk_order 1 1 1 4 (day 0);
                mk_order 2 1 1 4 (day 1);
                mk_order 3 1 1 4 (day 2);
                mk_order 4 1 1 4 (day 4)] |}.

(** Two products nobody ordered match the search term; user 1's
    favourite category is that of the first one. *)
Definition catalogue : DB :=
  {| users := [mk_user 1 "frank"];
     products := [mk_product 1 "Phone" "Electronics" 1;
                  mk_product 2 "Phone book" "Books" 1;
                  mk_product 3 "Laptop" "Electronics" 1];
     orders := [mk_order 1 1 3 1 (day 0)] |}.

(** Widgets ordered 8, 9 and 12 times; user 1's favourite category is
    Electronics. *)
Definition orders_of (first : Z) (n : nat) (uid pid : Z) : list Order :=
  map (fun i => mk_order (first + Z.of_nat i) uid pid 1 (day (Z.of_nat i)))
      (seq 0 n).

Definition widgets : DB :=
  {| users := [mk_user 1 "gina"; mk_user 2 "hal"];
     products := [mk_product 1 "Widget A" "Electronics" 1;
                  mk_product 2 "Widget B" "Electronics" 1;
                  mk_product 3 "Widget C" "Books" 1];
     orders := (orders_of 1 1 1 1 ++ orders_of 2 7 2 1
                ++ orders_of 9 9 2 2 ++ orders_of 18 12 2 3)%list |}.

Definition connect (db : DB) : Accessor := {| store := db; cursor := [] |}.

End Fixtures.

(* ================================================================== *)
(** * The profile as a function of the store *)
(* ================================================================== *)

Module Readings.
Import Py Store Sql AIDataAccessor.

(** The profile record [build_user_profile] assembles from the user row
    and the rows of the order-history query. *)
Definition make_profile (user : User) (orders : list OrderRow) : Profile :=
  let total := py_sum (map or_total_price orders) in
  let n := Z.of_nat (length orders) in
  let counts := fst (count_categories orders) in
  let spending := snd (count_categories orders) in
  {| user_info := user;
     total_orders := n;
     total_spent := py_round total 2;
     avg_order_value :=
       py_round (if 0 <? n then (total / inject_Z n)%Q else 0%Q) 2;
     favorite_categories :=
       map fst (firstn 3 (sorted_reverse
                            (fun x => (snd x, dict_get 0%Q spending (fst x)))
                            lt_ZQ counts));
     recent_orders := firstn 5 orders;
     customer_segment := _classify_customer total n |}.

Definition profile_of (db : DB) (uid : Z) : option Profile :=
  match select_user uid db with
  | [] => None
  | user :: _ => Some (make_profile user (select_user_orders uid db))
  end.

(** The accessor once a statement's rows have all been fetched. *)
Definition drained (s : Accessor) : Accessor :=
  {| store := store s; cursor := [] |}.

(** The profile has at least one favourite category. *)
Definition has_favorites (db : DB) (uid : Z) : Prop :=
  exists p, profile_of db uid = Some p /\ favorite_categories p <> [].

(** The profile is absent or has no favourite category. *)
Definition no_favorites (db : DB) (uid : Z) : Prop :=
  profile_of db uid = None
  \/ exists p, profile_of db uid = Some p /\ favorite_categories p = [].


(** [x] occurs at an earlier position of [l] than [y]. *)
Definition before {A} (l : list A) (x y : A) : Prop :=
  exists l1 l2 l3, l = (l1 ++ x :: l2 ++ y :: l3)%list.

(** No element of [l] has a key smaller than the key of a later one. *)
Definition descending {A K} (key : A -> K) (lt : K -> K -> bool)
           (l : list A) : Prop :=
  StronglySorted (fun a b => lt (key a) (key b) = false) l.

(** The number of rows [LIMIT n] keeps. *)
Definition limit_count {A} (n : Z) (rows : list A) : nat :=
  if n <? 0 then length rows else Z.to_nat n.

(** The list the personalised path returns. *)
Definition personal_recommendations (db : DB) (p : Profile) (limit : Z)
  : list ProductCount :=
  py_take limit
    (filter
       (fun prod =>
          negb (existsb (Z.eqb (product_id (pc_product prod)))
                        (map or_product_id (recent_orders p))))
       (select_category_products (favorite_categories p) (limit * 2) db)).

(** The prediction computed from a profile whose window starts with
    [last_order]. *)
Definition prediction_of (p : Profile) (last_order : OrderRow)
           (now : datetime) : Prediction :=
  let avg := np_mean (time_diffs (recent_orders p)) in
  let days := timedelta_days now (or_order_date last_order) in
  {| avg_days_between_orders := py_round avg 1;
     days_since_last_order := days;
     predicted_days_until_next_purchase :=
       py_round (py_max 0 (avg - inject_Z days)) 1;
     likely_category := hd_error (favorite_categories p);
     purchase_probability :=
       if Qeq_bool avg 0 then (1 # 10)%Q
       else py_round (py_min 1 (py_max (1 # 10) (inject_Z days / avg))) 2 |}.


(** The conditions of the first two segment rules. *)
Definition vip (total_spent : Q) (total_orders : Z) : Prop :=
  (2000 < total_spent)%Q /\ 10 < total_orders.
Definition regular (total_spent : Q) (total_orders : Z) : Prop :=
  (1000 < total_spent)%Q \/ 5 < total_orders.

(** The sort key of a search result, read as a number. *)
Definition relevance (x : SearchResult) : Q :=
  match relevance_score x with
  | Some q => q
  | None => 0%Q
  end.

(** The score the personalised branch assigns: popularity times 1.5 for
    a favourite category, popularity otherwise. *)
Definition boosted (favorite_cats : list string) (x : SearchResult) : Q :=
  if existsb (String.eqb (category (sr_product x))) favorite_cats
  then (inject_Z (popularity x) * (3 # 2))%Q
  else inject_Z (popularity x).

(** The ranking rule read on positions: a favourite-category result
    stands before a non-favourite one exactly when 1.5 times its
    popularity exceeds the other's popularity. *)
Definition outranks_iff_boosted (favorite_cats : list string)
           (results : list SearchResult) : Prop :=
  forall (i j : nat) (f g : SearchResult),
    nth_error results i = Some f ->
    nth_error results j = Some g ->
    In (category (sr_product f)) favorite_cats ->
    ~ In (category (sr_product g)) favorite_cats ->
    ((i < j)%nat
     <-> (inject_Z (popularity g) < inject_Z (popularity f) * (3 # 2))%Q).

(** The fetched rows with their scores, and the list the personalised
    search returns from them. *)
Definition scored (favorite_cats : list string) (base : list ProductCount)
  : list SearchResult :=
  map (set_relevance favorite_cats) (map of_row base).

Definition ranked (favorite_cats : list string) (base : list ProductCount)
  : list SearchResult :=
  py_take 10 (sorted_reverse relevance Qltb (scored favorite_cats base)).

End Readings.

(* ================================================================== *)
(** * Lookups by unique id *)
(* ================================================================== *)

Module Lookups.
Import Py Store Sql AIDataAccessor.

(** The tables a lookup can name. *)
Inductive Table : Type :=
| users_table
| products_table
| orders_table.

Definition table_name (t : Table) : string :=
  match t with
  | users_table => "users"
  | products_table => "products"
  | orders_table => "orders"
  end.

(** [s[:-1]]: the string without its last character. *)
Fixpoint drop_last (s : string) : string :=
  match s with
  | EmptyString => EmptyString
  | String c rest =>
      match rest with
      | EmptyString => EmptyString
      | String _ _ => String c (drop_last rest)
      end
  end.

(** The column [f"{table[:-1]}_id"] that [get_multiple_records] filters
    on. *)
Definition id_column (table : string) : string := drop_last table ++ "_id".

(** A row of [get_order_by_id]: [o.*, u.username, u.email,
    p.product_name, p.category]. *)
Record OrderDetail : Type := {
  od_order : Order;
  od_username : string;
  od_email : string;
  od_product_name : string;
  od_category : string
}.

(** The rows the cursor can hold while these methods run. *)
Inductive LRow : Type :=
| LUser (u : User)
| LProduct (p : Product)
| LOrder (o : Order)
| LOrderDetail (d : OrderDetail).

(** The id a fetched table row carries in its key column. *)
Definition row_id (r : LRow) : Z :=
  match r with
  | LUser u => user_id u
  | LProduct p => product_id p
  | LOrder o => order_id o
  | LOrderDetail d => order_id (od_order d)
  end.

Record LAccessor : Type := {
  lstore : DB;
  lcursor : list LRow
}.

Definition LM (A : Type) : Type := LAccessor -> result A * LAccessor.

(** [self.cursor.execute(query, params)] then [self.cursor.fetchone()]. *)
Definition lexecute_fetchone {A} (inj : A -> LRow) (query : DB -> list A)
  : LM (option A) :=
  fun s =>
    let rows := query (lstore s) in
    (Ok (hd_error rows),
     {| lstore := lstore s; lcursor := map inj (tl rows) |}).

(** [self.cursor.execute(query, params)] then [self.cursor.fetchall()]. *)
Definition lexecute_fetchall {A} (inj : A -> LRow) (query : DB -> list A)
  : LM (list A) :=
  fun s =>
    let rows := query (lstore s) in
    (Ok rows, {| lstore := lstore s; lcursor := [] |}).

(** [SELECT * FROM products WHERE product_id = ?] *)
Definition select_product (pid : Z) (db : DB) : list Product :=
  filter (fun p => product_id p =? pid) (products db).

(** [SELECT o.*, u.username, u.email, p.product_name, p.category
    FROM orders o JOIN users u ON o.user_id = u.user_id
                  JOIN products p ON o.product_id = p.product_id
    WHERE o.order_id = ?] *)
Definition detail (o : Order) (u : User) (p : Product) : OrderDetail :=
  {| od_order := o;
     od_username := username u;
     od_email := email u;
     od_product_name := product_name p;
     od_category := category p |}.

Definition select_order_detail (oid : Z) (db : DB) : list OrderDetail :=
  flat_map
    (fun o =>
       flat_map
         (fun u =>
            map (detail o u)
                (filter (fun p => order_product_id o =? product_id p)
                        (products db)))
         (filter (fun u => order_user_id o =? user_id u) (users db)))
    (filter (fun o => order_id o =? oid) (orders db)).

(** [SELECT * FROM {table} WHERE {table[:-1]}_id IN (?, ..., ?)]: the
    rows of the table whose key is one of [ids], in the table's rowid
    order. *)
Definition id_in (ids : list Z) (id : Z) : bool := existsb (Z.eqb id) ids.

Definition select_records (t : Table) (ids : list Z) (db : DB) : list LRow :=
  match t with
  | users_table =>
      map LUser (filter (fun u => id_in ids (user_id u)) (users db))
  | products_table =>
      map LProduct (filter (fun p => id_in ids (product_id p)) (products db))
  | orders_table =>
      map LOrder (filter (fun o => id_in ids (order_id o)) (orders db))
  end.

Definition get_product_by_id (product_id : Z) : LM (option Product) :=
  lexecute_fetchone LProduct (select_product product_id).

Definition get_order_by_id (order_id : Z) : LM (option OrderDetail) :=
  lexecute_fetchone LOrderDetail (select_order_detail order_id).

Definition get_multiple_records (table : Table) (ids : list Z)
  : LM (list LRow) :=
  lexecute_fetchall (fun r => r) (select_records table ids).

(** The rows of a table, and the key column the schema gives it. *)
Definition table_rows (t : Table) (db : DB) : list LRow :=
  match t with
  | users_table => map LUser (users db)
  | products_table => map LProduct (products db)
  | orders_table => map LOrder (orders db)
  end.

Definition primary_key_column (t : Table) : string :=
  match t with
  | users_table => "user_id"
  | products_table => "product_id"
  | orders_table => "order_id"
  end.

End Lookups.

(* ================================================================== *)
(** * Orders on segments, keys and categories *)
(* ================================================================== *)

Module Orderings.
Import Py Store Sql AIDataAccessor.

(** The segments from the lowest to the highest. *)
Definition segment_rank (segment : string) : nat :=
  if String.eqb segment "VIP Customer" then 3
  else if String.eqb segment "Regular Customer" then 2
  else if String.eqb segment "Occasional Buyer" then 1
  else 0.

(** [a <= b] on the pairs the category ranking compares. *)
Definition le_ZQ (a b : Z * Q) : Prop :=
  fst a < fst b \/ (fst a = fst b /\ (snd a <= snd b)%Q).

(** The number of [orders] in category [c] and what they cost together. *)
Definition in_category (c : string) (o : OrderRow) : bool :=
  String.eqb (or_category o) c.

Definition category_count (orders : list OrderRow) (c : string) : Z :=
  Z.of_nat (length (filter (in_category c) orders)).

Definition category_spend (orders : list OrderRow) (c : string) : Q :=
  py_sum (map or_total_price (filter (in_category c) orders)).

Definition category_key (orders : list OrderRow) (c : string) : Z * Q :=
  (category_count orders c, category_spend orders c).

(** One step of the loop that fills a category dictionary. *)
Definition tally {V : Type} (plus : V -> V -> V) (zero : V)
           (value : OrderRow -> V) (d : list (string * V)) (o : OrderRow)
  : list (string * V) :=
  dict_add plus zero (or_category o) (value o) d.

(** The product an order refers to, looked up in [products]. *)
Definition product_of (db : DB) (o : Order) : option Product :=
  hd_error (filter (fun p => order_product_id o =? product_id p) (products db)).

(** The orders of a user, as stored. *)
Definition user_orders (db : DB) (uid : Z) : list Order :=
  filter (fun o => order_user_id o =? uid) (orders db).

(** The list an unpersonalised search returns. *)
Definition base_results (term : string) (db : DB) : list SearchResult :=
  py_take 10 (map of_row (select_search ("%" ++ term ++ "%") db)).


End Orderings.

(* ================================================================== *)
(** * Numbers: comparison and rounding *)
(* ================================================================== *)

Import Py Store Sql AIDataAccessor Readings.

Lemma Qltb_true (x y : Q) : Qltb x y = true <-> (x < y)%Q.
Proof.
  unfold Qltb. rewrite Qlt_alt. destruct (x ?= y)%Q; split; congruence.
Qed.

Lemma Qltb_false (x y : Q) : Qltb x y = false <-> (y <= x)%Q.
Proof.
  rewrite <- Bool.not_true_iff_false, Qltb_true. split.
  - apply Qnot_lt_le.
  - apply Qle_not_lt.
Qed.

Lemma py_max_spec (a b : Q) : (a <= py_max a b /\ b <= py_max a b)%Q
                              /\ (py_max a b = a \/ py_max a b = b).
Proof.
  unfold py_max. destruct (Qltb a b) eqn:E.
  - apply Qltb_true in E. split; [split; lra | now right].
  - apply Qltb_false in E. split; [split; lra | now left].
Qed.

Lemma py_min_spec (a b : Q) : (py_min a b <= a /\ py_min a b <= b)%Q
                              /\ (py_min a b = a \/ py_min a b = b).
Proof.
  unfold py_min. destruct (Qltb b a) eqn:E.
  - apply Qltb_true in E. split; [split; lra | now right].
  - apply Qltb_false in E. split; [split; lra | now left].
Qed.

(** The clamp of the probability curve stays within its two bounds. *)
Lemma clamp_bounds (x : Q) :
  (1 # 10 <= py_min 1 (py_max (1 # 10) x) <= 1)%Q.
Proof.
  destruct (py_min_spec 1 (py_max (1 # 10) x)) as [[H1 H2] [E | E]];
    destruct (py_max_spec (1 # 10) x) as [[H3 H4] _].
  - rewrite E. lra.
  - split; [rewrite E; exact H3 | exact H1].
Qed.

Lemma round_half_even_floor (x : Q) :
  round_half_even x = Qfloor x \/ round_half_even x = Qfloor x + 1.
Proof.
  unfold round_half_even.
  destruct (x - inject_Z (Qfloor x) ?= 1 # 2)%Q; auto.
  destruct (Z.even (Qfloor x)); auto.
Qed.


(** Rounding never crosses an integer. *)
Lemma round_half_even_ge (m : Z) (x : Q) :
  (inject_Z m <= x)%Q -> m <= round_half_even x.
Proof.
  intros H. apply Qfloor_resp_le in H. rewrite Qfloor_Z in H.
  destruct (round_half_even_floor x) as [E | E]; rewrite E; lia.
Qed.

Lemma round_half_even_le (m : Z) (x : Q) :
  (x <= inject_Z m)%Q -> round_half_even x <= m.
Proof.
  intros H. pose proof (Qfloor_le x) as Hlo.
  assert (Hfm : Qfloor x <= m).
  { apply Qfloor_resp_le in H. now rewrite Qfloor_Z in H. }
  destruct (Z.eq_dec (Qfloor x) m) as [Heq | Hne].
  - unfold round_half_even.
    destruct (x - inject_Z (Qfloor x) ?= 1 # 2)%Q eqn:E; try lia.
    + apply Qeq_alt in E. rewrite Heq in E. lra.
    + apply Qgt_alt in E. rewrite Heq in E. lra.
  - destruct (round_half_even_floor x) as [E | E]; rewrite E; lia.
Qed.

Lemma pow10_pos (n : nat) : (0 < inject_Z (10 ^ Z.of_nat n))%Q.
Proof.
  replace 0%Q with (inject_Z 0) by reflexivity. rewrite <- Zlt_Qlt.
  apply Z.pow_pos_nonneg; lia.
Qed.


Lemma Qdiv_le_mult (a b c : Q) :
  (0 < b)%Q -> (a / b <= c)%Q -> (a <= c * b)%Q.
Proof.
  intros Hb H. assert (E : (a == a / b * b)%Q) by (field; lra).
  rewrite E. apply Qmult_le_compat_r; lra.
Qed.

Lemma Qle_div_mult (a b c : Q) :
  (0 < b)%Q -> (c <= a / b)%Q -> (c * b <= a)%Q.
Proof.
  intros Hb H. assert (E : (a == a / b * b)%Q) by (field; lra).
  rewrite E. apply Qmult_le_compat_r; lra.
Qed.

(** [round(x, n)] stays on the same side of a number with at most [n]
    decimals. *)
Lemma py_round_ge (k : Z) (x : Q) (n : nat) :
  (inject_Z k / inject_Z (10 ^ Z.of_nat n) <= x)%Q ->
  (inject_Z k / inject_Z (10 ^ Z.of_nat n) <= py_round x n)%Q.
Proof.
  intros H. unfold py_round. set (m := inject_Z (10 ^ Z.of_nat n)) in *.
  assert (Hm : (0 < m)%Q) by apply pow10_pos.
  apply Qmult_le_compat_r; [| apply Qlt_le_weak, Qinv_lt_0_compat, Hm].
  rewrite <- Zle_Qle. apply round_half_even_ge.
  apply Qdiv_le_mult; assumption.
Qed.

Lemma py_round_le (k : Z) (x : Q) (n : nat) :
  (x <= inject_Z k / inject_Z (10 ^ Z.of_nat n))%Q ->
  (py_round x n <= inject_Z k / inject_Z (10 ^ Z.of_nat n))%Q.
Proof.
  intros H. unfold py_round. set (m := inject_Z (10 ^ Z.of_nat n)) in *.
  assert (Hm : (0 < m)%Q) by apply pow10_pos.
  apply Qmult_le_compat_r; [| apply Qlt_le_weak, Qinv_lt_0_compat, Hm].
  rewrite <- Zle_Qle. apply round_half_even_le.
  apply Qle_div_mult; assumption.
Qed.

(* ================================================================== *)
(** * The primitives on sample values *)
(* ================================================================== *)

Example round_half_even_ties :
  map round_half_even [1 # 2; 3 # 2; 5 # 2; - (5 # 2); 7 # 4; - (1 # 4)]%Q
  = [0; 2; 2; -2; 2; 0].
Proof. reflexivity. Qed.

Example py_round_samples :
  (py_round (1 # 8) 2 == 12 # 100)%Q
  /\ (py_round (10 # 3) 2 == 333 # 100)%Q
  /\ (py_round (4 # 3) 1 == 13 # 10)%Q
  /\ (py_round 0 2 == 0)%Q.
Proof. repeat split. Qed.

Example py_take_samples :
  py_take 2 [1; 2; 3] = [1; 2]
  /\ py_take 5 [1; 2; 3] = [1; 2; 3]
  /\ py_take 0 [1; 2; 3] = []
  /\ py_take (-1) [1; 2; 3] = [1; 2].
Proof. repeat split. Qed.

Example limit_samples :
  Sql.limit 2 [1; 2; 3] = [1; 2]
  /\ Sql.limit 0 [1; 2; 3] = []
  /\ Sql.limit (-1) [1; 2; 3] = [1; 2; 3].
Proof. repeat split. Qed.

Example sorted_reverse_stable :
  sorted_reverse snd Z.ltb [("a", 1); ("b", 3); ("c", 1); ("d", 3); ("e", 2)]
  = [("b", 3); ("d", 3); ("e", 2); ("a", 1); ("c", 1)].
Proof. reflexivity. Qed.

Example like_samples :
  like "Phone book" "%phone%" = true
  /\ like "Laptop" "%phone%" = false
  /\ like "Books" "b__ks" = true
  /\ like "Books" "%" = true
  /\ like "Books" "book" = false
  /\ like "" "%%" = true.
Proof. repeat split. Qed.

Example timedelta_days_floor :
  timedelta_days 0 1 = -1
  /\ timedelta_days (3 * us_per_day - 1) 0 = 2
  /\ timedelta_days (Fixtures.day 4) (Fixtures.day 1) = 3.
Proof. repeat split. Qed.

Example count_categories_sample :
  count_categories (select_user_orders 1 Fixtures.shop)
  = ([("Electronics", 5); ("Books", 1)],
     [("Electronics", 0 + 20 + 20 + 20 + 20 + 10); ("Books", 0 + 5)]%Q).
Proof. reflexivity. Qed.

(** The sample stores satisfy the constraints of the schema. *)
Ltac distinct :=
  repeat (constructor;
          [ let H := fresh in
            intros H; repeat (destruct H as [H | H]; [discriminate H |]);
            exact H
          | ]);
  constructor.

Ltac each_row tac := repeat (constructor; [tac |]); constructor.

Ltac member := repeat (first [left; reflexivity | right]).

Ltac schema :=
  unfold well_formed, primary_keys, foreign_keys, checks; cbn;
  split; [split; [distinct | split; distinct] |];
  split; [each_row ltac:(split; member) |];
  split; [ each_row ltac:(split; vm_compute; discriminate)
         | each_row ltac:(vm_compute; reflexivity) ].

Example shop_well_formed : well_formed Fixtures.shop.
Proof. schema. Qed.

Example shoppers_well_formed : well_formed Fixtures.shoppers.
Proof. schema. Qed.

Example cadence_well_formed : well_formed Fixtures.cadence.
Proof. schema. Qed.

Example catalogue_well_formed : well_formed Fixtures.catalogue.
Proof. schema. Qed.

Example widgets_well_formed : well_formed Fixtures.widgets.
Proof. schema. Qed.

(* ================================================================== *)
(** * Customer segments *)
(* ================================================================== *)

Section Segments.
Variables (total_spent : Q) (total_orders : Z).

Lemma classify_cases :
  (vip total_spent total_orders
   /\ _classify_customer total_spent total_orders = "VIP Customer")
  \/ (~ vip total_spent total_orders /\ regular total_spent total_orders
      /\ _classify_customer total_spent total_orders = "Regular Customer")
  \/ (~ vip total_spent total_orders /\ ~ regular total_spent total_orders
      /\ 0 < total_orders
      /\ _classify_customer total_spent total_orders = "Occasional Buyer")
  \/ (~ vip total_spent total_orders /\ ~ regular total_spent total_orders
      /\ ~ 0 < total_orders
      /\ _classify_customer total_spent total_orders = "New User").
Proof.
  unfold vip, regular, _classify_customer.
  destruct (Qltb 2000 total_spent) eqn:E1;
    [apply Qltb_true in E1 | apply Qltb_false in E1];
    destruct (Qltb 1000 total_spent) eqn:E2;
    [apply Qltb_true in E2 | apply Qltb_false in E2
     | apply Qltb_true in E2 | apply Qltb_false in E2];
    destruct (Z.ltb_spec 10 total_orders);
    destruct (Z.ltb_spec 5 total_orders);
    destruct (Z.ltb_spec 0 total_orders); simpl;
    try lia; try lra;
    first [ left; split; [split; assumption | reflexivity]
          | right; left; split; [intros [? ?]; first [lia | lra] |];
            split; [first [left; assumption | right; assumption] | reflexivity]
          | right; right; left;
            split; [intros [? ?]; first [lia | lra] |];
            split; [intros [? | ?]; first [lia | lra] |];
            split; [assumption | reflexivity]
          | right; right; right;
            split; [intros [? ?]; first [lia | lra] |];
            split; [intros [? | ?]; first [lia | lra] |];
            split; [lia | reflexivity] ].
Qed.
End Segments.

(** C1. The segment is decided by [(total_spent, total_orders)] alone,
    through the ordered rules: VIP iff [total_spent > 2000] and
    [total_orders > 10]; otherwise Regular iff [total_spent > 1000] or
    [total_orders > 5]; otherwise Occasional iff [total_orders > 0];
    otherwise New.  At the boundary inputs, (2001, 11) is VIP, (2000, 11)
    and (1001, 1) are Regular, (0, 1) is Occasional and (0, 0) is New. *)
Theorem classify_customer_rules :
  (forall (total_spent : Q) (total_orders : Z),
     let segment := _classify_customer total_spent total_orders in
     let is_vip := (2000 < total_spent)%Q /\ 10 < total_orders in
     let is_regular := (1000 < total_spent)%Q \/ 5 < total_orders in
     (segment = "VIP Customer" <-> is_vip)
     /\ (segment = "Regular Customer" <-> ~ is_vip /\ is_regular)
     /\ (segment = "Occasional Buyer"
         <-> ~ is_vip /\ ~ is_regular /\ 0 < total_orders)
     /\ (segment = "New User"
         <-> ~ is_vip /\ ~ is_regular /\ ~ 0 < total_orders))
  /\ _classify_customer 2001 11 = "VIP Customer"
  /\ _classify_customer 2000 11 = "Regular Customer"
  /\ _classify_customer 1001 1 = "Regular Customer"
  /\ _classify_customer 0 1 = "Occasional Buyer"
  /\ _classify_customer 0 0 = "New User".
Proof.
  split; [| repeat split; reflexivity].
  intros ts n segment is_vip is_regular.
  destruct (classify_cases ts n)
    as [[Hv E] | [[Hv [Hr E]] | [[Hv [Hr [Ho E]]] | [Hv [Hr [Ho E]]]]]];
    unfold vip, regular in *; subst segment is_vip is_regular; rewrite E;
    repeat split; intros; try discriminate; try tauto.
Qed.

(* ================================================================== *)
(** * Purchase probability *)
(* ================================================================== *)

Lemma py_div_nonzero (a b : Q) :
  ~ (b == 0)%Q -> py_div a b = Ok (a / b)%Q.
Proof.
  intros H. unfold py_div. destruct (Qeq_bool b 0) eqn:E; [| reflexivity].
  apply Qeq_bool_iff in E. contradiction.
Qed.

Lemma calculate_purchase_probability_value (days_since avg_days : Q) :
  _calculate_purchase_probability days_since avg_days
  = Ok (if Qeq_bool avg_days 0 then (1 # 10)%Q
        else py_round (py_min 1 (py_max (1 # 10) (days_since / avg_days))) 2).
Proof.
  unfold _calculate_purchase_probability.
  destruct (Qeq_bool avg_days 0) eqn:E; [reflexivity |].
  rewrite py_div_nonzero; [reflexivity |].
  intros H. apply Qeq_bool_iff in H. congruence.
Qed.

Lemma probability_bounds (x : Q) :
  (1 # 10 <= py_round (py_min 1 (py_max (1 # 10) x)) 2 <= 1)%Q.
Proof.
  destruct (clamp_bounds x) as [Hlo Hhi]. split.
  - apply Qle_trans with (inject_Z 10 / inject_Z (10 ^ Z.of_nat 2))%Q;
      [vm_compute; discriminate |].
    apply py_round_ge.
    apply Qle_trans with (1 # 10)%Q; [vm_compute; discriminate | exact Hlo].
  - apply Qle_trans with (inject_Z 100 / inject_Z (10 ^ Z.of_nat 2))%Q;
      [| vm_compute; discriminate].
    apply py_round_le.
    apply Qle_trans with 1%Q; [exact Hhi | vm_compute; discriminate].
Qed.

(** C10. For every [days_since] and every [avg_days >= 0] the
    probability computation returns a value (it never raises
    [ZeroDivisionError]) and that value lies in [[0.1, 1.0]]: when
    [avg_days] is zero the guard returns 0.1, and the division is only
    evaluated for a nonzero [avg_days]. *)
Theorem calculate_purchase_probability_total :
  forall days_since avg_days : Q,
    (0 <= avg_days)%Q ->
    exists p : Q,
      _calculate_purchase_probability days_since avg_days = Ok p
      /\ (1 # 10 <= p)%Q /\ (p <= 1)%Q
      /\ ((avg_days == 0)%Q -> p = (1 # 10)%Q)
      /\ (~ (avg_days == 0)%Q ->
          py_div days_since avg_days = Ok (days_since / avg_days)%Q
          /\ p = py_round (py_min 1 (py_max (1 # 10) (days_since / avg_days))) 2).
Proof.
  intros d a _. rewrite calculate_purchase_probability_value.
  eexists. split; [reflexivity |].
  destruct (Qeq_bool a 0) eqn:E.
  - apply Qeq_bool_iff in E.
    split; [vm_compute; discriminate |].
    split; [vm_compute; discriminate |].
    split; [reflexivity | intros Hc; contradiction].
  - assert (Hne : ~ (a == 0)%Q)
      by (intros H; apply Qeq_bool_iff in H; congruence).
    destruct (probability_bounds (d / a)) as [Hlo Hhi].
    split; [exact Hlo |]. split; [exact Hhi |].
    split; [intros Hc; contradiction | intros _].
    split; [apply py_div_nonzero; assumption | reflexivity].
Qed.

Lemma calculate_purchase_probability_total_witness :
  (0 <= 4 # 3)%Q
  /\ exists p : Q,
      _calculate_purchase_probability 1 (4 # 3) = Ok p
      /\ (1 # 10 <= p)%Q /\ (p <= 1)%Q.
Proof.
  split; [vm_compute; discriminate |].
  destruct (calculate_purchase_probability_total 1 (4 # 3)) as [p [E [Hlo [Hhi _]]]];
    [vm_compute; discriminate |].
  exists p. repeat split; assumption.
Defined.

(* ================================================================== *)
(** * Running the accessor *)
(* ================================================================== *)

Lemma bind_ok {A B} (m : M A) (k : A -> M B) (s s' : Accessor) (a : A) :
  m s = (Ok a, s') -> bind m k s = k a s'.
Proof. intros H. unfold bind. now rewrite H. Qed.

Lemma inject_Z_pos_nonzero (n : Z) : 0 < n -> ~ (inject_Z n == 0)%Q.
Proof.
  intros Hn H. unfold Qeq in H. simpl in H. lia.
Qed.

(** [build_user_profile] returns the profile determined by the store,
    never raises, and leaves the cursor drained. *)
Lemma build_user_profile_run (uid : Z) (s : Accessor) :
  build_user_profile uid s = (Ok (profile_of (store s) uid), drained s).
Proof.
  unfold build_user_profile, profile_of, get_user_by_id, execute_fetchone,
    execute_fetchall, bind, drained.
  destruct (select_user uid (store s)) as [| user rest]; [reflexivity |].
  cbn [hd_error store cursor].
  destruct (0 <? Z.of_nat (length (select_user_orders uid (store s)))) eqn:E.
  - unfold lift. rewrite py_div_nonzero.
    + unfold ret, make_profile. now rewrite E.
    + apply inject_Z_pos_nonzero. now apply Z.ltb_lt.
  - unfold ret, make_profile. now rewrite E.
Qed.

Lemma build_user_profile_result (uid : Z) (s : Accessor) :
  fst (build_user_profile uid s) = Ok (profile_of (store s) uid).
Proof. now rewrite build_user_profile_run. Qed.

(* ================================================================== *)
(** * Profiles: determinism and the average order value *)
(* ================================================================== *)





Lemma profile_of_Some (db : DB) (uid : Z) (p : Profile) :
  profile_of db uid = Some p ->
  exists user rest,
    select_user uid db = user :: rest
    /\ p = make_profile user (select_user_orders uid db).
Proof.
  unfold profile_of. destruct (select_user uid db) as [| user rest];
    [discriminate |].
  intros H. injection H as <-. now exists user, rest.
Qed.




(** The segment of a profile is computed from the summed prices before
    they are rounded, and from the order count. *)
Lemma customer_segment_of_profile (s : Accessor) (uid : Z) (p : Profile) :
  fst (build_user_profile uid s) = Ok (Some p) ->
  customer_segment p
  = _classify_customer
      (py_sum (map or_total_price (select_user_orders uid (store s))))
      (total_orders p).
Proof.
  intros H. rewrite build_user_profile_result in H. injection H as H.
  apply profile_of_Some in H. destruct H as [user [rest [_ ->]]]. reflexivity.
Qed.

(* ================================================================== *)
(** * Stable descending sort *)
(* ================================================================== *)

Section Positions.
Context {A : Type}.

Lemma before_cons (a x y : A) (l : list A) :
  before (a :: l) x y <-> (a = x /\ In y l) \/ before l x y.
Proof.
  unfold before. split.
  - intros [l1 [l2 [l3 E]]]. destruct l1 as [| b l1]; simpl in E.
    + injection E as -> ->. left. split; [reflexivity |].
      apply in_or_app. right. now left.
    + injection E as _ ->. right. now exists l1, l2, l3.
  - intros [[-> Hy] | [l1 [l2 [l3 ->]]]].
    + apply in_split in Hy. destruct Hy as [l2 [l3 ->]]. now exists [], l2, l3.
    + now exists (a :: l1), l2, l3.
Qed.

Lemma before_nil (x y : A) : ~ before [] x y.
Proof. intros [l1 [l2 [l3 E]]]. destruct l1; discriminate. Qed.

Lemma before_In (l : list A) (x y : A) : before l x y -> In x l /\ In y l.
Proof.
  intros [l1 [l2 [l3 ->]]]. split.
  - apply in_or_app. right. now left.
  - apply in_or_app. right. right. apply in_or_app. right. now left.
Qed.

Lemma before_app_l (l l' : list A) (x y : A) :
  before l x y -> before (l ++ l') x y.
Proof.
  intros [l1 [l2 [l3 ->]]]. exists l1, l2, (l3 ++ l')%list.
  now rewrite <- !app_assoc, <- !app_comm_cons, <- app_assoc.
Qed.

Lemma before_firstn (n : nat) (l : list A) (x y : A) :
  before (firstn n l) x y -> before l x y.
Proof.
  intros H. rewrite <- (firstn_skipn n l). now apply before_app_l.
Qed.

Lemma before_nth (l : list A) (i j : nat) (x y : A) :
  nth_error l i = Some x -> nth_error l j = Some y -> (i < j)%nat ->
  before l x y.
Proof.
  revert i j. induction l as [| a l IH]; intros i j Hi Hj Hij.
  - destruct i; discriminate.
  - apply before_cons. destruct j as [| j]; [lia |]. destruct i as [| i].
    + left. simpl in Hi, Hj. injection Hi as ->.
      split; [reflexivity | eapply nth_error_In; eassumption].
    + right. apply (IH i j); simpl in *; auto; lia.
Qed.

Lemma before_sorted (R : A -> A -> Prop) (l : list A) (x y : A) :
  StronglySorted R l -> before l x y -> R x y.
Proof.
  induction 1 as [| a l Hs IH Hall]; intros Hb.
  - now apply before_nil in Hb.
  - apply before_cons in Hb. destruct Hb as [[-> Hy] | Hb]; [| auto].
    rewrite Forall_forall in Hall. auto.
Qed.

Lemma In_firstn (n : nat) (l : list A) (x : A) :
  In x (firstn n l) -> In x l.
Proof.
  intros H. rewrite <- (firstn_skipn n l). apply in_or_app. now left.
Qed.

Lemma sorted_firstn (R : A -> A -> Prop) (n : nat) (l : list A) :
  StronglySorted R l -> StronglySorted R (firstn n l).
Proof.
  intros H. revert n. induction H as [| a l Hs IH Hall]; intros n.
  - rewrite firstn_nil. constructor.
  - destruct n; simpl; constructor; [apply IH |].
    rewrite Forall_forall in *. intros z Hz. apply Hall.
    eapply In_firstn; eassumption.
Qed.
End Positions.

Section SortFacts.
Context {A K : Type} (key : A -> K) (lt : K -> K -> bool).

Lemma insert_desc_perm (x : A) (l : list A) :
  Permutation (insert_desc key lt x l) (x :: l).
Proof.
  induction l as [| y l IH]; simpl; [reflexivity |].
  destruct (lt (key x) (key y)); [| reflexivity].
  rewrite IH. apply perm_swap.
Qed.

Lemma sorted_reverse_perm (l : list A) :
  Permutation (sorted_reverse key lt l) l.
Proof.
  induction l as [| x l IH]; simpl; [reflexivity |].
  rewrite insert_desc_perm. now constructor.
Qed.

Lemma sorted_reverse_In (x : A) (l : list A) :
  In x (sorted_reverse key lt l) <-> In x l.
Proof.
  split; apply Permutation_in;
    [| apply Permutation_sym]; apply sorted_reverse_perm.
Qed.

Lemma sorted_reverse_length (l : list A) :
  length (sorted_reverse key lt l) = length l.
Proof. apply Permutation_length, sorted_reverse_perm. Qed.

(** Two elements come out of the sort in their original order unless the
    first one has the strictly larger key. *)
Lemma insert_desc_before (a : A) (s : list A) (x y : A) :
  before (insert_desc key lt a s) x y ->
  before s x y \/ (x = a /\ In y s)
  \/ (y = a /\ In x s /\ lt (key a) (key x) = true).
Proof.
  induction s as [| b s IH]; simpl.
  - intros H. apply before_cons in H.
    destruct H as [[_ []] | H]; now apply before_nil in H.
  - destruct (lt (key a) (key b)) eqn:E; intros H; apply before_cons in H.
    + destruct H as [[-> Hy] | H].
      * apply (Permutation_in _ (insert_desc_perm a s)) in Hy.
        destruct Hy as [<- | Hy].
        -- right. right. split; [reflexivity |]. split; [now left | exact E].
        -- left. apply before_cons. now left.
      * destruct (IH H) as [Hb | [[-> Hy] | [-> [Hx Hlt]]]].
        -- left. apply before_cons. now right.
        -- right. left. split; [reflexivity | now right].
        -- right. right. split; [reflexivity |]. split; [now right | exact Hlt].
    + destruct H as [[-> Hy] | H]; [right; left; now split | now left].
Qed.

Lemma sorted_reverse_before (l : list A) (x y : A) :
  before (sorted_reverse key lt l) x y ->
  before l x y \/ lt (key y) (key x) = true.
Proof.
  induction l as [| a l IH]; simpl; intros H.
  - now apply before_nil in H.
  - apply insert_desc_before in H.
    destruct H as [H | [[-> Hy] | [-> [_ Hlt]]]].
    + destruct (IH H) as [Hb | Hlt]; [| now right].
      left. apply before_cons. now right.
    + left. apply before_cons. left. split; [reflexivity |].
      exact (proj1 (sorted_reverse_In y l) Hy).
    + now right.
Qed.

Hypothesis lt_asym : forall a b, lt a b = true -> lt b a = false.
Hypothesis lt_negtrans :
  forall a b c, lt a b = false -> lt b c = false -> lt a c = false.

Lemma insert_desc_sorted (x : A) (l : list A) :
  descending key lt l -> descending key lt (insert_desc key lt x l).
Proof.
  unfold descending. induction 1 as [| y l Hs IH Hall]; simpl.
  - repeat constructor.
  - destruct (lt (key x) (key y)) eqn:E.
    + constructor; [exact IH |].
      apply (Permutation_Forall (Permutation_sym (insert_desc_perm x l))).
      constructor; [now apply lt_asym | exact Hall].
    + constructor; [now constructor |].
      constructor; [exact E |].
      rewrite Forall_forall in *. intros z Hz.
      eapply lt_negtrans; [exact E | now apply Hall].
Qed.

Lemma sorted_reverse_sorted (l : list A) :
  descending key lt (sorted_reverse key lt l).
Proof.
  induction l as [| x l IH]; simpl; [constructor |].
  now apply insert_desc_sorted.
Qed.
End SortFacts.

(* ================================================================== *)
(** * Facts about the queries *)
(* ================================================================== *)

Lemma Zltb_asym (a b : Z) : (a <? b) = true -> (b <? a) = false.
Proof. rewrite Z.ltb_lt, Z.ltb_ge. lia. Qed.

Lemma Zltb_negtrans (a b c : Z) :
  (a <? b) = false -> (b <? c) = false -> (a <? c) = false.
Proof. rewrite !Z.ltb_ge. lia. Qed.

Lemma descending_Z {A} (key : A -> Z) (l : list A) :
  descending key Z.ltb l -> StronglySorted (fun a b => key b <= key a) l.
Proof.
  unfold descending. induction 1 as [| a l Hs IH Hall]; constructor; auto.
  rewrite Forall_forall in *. intros b Hb. apply Z.ltb_ge. auto.
Qed.

Lemma filter_none {A} (f : A -> bool) (l : list A) :
  (forall x, In x l -> f x = false) -> filter f l = [].
Proof.
  induction l as [| a l IH]; intros H; simpl; [reflexivity |].
  rewrite (H a) by now left. apply IH. intros x Hx. apply H. now right.
Qed.

Lemma limit_firstn {A} (n : Z) (rows : list A) :
  Sql.limit n rows = firstn (limit_count n rows) rows.
Proof.
  unfold Sql.limit, limit_count. destruct (n <? 0); [| reflexivity].
  now rewrite firstn_all.
Qed.

Lemma limit_length {A} (n : Z) (rows : list A) :
  0 <= n -> Z.of_nat (length (Sql.limit n rows)) <= n.
Proof.
  intros Hn. unfold Sql.limit. destruct (Z.ltb_spec n 0); [lia |].
  pose proof (firstn_le_length (Z.to_nat n) rows). lia.
Qed.

Lemma limit_length_min {A} (n : Z) (rows : list A) :
  0 <= n -> length (Sql.limit n rows) = Nat.min (Z.to_nat n) (length rows).
Proof.
  intros Hn. unfold Sql.limit. destruct (Z.ltb_spec n 0); [lia |].
  apply length_firstn.
Qed.

(** The rows a [LIMIT] cuts off follow the rows it keeps. *)
Lemma limit_top {A} (key : A -> Z) (n : Z) (rows : list A) :
  descending key Z.ltb rows ->
  exists rest,
    rows = (Sql.limit n rows ++ rest)%list
    /\ forall r r', In r (Sql.limit n rows) -> In r' rest -> key r' <= key r.
Proof.
  intros Hs. rewrite limit_firstn. set (k := limit_count n rows).
  exists (skipn k rows). split; [now rewrite firstn_skipn |].
  intros r r' Hr Hr'. apply in_split in Hr, Hr'.
  destruct Hr as [a1 [a2 Ea]], Hr' as [b1 [b2 Eb]].
  apply descending_Z in Hs.
  apply (before_sorted _ rows r r' Hs).
  exists a1, (a2 ++ b1)%list, b2.
  rewrite <- (firstn_skipn k rows) at 1. rewrite Ea, Eb.
  rewrite <- !app_assoc. reflexivity.
Qed.

(** What the popularity query returns. *)
Lemma select_popular_products_spec (n : Z) (db : DB) :
  let in_stock :=
    map (with_count db) (filter (fun p => 0 <? stock_quantity p) (products db)) in
  let rows := select_popular_products n db in
  StronglySorted (fun a b => pc_count b <= pc_count a) rows
  /\ (forall r, In r rows ->
        In (pc_product r) (products db)
        /\ 0 < stock_quantity (pc_product r)
        /\ pc_count r = order_count db (pc_product r))
  /\ (0 <= n -> length rows = Nat.min (Z.to_nat n) (length in_stock))
  /\ exists rest,
       Permutation (rows ++ rest) in_stock
       /\ forall r r', In r rows -> In r' rest -> pc_count r' <= pc_count r.
Proof.
  intros in_stock rows. unfold select_popular_products in rows.
  fold in_stock in rows. unfold order_by_desc in rows.
  pose proof (sorted_reverse_sorted pc_count Z.ltb Zltb_asym Zltb_negtrans in_stock)
    as Hs.
  pose proof (sorted_reverse_perm pc_count Z.ltb in_stock) as Hp.
  set (sorted := sorted_reverse pc_count Z.ltb in_stock) in *.
  split; [| split; [| split]].
  - apply descending_Z. subst rows. rewrite limit_firstn.
    now apply sorted_firstn.
  - intros r Hr. subst rows. rewrite limit_firstn in Hr.
    apply In_firstn in Hr. apply (Permutation_in _ Hp) in Hr.
    unfold in_stock in Hr. apply in_map_iff in Hr.
    destruct Hr as [p [<- Hp']]. apply filter_In in Hp'.
    destruct Hp' as [Hin Hst]. apply Z.ltb_lt in Hst. now repeat split.
  - intros Hn. subst rows. rewrite limit_length_min by exact Hn.
    unfold sorted. now rewrite sorted_reverse_length.
  - destruct (limit_top pc_count n sorted Hs) as [rest [E Htop]].
    exists rest. split; [| exact Htop]. fold rows in E. now rewrite <- E.
Qed.

(* ================================================================== *)
(** * Recommendations *)
(* ================================================================== *)

(** A user absent from [users] has no profile. *)
Lemma absent_user_no_profile (db : DB) (uid : Z) :
  (forall u, In u (users db) -> user_id u <> uid) ->
  profile_of db uid = None.
Proof.
  intros H. unfold profile_of, select_user. rewrite filter_none; [reflexivity |].
  intros u Hu. apply Z.eqb_neq. now apply H.
Qed.

(** A user without orders has no favourite category. *)
Lemma no_orders_no_favorites (db : DB) (uid : Z) :
  (forall o, In o (orders db) -> order_user_id o <> uid) ->
  no_favorites db uid.
Proof.
  intros H. unfold no_favorites, profile_of.
  destruct (select_user uid db) as [| user rest]; [now left |].
  right. eexists. split; [reflexivity |].
  unfold select_user_orders. rewrite filter_none; [reflexivity |].
  intros o Ho. apply Z.eqb_neq. now apply H.
Qed.

Lemma get_popular_products_run (limit : Z) (s : Accessor) :
  _get_popular_products limit s
  = (Ok (select_popular_products limit (store s)), drained s).
Proof. reflexivity. Qed.

Lemma recommend_fallback_run (uid limit : Z) (s : Accessor) :
  no_favorites (store s) uid ->
  recommend_products_for_user uid limit s
  = (Ok (select_popular_products limit (store s)), drained s).
Proof.
  intros H. unfold recommend_products_for_user.
  rewrite (bind_ok _ _ _ _ _ (build_user_profile_run uid s)).
  destruct H as [-> | [p [-> Hp]]]; [reflexivity |].
  rewrite Hp. reflexivity.
Qed.

(** C5. A user whose profile is absent or has no favourite category --
    in particular a user id absent from the store, or a user without
    orders -- receives from [recommend_products_for_user] exactly the
    list [_get_popular_products limit] returns, in the same order: rows
    of in-stock products with their order counts, in descending count
    order, [min(limit, number of in-stock products)] of them, and no
    in-stock product left out has more orders than a listed one. *)
Theorem recommend_fallback_popular :
  forall (s : Accessor) (uid limit : Z),
    ((forall u, In u (users (store s)) -> user_id u <> uid) ->
     no_favorites (store s) uid)
    /\ ((forall o, In o (orders (store s)) -> order_user_id o <> uid) ->
        no_favorites (store s) uid)
    /\ (no_favorites (store s) uid ->
        exists (rows : list ProductCount) (s' : Accessor),
          recommend_products_for_user uid limit s = (Ok rows, s')
          /\ _get_popular_products limit s = (Ok rows, s')
          /\ StronglySorted (fun a b => pc_count b <= pc_count a) rows
          /\ (forall r, In r rows ->
                In (pc_product r) (products (store s))
                /\ 0 < stock_quantity (pc_product r)
                /\ pc_count r = order_count (store s) (pc_product r))
          /\ (0 <= limit ->
              length rows
              = Nat.min (Z.to_nat limit)
                  (length (filter (fun p => 0 <? stock_quantity p)
                                  (products (store s)))))
          /\ exists rest,
               Permutation (rows ++ rest)
                 (map (with_count (store s))
                      (filter (fun p => 0 <? stock_quantity p)
                              (products (store s))))
               /\ forall r r', In r rows -> In r' rest ->
                               pc_count r' <= pc_count r).
Proof.
  intros s uid limit. split; [| split].
  - intros H. left. now apply absent_user_no_profile.
  - apply no_orders_no_favorites.
  - intros H.
    exists (select_popular_products limit (store s)), (drained s).
    split; [now apply recommend_fallback_run |].
    split; [apply get_popular_products_run |].
    destruct (select_popular_products_spec limit (store s))
      as [Hsorted [Hrows [Hlen Htop]]].
    split; [exact Hsorted |]. split; [exact Hrows |].
    split; [| exact Htop].
    intros Hn. rewrite (Hlen Hn). now rewrite length_map.
Qed.

Lemma recommend_fallback_popular_witness :
  no_favorites Fixtures.shop 4
  /\ exists rows : list ProductCount,
       fst (recommend_products_for_user 4 2 (Fixtures.connect Fixtures.shop))
       = Ok rows
       /\ fst (_get_popular_products 2 (Fixtures.connect Fixtures.shop))
          = Ok rows
       /\ map (fun r => (product_id (pc_product r), pc_count r)) rows
          = [(3, 4); (6, 4)].
Proof.
  destruct (recommend_fallback_popular (Fixtures.connect Fixtures.shop) 4 2)
    as [_ [Horders Hfallback]].
  assert (Hno : no_favorites Fixtures.shop 4).
  { apply Horders. intros o Ho. vm_compute in Ho.
    repeat (destruct Ho as [<- | Ho]; [discriminate |]). destruct Ho. }
  split; [exact Hno |].
  destruct (Hfallback Hno) as [rows [s' [Hr [Hp _]]]].
  exists rows. rewrite Hr, Hp. split; [reflexivity |]. split; [reflexivity |].
  vm_compute in Hp. injection Hp as <- _. reflexivity.
Defined.

Lemma py_take_firstn {A} (n : Z) (l : list A) :
  exists k, py_take n l = firstn k l.
Proof. unfold py_take. destruct (n <? 0); eexists; reflexivity. Qed.

Lemma py_take_In {A} (n : Z) (l : list A) (x : A) :
  In x (py_take n l) -> In x l.
Proof.
  destruct (py_take_firstn n l) as [k ->]. apply In_firstn.
Qed.

Lemma py_take_nonneg {A} (n : Z) (l : list A) :
  0 <= n -> py_take n l = firstn (Z.to_nat n) l.
Proof. intros H. unfold py_take. destruct (Z.ltb_spec n 0); [lia | reflexivity]. Qed.

Lemma py_take_length {A} (n : Z) (l : list A) :
  0 <= n -> Z.of_nat (length (py_take n l)) <= n.
Proof.
  intros H. rewrite py_take_nonneg by exact H.
  pose proof (firstn_le_length (Z.to_nat n) l). lia.
Qed.

Lemma is_empty_false {A} (l : list A) : l <> [] -> is_empty l = false.
Proof. destruct l; [congruence | reflexivity]. Qed.

Lemma recommend_personal_run (uid limit : Z) (s : Accessor) (p : Profile) :
  profile_of (store s) uid = Some p -> favorite_categories p <> [] ->
  recommend_products_for_user uid limit s
  = (Ok (personal_recommendations (store s) p limit), drained s).
Proof.
  intros Hp Hf. unfold recommend_products_for_user.
  rewrite (bind_ok _ _ _ _ _ (build_user_profile_run uid s)), Hp.
  rewrite (is_empty_false _ Hf). reflexivity.
Qed.

Lemma text_in_Some (x : string) (cats : list string) :
  text_in x (map Some cats) = true -> In x cats.
Proof.
  unfold text_in. rewrite existsb_exists. intros [c [Hc E]].
  apply in_map_iff in Hc. destruct Hc as [c' [<- Hc']].
  apply String.eqb_eq in E. now subst.
Qed.

(** Every candidate of the personalised query is an in-stock product of
    one of the given categories. *)
Lemma select_category_products_In (cats : list string) (n : Z) (db : DB)
      (r : ProductCount) :
  In r (select_category_products cats n db) ->
  In (pc_product r) (products db)
  /\ In (category (pc_product r)) cats
  /\ 0 < stock_quantity (pc_product r).
Proof.
  unfold select_category_products, order_by_desc. rewrite limit_firstn.
  intros H. apply In_firstn in H. apply sorted_reverse_In in H.
  apply in_map_iff in H. destruct H as [p [<- H]].
  apply filter_In in H. destruct H as [Hin Hc].
  apply andb_true_iff in Hc. destruct Hc as [Hc Hs]. cbn [with_count pc_product].
  split; [exact Hin |]. split; [now apply text_in_Some | now apply Z.ltb_lt].
Qed.

(** C3. On the personalised path (the profile has a favourite category)
    no returned product has an id that occurs in the profile's
    recent-orders window, which is the first five rows of the user's
    order history, newest first; the returned list is the candidates of
    the favourite categories that survive this exclusion, cut to [limit],
    so it has at most [limit] rows and every row is such a candidate (no
    backfill).  The exclusion is bounded to the window: in the sample shop
    user 1 is recommended product 1, which the user's oldest, sixth order
    bought. *)
Theorem recommend_excludes_recent :
  (forall (s : Accessor) (uid limit : Z),
     has_favorites (store s) uid ->
     exists (p : Profile) (rows : list ProductCount) (s' : Accessor),
       profile_of (store s) uid = Some p
       /\ recommend_products_for_user uid limit s = (Ok rows, s')
       /\ recent_orders p = firstn 5 (select_user_orders uid (store s))
       /\ descending or_order_date Z.ltb (select_user_orders uid (store s))
       /\ (forall r o, In r rows -> In o (recent_orders p) ->
                       product_id (pc_product r) <> or_product_id o)
       /\ rows = personal_recommendations (store s) p limit
       /\ (0 <= limit -> Z.of_nat (length rows) <= limit)
       /\ (forall r, In r rows ->
             In (category (pc_product r)) (favorite_categories p)
             /\ 0 < stock_quantity (pc_product r)))
  /\ (exists (rows : list ProductCount) (r : ProductCount) (o : OrderRow),
        fst (recommend_products_for_user 1 5 (Fixtures.connect Fixtures.shop))
        = Ok rows
        /\ In r rows
        /\ In o (select_user_orders 1 Fixtures.shop)
        /\ product_id (pc_product r) = or_product_id o).
Proof.
  split.
  - intros s uid limit [p [Hp Hf]].
    exists p, (personal_recommendations (store s) p limit), (drained s).
    split; [exact Hp |].
    split; [now apply recommend_personal_run |].
    destruct (profile_of_Some _ _ _ Hp) as [user [rest [_ Ep]]].
    split; [now rewrite Ep |].
    split; [apply sorted_reverse_sorted; [apply Zltb_asym | apply Zltb_negtrans] |].
    split; [| split; [reflexivity | split]].
    + intros r o Hr Ho E. unfold personal_recommendations in Hr.
      apply py_take_In in Hr. apply filter_In in Hr. destruct Hr as [_ Hr].
      apply negb_true_iff in Hr.
      assert (Hex : existsb (Z.eqb (product_id (pc_product r)))
                            (map or_product_id (recent_orders p)) = true).
      { apply existsb_exists. exists (or_product_id o).
        split; [now apply in_map | now apply Z.eqb_eq]. }
      congruence.
    + intros Hn. now apply py_take_length.
    + intros r Hr. unfold personal_recommendations in Hr.
      apply py_take_In in Hr. apply filter_In in Hr. destruct Hr as [Hr _].
      apply select_category_products_In in Hr. tauto.
  - eexists. eexists. eexists. split; [reflexivity |].
    split; [left; reflexivity |].
    split; [vm_compute; do 5 right; left; reflexivity | reflexivity].
Qed.

Lemma recommend_excludes_recent_witness :
  has_favorites Fixtures.shop 1
  /\ exists rows : list ProductCount,
       fst (recommend_products_for_user 1 5 (Fixtures.connect Fixtures.shop))
       = Ok rows
       /\ forall r, In r rows -> product_id (pc_product r) <> 3.
Proof.
  assert (Hf : has_favorites Fixtures.shop 1).
  { eexists. split; [reflexivity |]. vm_compute. discriminate. }
  split; [exact Hf |].
  destruct recommend_excludes_recent as [H _].
  destruct (H (Fixtures.connect Fixtures.shop) 1 5 Hf)
    as [p [rows [s' [Hp [Hrun [_ [_ [Hex _]]]]]]]].
  exists rows. rewrite Hrun. split; [reflexivity |].
  intros r Hr. injection Hp as <-.
  apply (Hex r (join_order (Fixtures.mk_order 6 1 3 20 (Fixtures.day 15))
                           (Fixtures.mk_product 3 "Laptop" "Electronics" 2))
              Hr).
  vm_compute. left. reflexivity.
Defined.

(* ================================================================== *)
(** * Similar users *)
(* ================================================================== *)

Lemma lt_ZZ_asym (a b : Z * Z) : lt_ZZ a b = true -> lt_ZZ b a = false.
Proof.
  unfold lt_ZZ. destruct a as [a1 a2], b as [b1 b2]. cbn [fst snd].
  destruct (Z.ltb_spec a1 b1), (Z.ltb_spec b1 a1), (Z.eqb_spec a1 b1),
    (Z.eqb_spec b1 a1), (Z.ltb_spec a2 b2), (Z.ltb_spec b2 a2);
    simpl; intros; try reflexivity; try discriminate; lia.
Qed.

Lemma lt_ZZ_false (a b : Z * Z) :
  lt_ZZ a b = false <->
  fst b < fst a \/ (fst b = fst a /\ snd b <= snd a).
Proof.
  unfold lt_ZZ. destruct a as [a1 a2], b as [b1 b2]. cbn [fst snd].
  destruct (Z.ltb_spec a1 b1), (Z.eqb_spec a1 b1), (Z.ltb_spec a2 b2);
    simpl; split; intros; try reflexivity; try discriminate; lia.
Qed.

Lemma lt_ZZ_negtrans (a b c : Z * Z) :
  lt_ZZ a b = false -> lt_ZZ b c = false -> lt_ZZ a c = false.
Proof. rewrite !lt_ZZ_false. lia. Qed.

(** The one row a user contributes to the similar-users query. *)
Lemma similar_group_In (params : list (option string)) (db : DB)
      (u : User) (r : SimilarUser) :
  In r (similar_group params db u) ->
  su_user_id r = user_id u
  /\ su_username r = username u
  /\ common_categories r
     = Z.of_nat (length (nodup string_dec (matched_categories params db u)))
  /\ su_total_orders r = Z.of_nat (length (matched_categories params db u))
  /\ matched_categories params db u <> [].
Proof.
  unfold similar_group.
  destruct (matched_categories params db u) as [| c cs]; [intros [] |].
  intros [<- | []]. repeat split. discriminate.
Qed.

(** The rows of the similar-users query: each stands for a user other
    than the one asked about, and they are ordered by
    [(common_categories, total_orders)], largest first. *)
Lemma select_similar_users_spec (uid : Z) (params : list (option string))
      (n : Z) (db : DB) :
  let rows := select_similar_users uid params n db in
  (forall r, In r rows ->
     exists u, In u (users db) /\ user_id u <> uid
               /\ In r (similar_group params db u))
  /\ StronglySorted
       (fun a b =>
          common_categories b < common_categories a
          \/ (common_categories b = common_categories a
              /\ su_total_orders b <= su_total_orders a)) rows
  /\ (0 <= n -> Z.of_nat (length rows) <= n).
Proof.
  intros rows. unfold select_similar_users, order_by_desc in rows.
  split; [| split].
  - intros r Hr. subst rows. rewrite limit_firstn in Hr.
    apply In_firstn in Hr. apply sorted_reverse_In in Hr.
    apply in_flat_map in Hr. destruct Hr as [u [Hu Hr]].
    apply filter_In in Hu. destruct Hu as [Hu Hne].
    apply negb_true_iff, Z.eqb_neq in Hne. now exists u.
  - subst rows. rewrite limit_firstn. apply sorted_firstn.
    match goal with
    | |- StronglySorted _ (sorted_reverse ?k ?lt ?l) =>
        pose proof (sorted_reverse_sorted k lt lt_ZZ_asym lt_ZZ_negtrans l) as Hs
    end.
    unfold descending in Hs.
    induction Hs as [| a l Hs IH Hall]; constructor; [exact IH |].
    rewrite Forall_forall in *. intros b Hb.
    apply (proj1 (lt_ZZ_false _ _) (Hall b Hb)).
  - intros Hn. now apply limit_length.
Qed.

Lemma find_similar_users_run (uid limit : Z) (s : Accessor) :
  find_similar_users uid limit s
  = (Ok match profile_of (store s) uid with
        | None => []
        | Some p =>
            if is_empty (favorite_categories p) then []
            else
              let target := nodup string_dec (favorite_categories p) in
              select_similar_users uid
                (firstn 3 (map Some target ++ repeat None (3 - length target)))
                limit (store s)
        end,
     drained s).
Proof.
  unfold find_similar_users.
  rewrite (bind_ok _ _ _ _ _ (build_user_profile_run uid s)).
  destruct (profile_of (store s) uid) as [p |]; [| reflexivity].
  destruct (is_empty (favorite_categories p)); reflexivity.
Qed.

(** C8. [find_similar_users] always returns a list; no record in it
    carries the query user id; and the list is empty when the profile is
    absent or has no favourite category. *)
Theorem find_similar_users_excludes_self :
  forall (s : Accessor) (uid limit : Z),
    exists (rows : list SimilarUser) (s' : Accessor),
      find_similar_users uid limit s = (Ok rows, s')
      /\ (forall r, In r rows -> su_user_id r <> uid)
      /\ (no_favorites (store s) uid -> rows = []).
Proof.
  intros s uid limit. rewrite find_similar_users_run.
  eexists. eexists. split; [reflexivity |]. split.
  - intros r Hr. destruct (profile_of (store s) uid) as [p |]; [| destruct Hr].
    destruct (is_empty (favorite_categories p)); [destruct Hr |].
    apply select_similar_users_spec in Hr. destruct Hr as [u [_ [Hne Hr]]].
    apply similar_group_In in Hr. destruct Hr as [-> _]. exact Hne.
  - intros [-> | [p [-> ->]]]; reflexivity.
Qed.

Lemma find_similar_users_excludes_self_witness :
  no_favorites Fixtures.shop 4
  /\ fst (find_similar_users 4 5 (Fixtures.connect Fixtures.shop)) = Ok []
  /\ exists rows,
       fst (find_similar_users 2 5 (Fixtures.connect Fixtures.shop)) = Ok rows
       /\ forall r, In r rows -> su_user_id r <> 2.
Proof.
  assert (Hno : no_favorites Fixtures.shop 4).
  { right. eexists. split; reflexivity. }
  split; [exact Hno |]. split.
  - destruct (find_similar_users_excludes_self
                (Fixtures.connect Fixtures.shop) 4 5) as [rows [s' [E [_ H]]]].
    rewrite E. cbn [fst]. now rewrite (H Hno).
  - destruct (find_similar_users_excludes_self
                (Fixtures.connect Fixtures.shop) 2 5) as [rows [s' [E [H _]]]].
    exists rows. rewrite E. split; [reflexivity | exact H].
Defined.

(** What [find_similar_users] ranks by: at most three categories, all of
    them favourites of the target, are matched; each row reports the
    number of distinct matched categories among the candidate's orders
    and the number of the candidate's orders that matched; the rows are
    in descending order of that pair and at most [limit] many. *)
Lemma find_similar_users_ranking (s : Accessor) (uid limit : Z) (p : Profile) :
  profile_of (store s) uid = Some p -> favorite_categories p <> [] ->
  exists (rows : list SimilarUser) (params : list (option string)),
    fst (find_similar_users uid limit s) = Ok rows
    /\ (length params <= 3)%nat
    /\ (forall c, In (Some c) params -> In c (favorite_categories p))
    /\ StronglySorted
         (fun a b =>
            common_categories b < common_categories a
            \/ (common_categories b = common_categories a
                /\ su_total_orders b <= su_total_orders a)) rows
    /\ (0 <= limit -> Z.of_nat (length rows) <= limit)
    /\ (forall r, In r rows ->
          exists u, In u (users (store s))
            /\ su_user_id r = user_id u
            /\ common_categories r
               = Z.of_nat (length (nodup string_dec
                                     (matched_categories params (store s) u)))
            /\ su_total_orders r
               = Z.of_nat (length (matched_categories params (store s) u))).
Proof.
  intros Hp Hf. rewrite find_similar_users_run, Hp, (is_empty_false _ Hf).
  cbn [fst].
  set (target := nodup string_dec (favorite_categories p)).
  set (params := firstn 3 (map Some target ++ repeat None (3 - length target))).
  exists (select_similar_users uid params limit (store s)), params.
  split; [reflexivity |].
  split; [apply firstn_le_length |]. split.
  - intros c Hc. apply In_firstn in Hc. apply in_app_or in Hc.
    destruct Hc as [Hc | Hc].
    + apply in_map_iff in Hc. destruct Hc as [c' [E Hc]].
      assert (c' = c) by congruence. subst c'. now apply nodup_In in Hc.
    + apply repeat_spec in Hc. discriminate.
  - destruct (select_similar_users_spec uid params limit (store s))
      as [Hrows [Hs Hn]].
    split; [exact Hs |]. split; [exact Hn |].
    intros r Hr. destruct (Hrows r Hr) as [u [Hu [_ Hg]]].
    apply similar_group_In in Hg. exists u. tauto.
Qed.

(** C4. The second ranking key is not the candidate's total order count.
    Among the three shoppers, user 2 placed five orders and user 3 two;
    only one of user 2's orders is in the target's favourite category.
    [find_similar_users 1 5] reports [total_orders = 1] for user 2 and
    ranks user 2 below user 3. *)
Theorem find_similar_users_total_orders_divergence :
  fst (find_similar_users 1 5 (Fixtures.connect Fixtures.shoppers))
  = Ok [ {| su_user_id := 3; su_username := "u3";
            common_categories := 1; su_total_orders := 2 |};
         {| su_user_id := 2; su_username := "u2";
            common_categories := 1; su_total_orders := 1 |} ]
  /\ length (filter (fun o => order_user_id o =? 2)
                    (orders Fixtures.shoppers)) = 5%nat
  /\ length (filter (fun o => order_user_id o =? 3)
                    (orders Fixtures.shoppers)) = 2%nat.
Proof. vm_compute. repeat split. Qed.

(* ================================================================== *)
(** * Purchase prediction *)
(* ================================================================== *)

Lemma time_diffs_nonempty (orders : list OrderRow) :
  (2 <= length orders)%nat -> is_empty (time_diffs orders) = false.
Proof.
  destruct orders as [| o1 [| o2 rest]]; simpl; intros H;
    [lia | lia | reflexivity].
Qed.

Lemma predict_next_purchase_run (uid : Z) (now : datetime) (s : Accessor) :
  predict_next_purchase uid now s
  = (Ok match profile_of (store s) uid with
        | None => None
        | Some p =>
            match recent_orders p with
            | last_order :: _ :: _ => Some (prediction_of p last_order now)
            | _ => None
            end
        end,
     drained s).
Proof.
  unfold predict_next_purchase.
  rewrite (bind_ok _ _ _ _ _ (build_user_profile_run uid s)).
  destruct (profile_of (store s) uid) as [p |]; [| reflexivity].
  destruct (recent_orders p) as [| o1 [| o2 rest]] eqn:E;
    [reflexivity | reflexivity |].
  cbn [length Nat.ltb Nat.leb]. unfold bind, lift, py_index.
  cbn [nth_error]. rewrite calculate_purchase_probability_value.
  unfold ret, prediction_of. rewrite E.
  rewrite time_diffs_nonempty by (simpl; lia). reflexivity.
Qed.

Lemma py_round1_nonneg (x : Q) : (0 <= x)%Q -> (0 <= py_round x 1)%Q.
Proof.
  intros H.
  apply Qle_trans with (inject_Z 0 / inject_Z (10 ^ Z.of_nat 1))%Q;
    [vm_compute; discriminate |].
  apply py_round_ge.
  apply Qle_trans with 0%Q; [vm_compute; discriminate | exact H].
Qed.




(* ================================================================== *)
(** * Personalised search *)
(* ================================================================== *)

Lemma Qltb_asym (a b : Q) : Qltb a b = true -> Qltb b a = false.
Proof. rewrite Qltb_true, Qltb_false. apply Qlt_le_weak. Qed.

Lemma Qltb_negtrans (a b c : Q) :
  Qltb a b = false -> Qltb b c = false -> Qltb a c = false.
Proof. rewrite !Qltb_false. intros H1 H2. now apply Qle_trans with b. Qed.

Lemma existsb_eqb_In (x : string) (l : list string) :
  existsb (String.eqb x) l = true <-> In x l.
Proof.
  rewrite existsb_exists. split.
  - intros [y [Hy E]]. apply String.eqb_eq in E. now subst.
  - intros H. exists x. split; [exact H | apply String.eqb_refl].
Qed.

Lemma before_map {A B} (h : A -> B) (l : list A) (x' y' : B) :
  before (map h l) x' y' ->
  exists x y, x' = h x /\ y' = h y /\ before l x y.
Proof.
  intros [l1 [l2 [l3 E]]].
  apply map_eq_app in E. destruct E as [m1 [m2 [-> [_ E]]]].
  apply map_eq_cons in E. destruct E as [x [m3 [-> [<- E]]]].
  apply map_eq_app in E. destruct E as [m4 [m5 [-> [_ E]]]].
  apply map_eq_cons in E. destruct E as [y [m6 [-> [<- _]]]].
  exists x, y. split; [reflexivity |]. split; [reflexivity |].
  now exists m1, m4, m6.
Qed.

Section Decorated.
Context {A K : Type} (key : A -> K) (lt : K -> K -> bool).

Lemma insert_desc_decorated (x : A) (l : list A) :
  insert_desc fst lt (key x, x) (map (fun y => (key y, y)) l)
  = map (fun y => (key y, y)) (insert_desc key lt x l).
Proof.
  induction l as [| y l IH]; simpl; [reflexivity |].
  destruct (lt (key x) (key y)); simpl; [now rewrite IH | reflexivity].
Qed.

(** Sorting the pairs (key, element) on the key and dropping the keys
    is sorting the elements by their key. *)
Lemma sorted_reverse_decorated (l : list A) :
  map snd (sorted_reverse fst lt (map (fun y => (key y, y)) l))
  = sorted_reverse key lt l.
Proof.
  assert (E : sorted_reverse fst lt (map (fun y => (key y, y)) l)
              = map (fun y => (key y, y)) (sorted_reverse key lt l)).
  { induction l as [| x l IH]; simpl; [reflexivity |].
    now rewrite IH, insert_desc_decorated. }
  rewrite E, map_map. cbn [snd]. apply map_id.
Qed.
End Decorated.

Lemma decorate_relevance (favorite_cats : list string)
      (results : list SearchResult) :
  decorate relevance_key (map (set_relevance favorite_cats) results)
  = Ok (map (fun y => (relevance y, y))
            (map (set_relevance favorite_cats) results)).
Proof.
  induction results as [| x l IH]; simpl; [reflexivity |].
  now rewrite IH.
Qed.

(** Once every result has its score, sorting by relevance cannot raise. *)
Lemma sort_by_relevance_value (favorite_cats : list string)
      (results : list SearchResult) :
  sort_by_relevance (map (set_relevance favorite_cats) results)
  = Ok (sorted_reverse relevance Qltb
          (map (set_relevance favorite_cats) results)).
Proof.
  unfold sort_by_relevance. rewrite decorate_relevance. cbn [rbind].
  now rewrite sorted_reverse_decorated.
Qed.

Lemma search_personal_run (term : string) (uid : Z) (s : Accessor)
      (p : Profile) :
  uid <> 0 -> profile_of (store s) uid = Some p ->
  favorite_categories p <> [] ->
  get_smart_search_results term (Some uid) s
  = (Ok (ranked (favorite_categories p)
                (select_search ("%" ++ term ++ "%") (store s))),
     drained s).
Proof.
  intros Hu Hp Hf. unfold get_smart_search_results, truthy.
  apply Z.eqb_neq in Hu. rewrite Hu. cbn [negb].
  unfold bind at 1. unfold execute_fetchall at 1. cbv iota beta zeta.
  unfold bind at 1. unfold bind at 1.
  rewrite build_user_profile_run. cbn [store]. rewrite Hp.
  rewrite (is_empty_false _ Hf). unfold lift.
  rewrite sort_by_relevance_value. reflexivity.
Qed.

(** [if user_id:] treats the id 0 like no id. *)
Lemma search_user_zero (term : string) (s : Accessor) :
  get_smart_search_results term (Some 0) s
  = get_smart_search_results term None s.
Proof. reflexivity. Qed.

Lemma select_search_sorted (pattern : string) (db : DB) :
  descending pc_count Z.ltb (select_search pattern db).
Proof.
  unfold select_search, order_by_desc. rewrite limit_firstn.
  apply sorted_firstn, sorted_reverse_sorted;
    [apply Zltb_asym | apply Zltb_negtrans].
Qed.

Section Ranking.
Variables (favorite_cats : list string) (base : list ProductCount).
Hypothesis base_sorted : descending pc_count Z.ltb base.


Lemma ranked_shape (x : SearchResult) :
  In x (ranked favorite_cats base) ->
  exists r, In r base /\ x = set_relevance favorite_cats (of_row r).
Proof.
  unfold ranked, scored. intros H. apply py_take_In in H.
  apply sorted_reverse_In in H. rewrite map_map in H.
  apply in_map_iff in H. destruct H as [r [<- Hr]]. now exists r.
Qed.

Lemma ranked_score (x : SearchResult) :
  In x (ranked favorite_cats base) ->
  relevance_score x = Some (boosted favorite_cats x)
  /\ relevance x = boosted favorite_cats x.
Proof.
  intros H. destruct (ranked_shape x H) as [r [_ ->]]. split; reflexivity.
Qed.

Lemma boosted_favorite (x : SearchResult) :
  In (category (sr_product x)) favorite_cats ->
  boosted favorite_cats x = (inject_Z (popularity x) * (3 # 2))%Q.
Proof.
  intros H. unfold boosted. apply existsb_eqb_In in H. now rewrite H.
Qed.

Lemma boosted_other (x : SearchResult) :
  ~ In (category (sr_product x)) favorite_cats ->
  boosted favorite_cats x = inject_Z (popularity x).
Proof.
  intros H. unfold boosted.
  destruct (existsb (String.eqb (category (sr_product x))) favorite_cats) eqn:E;
    [| reflexivity].
  apply existsb_eqb_In in E. contradiction.
Qed.

Lemma ranked_sorted :
  StronglySorted (fun a b => (relevance b <= relevance a)%Q) (ranked favorite_cats base).
Proof.
  unfold ranked. destruct (py_take_firstn 10 (sorted_reverse relevance Qltb (scored favorite_cats base)))
    as [k ->].
  apply sorted_firstn.
  pose proof (sorted_reverse_sorted relevance Qltb Qltb_asym Qltb_negtrans (scored favorite_cats base))
    as Hs.
  unfold descending in Hs.
  induction Hs as [| a l Hs IH Hall]; constructor; [exact IH |].
  rewrite Forall_forall in *. intros b Hb. apply Qltb_false. auto.
Qed.

Lemma ranked_before (x y : SearchResult) :
  before (ranked favorite_cats base) x y ->
  (relevance y < relevance x)%Q \/ popularity y <= popularity x.
Proof.
  unfold ranked. destruct (py_take_firstn 10 (sorted_reverse relevance Qltb (scored favorite_cats base)))
    as [k ->].
  intros H. apply before_firstn, sorted_reverse_before in H.
  destruct H as [H | H]; [right | left; now apply Qltb_true].
  unfold scored in H. rewrite map_map in H. apply before_map in H.
  destruct H as [r1 [r2 [-> [-> H]]]].
  apply (before_sorted _ _ _ _ base_sorted) in H.
  apply Z.ltb_ge in H. exact H.
Qed.

(** A favourite-category result whose boosted popularity exceeds the
    popularity of a non-favourite result stands before it. *)
Lemma boosted_outranks (i j : nat) (f g : SearchResult) :
  nth_error (ranked favorite_cats base) i = Some f -> nth_error (ranked favorite_cats base) j = Some g ->
  In (category (sr_product f)) favorite_cats ->
  ~ In (category (sr_product g)) favorite_cats ->
  (inject_Z (popularity g) < inject_Z (popularity f) * (3 # 2))%Q ->
  (i < j)%nat.
Proof.
  intros Hi Hj Hf Hg Hlt.
  destruct (lt_eq_lt_dec i j) as [[Hij | Heq] | Hji]; [exact Hij | |].
  - subst j. rewrite Hi in Hj. injection Hj as ->. contradiction.
  - exfalso. pose proof (before_nth _ _ _ _ _ Hj Hi Hji) as Hb.
    apply (before_sorted _ _ _ _ ranked_sorted) in Hb.
    apply nth_error_In in Hi, Hj.
    rewrite (proj2 (ranked_score f Hi)), (proj2 (ranked_score g Hj)) in Hb.
    rewrite (boosted_favorite f Hf), (boosted_other g Hg) in Hb. lra.
Qed.

(** Conversely, a favourite-category result that stands before a
    non-favourite one of positive popularity has the larger boosted
    popularity: on a tie the non-favourite one, which came first in the
    base ranking, stays first. *)
Lemma outranks_boosted (i j : nat) (f g : SearchResult) :
  nth_error (ranked favorite_cats base) i = Some f -> nth_error (ranked favorite_cats base) j = Some g ->
  In (category (sr_product f)) favorite_cats ->
  ~ In (category (sr_product g)) favorite_cats ->
  (i < j)%nat -> 0 < popularity g ->
  (inject_Z (popularity g) < inject_Z (popularity f) * (3 # 2))%Q.
Proof.
  intros Hi Hj Hf Hg Hij Hq.
  pose proof (before_nth _ _ _ _ _ Hi Hj Hij) as Hb.
  apply nth_error_In in Hi, Hj.
  destruct (ranked_before f g Hb) as [H | H].
  - rewrite (proj2 (ranked_score f Hi)), (proj2 (ranked_score g Hj)) in H.
    now rewrite (boosted_favorite f Hf), (boosted_other g Hg) in H.
  - assert (Hq' : (0 < inject_Z (popularity g))%Q).
    { replace 0%Q with (inject_Z 0) by reflexivity. now rewrite <- Zlt_Qlt. }
    rewrite Zle_Qle in H. lra.
Qed.
End Ranking.

(** The search never raises and never returns more than ten results,
    with or without a user id. *)
Lemma search_at_most_ten (term : string) (user_id : option Z) (s : Accessor) :
  exists (results : list SearchResult) (s' : Accessor),
    get_smart_search_results term user_id s = (Ok results, s')
    /\ (length results <= 10)%nat.
Proof.
  assert (Hlen : forall l : list SearchResult, (length (py_take 10 l) <= 10)%nat).
  { intros l. pose proof (py_take_length 10 l). lia. }
  unfold get_smart_search_results.
  unfold bind at 1. unfold execute_fetchall at 1. cbv iota beta zeta.
  destruct user_id as [uid |]; [destruct (truthy (Some uid)) |].
  - unfold bind at 1. unfold bind at 1. rewrite build_user_profile_run.
    destruct (profile_of _ uid) as [p |].
    + destruct (is_empty (favorite_categories p)).
      * eexists. eexists. split; [reflexivity | apply Hlen].
      * unfold lift. rewrite sort_by_relevance_value.
        eexists. eexists. split; [reflexivity | apply Hlen].
    + eexists. eexists. split; [reflexivity | apply Hlen].
  - eexists. eexists. split; [reflexivity | apply Hlen].
  - eexists. eexists. split; [reflexivity | apply Hlen].
Qed.

(** The position rule fails when both popularities are 0: two products
    nobody ordered match the term, the one in the user's favourite
    category comes first in the base ranking and stays first, although
    [1.5 * 0 > 0] is false. *)
Lemma outranks_iff_boosted_counterexample :
  ~ (forall (s : Accessor) (term : string) (uid : Z) (p : Profile)
            (results : list SearchResult),
       profile_of (store s) uid = Some p ->
       favorite_categories p <> [] ->
       fst (get_smart_search_results term (Some uid) s) = Ok results ->
       outranks_iff_boosted (favorite_categories p) results).
Proof.
  intros H.
  set (p := make_profile (Fixtures.mk_user 1 "frank")
              (select_user_orders 1 Fixtures.catalogue)).
  set (f := set_relevance (favorite_categories p)
              (of_row (with_count Fixtures.catalogue
                         (Fixtures.mk_product 1 "Phone" "Electronics" 1)))).
  set (g := set_relevance (favorite_categories p)
              (of_row (with_count Fixtures.catalogue
                         (Fixtures.mk_product 2 "Phone book" "Books" 1)))).
  assert (Hne : favorite_categories p <> []) by (vm_compute; discriminate).
  assert (Hres : fst (get_smart_search_results "Phone" (Some 1)
                        (Fixtures.connect Fixtures.catalogue)) = Ok [f; g])
    by (vm_compute; reflexivity).
  assert (Hf : In (category (sr_product f)) (favorite_categories p))
    by (vm_compute; left; reflexivity).
  assert (Hg : ~ In (category (sr_product g)) (favorite_categories p))
    by (vm_compute; intros [E | []]; discriminate).
  destruct (H (Fixtures.connect Fixtures.catalogue) "Phone" 1 p [f; g]
              eq_refl Hne Hres 0%nat 1%nat f g eq_refl eq_refl Hf Hg)
    as [Hlt _].
  assert (Hpos : (0 < 1)%nat) by lia. specialize (Hlt Hpos).
  vm_compute in Hlt. discriminate.
Qed.

(** C7 (amended). [get_smart_search_results] returns at most 10 results
    for every term and every user id.  When a nonzero user id is given
    and that user's profile has favourite categories, every result in a
    favourite category has [relevance_score = popularity * 1.5], every
    other result has [relevance_score = popularity], and the list is in
    descending [relevance_score] order.  A favourite-category result of
    popularity [p] stands before a non-favourite result of popularity
    [q] whenever [1.5 * p > q]; and when it stands before one with
    [q > 0], then [1.5 * p > q]: on a tie with [q > 0] the non-favourite
    result stays first.  With popularities 8, 9 (favourite category) and
    12 (other category) the results come out as 9, 12, 8. *)
Theorem smart_search_ranking :
  (forall (term : string) (user_id : option Z) (s : Accessor),
     exists (results : list SearchResult) (s' : Accessor),
       get_smart_search_results term user_id s = (Ok results, s')
       /\ (length results <= 10)%nat)
  /\ (forall (s : Accessor) (term : string) (uid : Z) (p : Profile),
        uid <> 0 ->
        profile_of (store s) uid = Some p ->
        favorite_categories p <> [] ->
        exists (results : list SearchResult) (s' : Accessor),
          get_smart_search_results term (Some uid) s = (Ok results, s')
          /\ (forall x, In x results ->
                (In (category (sr_product x)) (favorite_categories p) ->
                 relevance_score x
                 = Some (inject_Z (popularity x) * (3 # 2))%Q)
                /\ (~ In (category (sr_product x)) (favorite_categories p) ->
                    relevance_score x = Some (inject_Z (popularity x))))
          /\ StronglySorted (fun a b => (relevance b <= relevance a)%Q) results
          /\ (forall (i j : nat) (f g : SearchResult),
                nth_error results i = Some f ->
                nth_error results j = Some g ->
                In (category (sr_product f)) (favorite_categories p) ->
                ~ In (category (sr_product g)) (favorite_categories p) ->
                ((inject_Z (popularity g)
                  < inject_Z (popularity f) * (3 # 2))%Q -> (i < j)%nat)
                /\ ((i < j)%nat -> 0 < popularity g ->
                    (inject_Z (popularity g)
                     < inject_Z (popularity f) * (3 # 2))%Q)))
  /\ (exists results : list SearchResult,
        fst (get_smart_search_results "widget" (Some 1)
               (Fixtures.connect Fixtures.widgets)) = Ok results
        /\ map (fun x => (category (sr_product x), popularity x)) results
           = [("Electronics", 9); ("Books", 12); ("Electronics", 8)]).
Proof.
  split; [exact search_at_most_ten | split].
  - intros s term uid p Hu Hp Hf.
    set (base := select_search ("%" ++ term ++ "%") (store s)).
    pose proof (select_search_sorted ("%" ++ term ++ "%") (store s)) as Hbase.
    fold base in Hbase.
    exists (ranked (favorite_categories p) base), (drained s).
    split; [now apply search_personal_run |]. split; [| split].
    + intros x Hx. destruct (ranked_score _ _ x Hx) as [-> _]. split; intros Hc.
      * now rewrite boosted_favorite.
      * now rewrite boosted_other.
    + apply ranked_sorted.
    + intros i j f g Hi Hj Hcf Hcg. split.
      * now apply (boosted_outranks (favorite_categories p) base i j f g).
      * now apply (outranks_boosted (favorite_categories p) base Hbase i j f g).
  - eexists. split; [vm_compute; reflexivity | reflexivity].
Qed.

Lemma smart_search_ranking_witness :
  1 <> 0
  /\ exists (p : Profile) (results : list SearchResult),
       profile_of Fixtures.widgets 1 = Some p
       /\ favorite_categories p = ["Electronics"]
       /\ fst (get_smart_search_results "widget" (Some 1)
                 (Fixtures.connect Fixtures.widgets)) = Ok results
       /\ StronglySorted (fun a b => (relevance b <= relevance a)%Q) results.
Proof.
  split; [discriminate |].
  destruct smart_search_ranking as [_ [H _]].
  assert (Hp : profile_of Fixtures.widgets 1
               = Some (make_profile (Fixtures.mk_user 1 "gina")
                         (select_user_orders 1 Fixtures.widgets)))
    by reflexivity.
  destruct (H (Fixtures.connect Fixtures.widgets) "widget" 1 _
              ltac:(discriminate) Hp ltac:(vm_compute; discriminate))
    as [results [s' [E [_ [Hs _]]]]].
  eexists. exists results. split; [exact Hp |].
  split; [vm_compute; reflexivity |]. rewrite E. split; [reflexivity | exact Hs].
Defined.

(* ================================================================== *)
(** * Lookups by unique id: what they return *)
(* ================================================================== *)

Import Lookups Orderings.

Lemma filter_key_unique {A} (key : A -> Z) (l : list A) (x : A) :
  NoDup (map key l) -> In x l ->
  filter (fun y => key y =? key x) l = [x].
Proof.
  induction l as [| a l IH]; intros Hnd Hin; [destruct Hin |].
  simpl in Hnd. inversion Hnd as [| k ks Hnotin Hnd' E]. subst.
  simpl. destruct Hin as [-> | Hin].
  - rewrite Z.eqb_refl. f_equal. apply filter_none.
    intros y Hy. apply Z.eqb_neq. intros E. apply Hnotin.
    rewrite <- E. now apply in_map.
  - destruct (Z.eqb_spec (key a) (key x)) as [E | _]; [| now apply IH].
    exfalso. apply Hnotin. rewrite E. now apply in_map.
Qed.

Lemma filter_key_unique_sym {A} (key : A -> Z) (l : list A) (x : A) :
  NoDup (map key l) -> In x l ->
  filter (fun y => key x =? key y) l = [x].
Proof.
  intros Hnd Hin. rewrite <- (filter_key_unique key l x Hnd Hin).
  apply filter_ext. intros y. apply Z.eqb_sym.
Qed.

Lemma hd_error_filter {A} (f : A -> bool) (l : list A) (x : A) :
  hd_error (filter f l) = Some x -> In x l /\ f x = true.
Proof.
  intros H. apply filter_In. destruct (filter f l) as [| y rest];
    [discriminate | injection H as ->; now left].
Qed.

Lemma hd_error_None {A} (l : list A) : hd_error l = None <-> l = [].
Proof. destruct l; split; intros H; try discriminate; reflexivity. Qed.

Lemma filter_nil_iff {A} (f : A -> bool) (l : list A) :
  filter f l = [] <-> forall x, In x l -> f x = false.
Proof.
  split; [| apply filter_none].
  intros H x Hx. destruct (f x) eqn:E; [| reflexivity].
  assert (Hin : In x (filter f l)) by (apply filter_In; now split).
  rewrite H in Hin. destruct Hin.
Qed.

(** Fetching the first row whose key is [k]. *)
Lemma lookup_by_key {A} (key : A -> Z) (l : list A) (k : Z) :
  let rows := filter (fun y => key y =? k) l in
  (forall x, hd_error rows = Some x -> In x l /\ key x = k)
  /\ (hd_error rows = None <-> forall x, In x l -> key x <> k)
  /\ (NoDup (map key l) ->
      tl rows = []
      /\ forall x, In x l -> key x = k -> hd_error rows = Some x).
Proof.
  intros rows. split; [| split].
  - intros x Hx. apply hd_error_filter in Hx. destruct Hx as [Hin E].
    split; [exact Hin | now apply Z.eqb_eq].
  - unfold rows. rewrite hd_error_None, filter_nil_iff.
    split; intros H x Hx; apply Z.eqb_neq; now apply H.
  - intros Hnd.
    assert (Hone : forall x, In x l -> key x = k -> rows = [x]).
    { intros x Hx <-. now apply filter_key_unique. }
    split.
    + destruct rows as [| x0 rest] eqn:E; [reflexivity |].
      assert (H0 : In x0 rows) by (rewrite E; now left).
      unfold rows in H0. apply filter_In in H0. destruct H0 as [Hin Hk].
      apply Z.eqb_eq in Hk. specialize (Hone x0 Hin Hk).
      injection Hone as ->. reflexivity.
    + intros x Hx Hk. now rewrite (Hone x Hx Hk).
Qed.

(** [get_user_by_id] returns a row of [users] that carries the requested
    id, and none exactly when no row carries it; the store is left as it
    was.  Under the primary-key constraint every stored user is found by
    its own id and no row stays pending in the cursor. *)
Theorem get_user_by_id_lookup :
  forall (uid : Z) (s : Accessor),
    exists (r : option User) (s' : Accessor),
      get_user_by_id uid s = (Ok r, s')
      /\ store s' = store s
      /\ (forall u, r = Some u -> In u (users (store s)) /\ user_id u = uid)
      /\ (r = None <-> forall u, In u (users (store s)) -> user_id u <> uid)
      /\ (primary_keys (store s) ->
          cursor s' = []
          /\ forall u, In u (users (store s)) -> user_id u = uid -> r = Some u).
Proof.
  intros uid s. unfold get_user_by_id, execute_fetchone, select_user.
  eexists. eexists. split; [reflexivity |]. cbn [store cursor].
  split; [reflexivity |].
  destruct (lookup_by_key user_id (users (store s)) uid) as [H1 [H2 H3]].
  split; [exact H1 |]. split; [exact H2 |].
  intros [Hpk _]. destruct (H3 Hpk) as [Htl Hfound].
  split; [now rewrite Htl | exact Hfound].
Qed.

Lemma get_user_by_id_lookup_witness :
  primary_keys Fixtures.shop
  /\ fst (get_user_by_id 2 (Fixtures.connect Fixtures.shop))
     = Ok (Some (Fixtures.mk_user 2 "bob"))
  /\ fst (get_user_by_id 9 (Fixtures.connect Fixtures.shop)) = Ok None.
Proof.
  assert (Hpk : primary_keys Fixtures.shop) by apply shop_well_formed.
  split; [exact Hpk |]. split.
  - destruct (get_user_by_id_lookup 2 (Fixtures.connect Fixtures.shop))
      as [r [s' [E [_ [_ [_ H]]]]]].
    rewrite E. cbn [fst]. f_equal. apply (H Hpk); [| reflexivity].
    cbn. right. left. reflexivity.
  - destruct (get_user_by_id_lookup 9 (Fixtures.connect Fixtures.shop))
      as [r [s' [E [_ [_ [H _]]]]]].
    rewrite E. cbn [fst]. f_equal. apply H. intros u Hu.
    cbn in Hu. repeat (destruct Hu as [<- | Hu]; [discriminate |]). destruct Hu.
Defined.

Lemma get_product_by_id_run (pid : Z) (s : LAccessor) :
  get_product_by_id pid s
  = (Ok (hd_error (select_product pid (lstore s))),
     {| lstore := lstore s;
        lcursor := map LProduct (tl (select_product pid (lstore s))) |}).
Proof. reflexivity. Qed.

(** [get_product_by_id] returns a row of [products] that carries the
    requested id, and none exactly when no row carries it.  Under the
    primary-key constraint every stored product is found by its own id
    and no row stays pending in the cursor. *)
Theorem get_product_by_id_lookup :
  forall (pid : Z) (s : LAccessor),
    exists (r : option Product) (s' : LAccessor),
      get_product_by_id pid s = (Ok r, s')
      /\ lstore s' = lstore s
      /\ (forall p, r = Some p ->
            In p (products (lstore s)) /\ product_id p = pid)
      /\ (r = None <->
          forall p, In p (products (lstore s)) -> product_id p <> pid)
      /\ (primary_keys (lstore s) ->
          lcursor s' = []
          /\ forall p, In p (products (lstore s)) -> product_id p = pid ->
                       r = Some p).
Proof.
  intros pid s. rewrite get_product_by_id_run. unfold select_product.
  eexists. eexists. split; [reflexivity |]. cbn [lstore lcursor].
  split; [reflexivity |].
  destruct (lookup_by_key product_id (products (lstore s)) pid) as [H1 [H2 H3]].
  split; [exact H1 |]. split; [exact H2 |].
  intros [_ [Hpk _]]. destruct (H3 Hpk) as [Htl Hfound].
  split; [now rewrite Htl | exact Hfound].
Qed.

Lemma get_product_by_id_lookup_witness :
  primary_keys Fixtures.shop
  /\ fst (get_product_by_id 3 {| lstore := Fixtures.shop; lcursor := [] |})
     = Ok (Some (Fixtures.mk_product 3 "Laptop" "Electronics" 2)).
Proof.
  assert (Hpk : primary_keys Fixtures.shop) by apply shop_well_formed.
  split; [exact Hpk |].
  destruct (get_product_by_id_lookup 3 {| lstore := Fixtures.shop; lcursor := [] |})
    as [r [s' [E [_ [_ [_ H]]]]]].
  rewrite E. cbn [fst]. f_equal. apply (H Hpk); [| reflexivity].
  cbn. right. right. left. reflexivity.
Defined.

Lemma filter_key_eq {A} (key : A -> Z) (l : list A) (x : A) (k : Z) :
  NoDup (map key l) -> In x l -> key x = k ->
  filter (fun y => k =? key y) l = [x].
Proof. intros Hnd Hin <-. now apply filter_key_unique_sym. Qed.

Lemma in_map_key {A} (key : A -> Z) (l : list A) (k : Z) :
  In k (map key l) -> exists x, In x l /\ key x = k.
Proof.
  intros H. apply in_map_iff in H. destruct H as [x [E Hx]]. now exists x.
Qed.

(** [get_order_by_id] returns the order with the requested id joined
    with its user's name and mail and its product's name and category.
    It returns none when no order carries the id.  Under the primary-key
    constraint an order whose user and product exist is returned with
    exactly their fields and nothing stays pending in the cursor, while
    an order whose user is missing is not returned; under the
    foreign-key constraint as well, every stored order is found by its
    id. *)
Theorem get_order_by_id_detail :
  forall (oid : Z) (s : LAccessor),
    exists (r : option OrderDetail) (s' : LAccessor),
      get_order_by_id oid s = (Ok r, s')
      /\ lstore s' = lstore s
      /\ (forall d, r = Some d ->
            order_id (od_order d) = oid
            /\ In (od_order d) (orders (lstore s))
            /\ exists u p,
                 In u (users (lstore s))
                 /\ user_id u = order_user_id (od_order d)
                 /\ In p (products (lstore s))
                 /\ product_id p = order_product_id (od_order d)
                 /\ d = detail (od_order d) u p)
      /\ ((forall o, In o (orders (lstore s)) -> order_id o <> oid) ->
          r = None)
      /\ (primary_keys (lstore s) ->
          forall o, In o (orders (lstore s)) -> order_id o = oid ->
            (forall u p,
               In u (users (lstore s)) -> user_id u = order_user_id o ->
               In p (products (lstore s)) ->
               product_id p = order_product_id o ->
               r = Some (detail o u p) /\ lcursor s' = [])
            /\ ((forall u, In u (users (lstore s)) ->
                           user_id u <> order_user_id o) ->
                r = None))
      /\ (well_formed (lstore s) ->
          forall o, In o (orders (lstore s)) -> order_id o = oid ->
            exists d, r = Some d /\ od_order d = o).
Proof.
  intros oid s. unfold get_order_by_id, lexecute_fetchone.
  eexists. eexists. split; [reflexivity |]. cbn [lstore lcursor].
  split; [reflexivity |].
  set (db := lstore s).
  assert (Hfound : primary_keys db ->
            forall o u p, In o (orders db) -> order_id o = oid ->
              In u (users db) -> user_id u = order_user_id o ->
              In p (products db) -> product_id p = order_product_id o ->
              select_order_detail oid db = [detail o u p]).
  { intros [Hu [Hp Ho]] o u p Hino Hoid Hinu Huid Hinp Hpid.
    unfold select_order_detail. subst oid.
    rewrite (filter_key_unique order_id _ o Ho Hino). cbn [flat_map].
    rewrite (filter_key_eq user_id _ u _ Hu Hinu Huid). cbn [flat_map].
    rewrite (filter_key_eq product_id _ p _ Hp Hinp Hpid). reflexivity. }
  split; [| split; [| split]].
  - intros d Hd.
    assert (Hin : In d (select_order_detail oid db)).
    { destruct (select_order_detail oid db); [discriminate |].
      injection Hd as ->. now left. }
    unfold select_order_detail in Hin.
    apply in_flat_map in Hin. destruct Hin as [o [Ho Hin]].
    apply filter_In in Ho. destruct Ho as [Ho Hoid]. apply Z.eqb_eq in Hoid.
    apply in_flat_map in Hin. destruct Hin as [u [Hu Hin]].
    apply filter_In in Hu. destruct Hu as [Hu Huid]. apply Z.eqb_eq in Huid.
    apply in_map_iff in Hin. destruct Hin as [p [<- Hp]].
    apply filter_In in Hp. destruct Hp as [Hp Hpid]. apply Z.eqb_eq in Hpid.
    cbn [detail od_order]. split; [exact Hoid |]. split; [exact Ho |].
    exists u, p. now repeat split.
  - intros H. unfold select_order_detail. rewrite filter_none; [reflexivity |].
    intros o Ho. apply Z.eqb_neq. now apply H.
  - intros Hpk o Hino Hoid. split.
    + intros u p Hinu Huid Hinp Hpid.
      now rewrite (Hfound Hpk o u p Hino Hoid Hinu Huid Hinp Hpid).
    + intros Hnone. destruct Hpk as [_ [_ Ho]].
      unfold select_order_detail. subst oid.
      rewrite (filter_key_unique order_id _ o Ho Hino). cbn [flat_map].
      rewrite (filter_none (fun u => order_user_id o =? user_id u));
        [reflexivity |].
      intros u Hu. apply Z.eqb_neq. intros E. now apply (Hnone u Hu).
  - intros [Hpk [Hfk _]] o Hino Hoid.
    unfold foreign_keys in Hfk. rewrite Forall_forall in Hfk.
    destruct (Hfk o Hino) as [Hu Hp].
    apply in_map_key in Hu, Hp.
    destruct Hu as [u [Hinu Huid]], Hp as [p [Hinp Hpid]].
    exists (detail o u p).
    now rewrite (Hfound Hpk o u p Hino Hoid Hinu Huid Hinp Hpid).
Qed.

Lemma get_order_by_id_detail_witness :
  well_formed Fixtures.shop
  /\ exists d,
       fst (get_order_by_id 8 {| lstore := Fixtures.shop; lcursor := [] |})
       = Ok (Some d)
       /\ od_username d = "bob" /\ od_product_name d = "Ball".
Proof.
  split; [apply shop_well_formed |].
  destruct (get_order_by_id_detail 8 {| lstore := Fixtures.shop; lcursor := [] |})
    as [r [s' [E [_ [_ [_ [_ H]]]]]]].
  destruct (H shop_well_formed (Fixtures.mk_order 8 2 6 3 (Fixtures.day 4)))
    as [d [-> Hd]]; [cbn; do 7 right; left; reflexivity | reflexivity |].
  exists d. rewrite E. split; [reflexivity |].
  vm_compute in E. injection E as <- _. split; reflexivity.
Defined.

Lemma filter_map_comm {A B} (f : B -> bool) (g : A -> B) (l : list A) :
  filter f (map g l) = map g (filter (fun x => f (g x)) l).
Proof.
  induction l as [| a l IH]; simpl; [reflexivity |].
  destruct (f (g a)); simpl; now rewrite IH.
Qed.

Lemma id_in_In (ids : list Z) (id : Z) : id_in ids id = true <-> In id ids.
Proof.
  unfold id_in. rewrite existsb_exists. split.
  - intros [x [Hx E]]. apply Z.eqb_eq in E. now subst.
  - intros H. exists id. split; [exact H | apply Z.eqb_refl].
Qed.

(** The batch query keeps the rows of the table whose id is listed. *)
Lemma select_records_filter (t : Table) (ids : list Z) (db : DB) :
  select_records t ids db
  = filter (fun r => id_in ids (row_id r)) (table_rows t db).
Proof. destruct t; unfold select_records, table_rows; now rewrite filter_map_comm. Qed.

Lemma table_rows_ids (t : Table) (db : DB) :
  primary_keys db -> NoDup (map row_id (table_rows t db)).
Proof.
  intros [Hu [Hp Ho]]. destruct t; unfold table_rows; rewrite map_map;
    cbn [row_id]; assumption.
Qed.

Lemma NoDup_map_filter {A B} (g : A -> B) (f : A -> bool) (l : list A) :
  NoDup (map g l) -> NoDup (map g (filter f l)).
Proof.
  induction l as [| a l IH]; simpl; intros H; [constructor |].
  inversion H as [| x xs Hnotin Hnd E]. subst.
  destruct (f a); simpl; [| now apply IH].
  constructor; [| now apply IH].
  intros Hin. apply Hnotin. apply in_map_iff in Hin.
  destruct Hin as [y [E Hy]]. apply filter_In in Hy. rewrite <- E.
  apply in_map. tauto.
Qed.

(** [get_multiple_records] filters on the key column of the named table
    and returns exactly the rows of that table whose id is among [ids],
    in table order: ids that no row carries are skipped, no ids give no
    rows, and the order and repetition of [ids] do not matter.  Under
    the primary-key constraint no row is returned twice, so there are at
    most as many rows as distinct ids. *)
Theorem get_multiple_records_rows :
  forall (t : Table) (ids : list Z) (s : LAccessor),
    exists (rows : list LRow) (s' : LAccessor),
      get_multiple_records t ids s = (Ok rows, s')
      /\ lstore s' = lstore s
      /\ id_column (table_name t) = primary_key_column t
      /\ rows = filter (fun r => id_in ids (row_id r)) (table_rows t (lstore s))
      /\ (forall r, In r rows <->
                    In r (table_rows t (lstore s)) /\ In (row_id r) ids)
      /\ (ids = [] -> rows = [])
      /\ (forall ids', (forall i, In i ids <-> In i ids') ->
                       fst (get_multiple_records t ids' s) = Ok rows)
      /\ (primary_keys (lstore s) ->
          NoDup (map row_id rows)
          /\ (length rows <= length (nodup Z.eq_dec ids))%nat).
Proof.
  intros t ids s. unfold get_multiple_records, lexecute_fetchall.
  eexists. eexists. split; [reflexivity |]. cbn [lstore fst].
  split; [reflexivity |]. split; [now destruct t |].
  rewrite select_records_filter. split; [reflexivity |].
  split; [| split; [| split]].
  - intros r. rewrite filter_In, id_in_In. reflexivity.
  - intros ->. apply filter_none. reflexivity.
  - intros ids' H. rewrite select_records_filter. f_equal.
    apply filter_ext. intros r.
    destruct (id_in ids (row_id r)) eqn:E.
    + apply id_in_In, H, id_in_In, E.
    + destruct (id_in ids' (row_id r)) eqn:E'; [| reflexivity].
      apply id_in_In, H, id_in_In in E'. congruence.
  - intros Hpk.
    assert (Hnd : NoDup (map row_id
                     (filter (fun r => id_in ids (row_id r))
                             (table_rows t (lstore s)))))
      by (apply NoDup_map_filter, table_rows_ids, Hpk).
    split; [exact Hnd |].
    rewrite <- (length_map row_id). apply NoDup_incl_length; [exact Hnd |].
    intros i Hi. apply nodup_In. apply in_map_iff in Hi.
    destruct Hi as [r [<- Hr]]. apply filter_In in Hr.
    now apply id_in_In.
Qed.

Lemma get_multiple_records_rows_witness :
  primary_keys Fixtures.shop
  /\ fst (get_multiple_records users_table [3; 1; 1; 7]
            {| lstore := Fixtures.shop; lcursor := [] |})
     = Ok [LUser (Fixtures.mk_user 1 "alice"); LUser (Fixtures.mk_user 3 "carol")]
  /\ fst (get_multiple_records users_table [7; 1; 3]
            {| lstore := Fixtures.shop; lcursor := [] |})
     = Ok [LUser (Fixtures.mk_user 1 "alice"); LUser (Fixtures.mk_user 3 "carol")].
Proof.
  split; [apply shop_well_formed |].
  destruct (get_multiple_records_rows users_table [3; 1; 1; 7]
              {| lstore := Fixtures.shop; lcursor := [] |})
    as [rows [s' [E [_ [_ [Hrows [_ [_ [Hsame _]]]]]]]]].
  assert (Er : rows = [LUser (Fixtures.mk_user 1 "alice");
                       LUser (Fixtures.mk_user 3 "carol")])
    by (rewrite Hrows; reflexivity).
  rewrite E. cbn [fst]. split; [now rewrite Er |].
  rewrite <- Er. apply Hsame. intros i. cbn. tauto.
Defined.

(* ================================================================== *)
(** * Segments and probabilities are monotone *)
(* ================================================================== *)

(** Spending more or ordering more never lowers the segment, in the
    order New User < Occasional Buyer < Regular Customer < VIP
    Customer. *)
Theorem classify_customer_monotone :
  forall (spent spent' : Q) (n n' : Z),
    (spent <= spent')%Q -> n <= n' ->
    (segment_rank (_classify_customer spent n)
     <= segment_rank (_classify_customer spent' n'))%nat.
Proof.
  intros ts ts' n n' Hts Hn.
  destruct (classify_cases ts n)
    as [[Hv E] | [[Hv [Hr E]] | [[Hv [Hr [Ho E]]] | [Hv [Hr [Ho E]]]]]];
    destruct (classify_cases ts' n')
      as [[Hv' E'] | [[Hv' [Hr' E']] | [[Hv' [Hr' [Ho' E']]] | [Hv' [Hr' [Ho' E']]]]]];
    rewrite E, E'; cbn; try lia; exfalso;
    unfold vip, regular in *;
    repeat match goal with
           | H : _ /\ _ |- _ => destruct H
           end;
    first
      [ apply Hv'; split; first [lia | lra]
      | apply Hr';
        match goal with
        | H : _ \/ _ |- _ => destruct H; [left; lra | right; lia]
        end
      | apply Hr'; first [left; lra | right; lia]
      | lia ].
Qed.

Lemma classify_customer_monotone_witness :
  (segment_rank (_classify_customer 500 3)
   <= segment_rank (_classify_customer 1500 3))%nat
  /\ _classify_customer 500 3 = "Occasional Buyer"
  /\ _classify_customer 1500 3 = "Regular Customer".
Proof.
  split; [| split; reflexivity].
  apply classify_customer_monotone; [vm_compute; discriminate | lia].
Defined.

Lemma round_half_even_monotone (x y : Q) :
  (x <= y)%Q -> round_half_even x <= round_half_even y.
Proof.
  intros H. pose proof (Qfloor_resp_le _ _ H) as Hf.
  destruct (Z.eq_dec (Qfloor x) (Qfloor y)) as [E | Hne].
  - unfold round_half_even. rewrite <- E.
    destruct (x - inject_Z (Qfloor x) ?= 1 # 2)%Q eqn:Cx;
      destruct (y - inject_Z (Qfloor x) ?= 1 # 2)%Q eqn:Cy;
      try lia; try (destruct (Z.even (Qfloor x)); lia); exfalso;
      repeat match goal with
             | C : (_ ?= _)%Q = Eq |- _ => apply Qeq_alt in C
             | C : (_ ?= _)%Q = Lt |- _ => apply Qlt_alt in C
             | C : (_ ?= _)%Q = Gt |- _ => apply Qgt_alt in C
             end; lra.
  - destruct (round_half_even_floor x) as [Ex | Ex],
      (round_half_even_floor y) as [Ey | Ey]; rewrite Ex, Ey; lia.
Qed.

Lemma py_round_monotone (x y : Q) (n : nat) :
  (x <= y)%Q -> (py_round x n <= py_round y n)%Q.
Proof.
  intros H. unfold py_round. set (m := inject_Z (10 ^ Z.of_nat n)).
  assert (Hm : (0 < m)%Q) by apply pow10_pos.
  apply Qmult_le_compat_r; [| apply Qlt_le_weak, Qinv_lt_0_compat, Hm].
  rewrite <- Zle_Qle. apply round_half_even_monotone.
  apply Qmult_le_compat_r; [exact H | now apply Qlt_le_weak].
Qed.

Lemma clamp_monotone (x y : Q) :
  (x <= y)%Q ->
  (py_min 1 (py_max (1 # 10) x) <= py_min 1 (py_max (1 # 10) y))%Q.
Proof.
  intros H. unfold py_min, py_max.
  destruct (Qltb (1 # 10) x) eqn:E1, (Qltb (1 # 10) y) eqn:E2;
    repeat match goal with
           | |- context [Qltb ?a ?b] =>
               let E := fresh "E" in destruct (Qltb a b) eqn:E
           end;
    repeat match goal with
           | E : Qltb _ _ = true |- _ => apply Qltb_true in E
           | E : Qltb _ _ = false |- _ => apply Qltb_false in E
           end; lra.
Qed.

Lemma Qdiv_monotone (x y a : Q) :
  (0 < a)%Q -> (x <= y)%Q -> (x / a <= y / a)%Q.
Proof.
  intros Ha H. apply Qmult_le_compat_r; [exact H |].
  now apply Qlt_le_weak, Qinv_lt_0_compat.
Qed.

Lemma Qpos_nonzero (a : Q) : (0 < a)%Q -> Qeq_bool a 0 = false.
Proof.
  intros Ha. destruct (Qeq_bool a 0) eqn:E; [| reflexivity].
  apply Qeq_bool_iff in E. lra.
Qed.

(** For a positive average gap the purchase probability never decreases
    as the days since the last order grow; it is 0.1 while those days
    are at most a tenth of the gap and 1 once they reach the gap. *)
Theorem purchase_probability_monotone :
  forall (avg_days d d' : Q),
    (0 < avg_days)%Q -> (d <= d')%Q ->
    exists p p' : Q,
      _calculate_purchase_probability d avg_days = Ok p
      /\ _calculate_purchase_probability d' avg_days = Ok p'
      /\ (p <= p')%Q
      /\ (d * 10 <= avg_days -> p == 1 # 10)%Q
      /\ (avg_days <= d -> p == 1)%Q.
Proof.
  intros a d d' Ha Hd. rewrite !calculate_purchase_probability_value.
  rewrite (Qpos_nonzero a Ha). eexists. eexists.
  split; [reflexivity |]. split; [reflexivity |]. split; [| split].
  - apply py_round_monotone, clamp_monotone, Qdiv_monotone; assumption.
  - intros H. apply Qle_antisym; [| apply probability_bounds].
    apply Qle_trans with (py_round (1 # 10) 2); [| vm_compute; discriminate].
    apply py_round_monotone.
    assert (Hr : (d / a <= 1 # 10)%Q).
    { apply Qle_shift_div_r; [exact Ha | lra]. }
    unfold py_min, py_max. destruct (Qltb (1 # 10) (d / a)) eqn:E1;
      [apply Qltb_true in E1; lra |].
    destruct (Qltb (1 # 10) 1) eqn:E2; [lra | vm_compute in E2; discriminate].
  - intros H. apply Qle_antisym; [apply probability_bounds |].
    apply Qle_trans with (py_round 1 2); [vm_compute; discriminate |].
    apply py_round_monotone.
    assert (Hr : (1 <= d / a)%Q).
    { apply Qle_shift_div_l; [exact Ha | lra]. }
    unfold py_min, py_max. destruct (Qltb (1 # 10) (d / a)) eqn:E1;
      [| apply Qltb_false in E1; lra].
    destruct (Qltb (d / a) 1) eqn:E2; [apply Qltb_true in E2; lra | lra].
Qed.

Lemma purchase_probability_monotone_witness :
  exists p p' : Q,
    _calculate_purchase_probability 3 10 = Ok p
    /\ _calculate_purchase_probability 7 10 = Ok p'
    /\ (p <= p')%Q /\ (p == 3 # 10)%Q /\ (p' == 7 # 10)%Q.
Proof.
  destruct (purchase_probability_monotone 10 3 7) as [p [p' [E [E' [H _]]]]];
    [vm_compute; reflexivity | vm_compute; discriminate |].
  exists p, p'. split; [exact E |]. split; [exact E' |]. split; [exact H |].
  vm_compute in E, E'. injection E as <-. injection E' as <-.
  split; reflexivity.
Defined.

(* ================================================================== *)
(** * The category dictionaries of a profile *)
(* ================================================================== *)

Section Dictionaries.
Context {V : Type} (plus : V -> V -> V) (zero : V).

Lemma dict_get_add (k c : string) (v : V) (d : list (string * V)) :
  dict_get zero (dict_add plus zero k v d) c
  = if String.eqb c k then plus (dict_get zero d k) v else dict_get zero d c.
Proof.
  induction d as [| [k' v'] d IH]; simpl.
  - destruct (String.eqb c k); reflexivity.
  - destruct (String.eqb_spec k k') as [<- | Hkk']; simpl.
    + destruct (String.eqb c k); reflexivity.
    + rewrite IH. destruct (String.eqb_spec c k') as [-> | Hck'].
      * destruct (String.eqb_spec k' k) as [E | _]; [congruence | reflexivity].
      * reflexivity.
Qed.

Lemma dict_add_keys (k : string) (v : V) (d : list (string * V)) :
  map fst (dict_add plus zero k v d)
  = if existsb (String.eqb k) (map fst d) then map fst d
    else (map fst d ++ [k])%list.
Proof.
  induction d as [| [k' v'] d IH]; simpl; [reflexivity |].
  destruct (String.eqb k k'); simpl; [reflexivity |].
  rewrite IH. destruct (existsb (String.eqb k) (map fst d)); reflexivity.
Qed.

Lemma dict_add_In (k c : string) (v : V) (d : list (string * V)) :
  In c (map fst (dict_add plus zero k v d)) <-> c = k \/ In c (map fst d).
Proof.
  rewrite dict_add_keys.
  destruct (existsb (String.eqb k) (map fst d)) eqn:E.
  - apply existsb_eqb_In in E. split; [now right |].
    intros [-> | H]; assumption.
  - rewrite in_app_iff. simpl. split.
    + intros [H | [<- | []]]; [now right | now left].
    + intros [-> | H]; [right; now left | now left].
Qed.

Lemma dict_add_NoDup (k : string) (v : V) (d : list (string * V)) :
  NoDup (map fst d) -> NoDup (map fst (dict_add plus zero k v d)).
Proof.
  intros H. rewrite dict_add_keys.
  destruct (existsb (String.eqb k) (map fst d)) eqn:E; [exact H |].
  apply NoDup_app; [exact H | repeat constructor; intros [] |].
  intros x Hx [<- | []].
  apply existsb_eqb_In in Hx. congruence.
Qed.

Lemma dict_get_In (d : list (string * V)) (c : string) (v : V) :
  NoDup (map fst d) -> In (c, v) d -> dict_get zero d c = v.
Proof.
  induction d as [| [k' v'] d IH]; simpl; intros Hnd Hin; [destruct Hin |].
  inversion Hnd as [| x xs Hnotin Hnd' E]. subst.
  destruct Hin as [E | Hin].
  - injection E as -> ->. now rewrite String.eqb_refl.
  - destruct (String.eqb_spec c k') as [-> | _]; [| now apply IH].
    exfalso. apply Hnotin. change k' with (fst (k', v)). now apply in_map.
Qed.
End Dictionaries.

Lemma fold_left_pair {A B C} (f : A -> C -> A) (g : B -> C -> B)
      (l : list C) (a : A) (b : B) :
  fold_left (fun acc x => (f (fst acc) x, g (snd acc) x)) l (a, b)
  = (fold_left f l a, fold_left g l b).
Proof.
  revert a b. induction l as [| x l IH]; intros a b; simpl; [reflexivity |].
  apply IH.
Qed.

Lemma count_categories_pair (orders : list OrderRow) :
  count_categories orders
  = (fold_left (tally Z.add 0 (fun _ => 1)) orders [],
     fold_left (tally Qplus 0%Q or_total_price) orders []).
Proof.
  exact (fold_left_pair (tally Z.add 0 (fun _ => 1))
           (tally Qplus 0%Q or_total_price) orders [] []).
Qed.

Section Folded.
Context {V : Type} (plus : V -> V -> V) (zero : V) (value : OrderRow -> V).

Lemma tally_In (orders : list OrderRow) (d : list (string * V)) (c : string) :
  In c (map fst (fold_left (tally plus zero value) orders d))
  <-> In c (map fst d) \/ exists o, In o orders /\ or_category o = c.
Proof.
  revert d. induction orders as [| o l IH]; intros d; simpl.
  - split; [now left | intros [H | [o [[] _]]]; exact H].
  - rewrite IH. unfold tally. rewrite dict_add_In. split.
    + intros [[-> | H] | [o' [Ho' E]]]; [right | now left | right].
      * exists o. split; [now left | reflexivity].
      * exists o'. split; [now right | exact E].
    + intros [H | [o' [[<- | Ho'] E]]].
      * left. now right.
      * left. left. now symmetry.
      * right. now exists o'.
Qed.

Lemma tally_NoDup (orders : list OrderRow) (d : list (string * V)) :
  NoDup (map fst d) -> NoDup (map fst (fold_left (tally plus zero value) orders d)).
Proof.
  revert d. induction orders as [| o l IH]; intros d H; simpl; [exact H |].
  apply IH. now apply dict_add_NoDup.
Qed.

Lemma tally_get (orders : list OrderRow) (d : list (string * V)) (c : string) :
  dict_get zero (fold_left (tally plus zero value) orders d) c
  = fold_left plus (map value (filter (in_category c) orders))
              (dict_get zero d c).
Proof.
  revert d. induction orders as [| o l IH]; intros d; simpl; [reflexivity |].
  rewrite IH. unfold tally. rewrite dict_get_add. unfold in_category at 2.
  rewrite (String.eqb_sym c).
  destruct (String.eqb_spec (or_category o) c) as [<- | _]; reflexivity.
Qed.
End Folded.

(* ================================================================== *)
(** * Favourite categories *)
(* ================================================================== *)

Lemma lt_ZQ_false (a b : Z * Q) : lt_ZQ a b = false <-> le_ZQ b a.
Proof.
  unfold lt_ZQ, le_ZQ. destruct a as [a1 a2], b as [b1 b2]. cbn [fst snd].
  rewrite orb_false_iff, andb_false_iff, Z.ltb_ge, Z.eqb_neq, Qltb_false.
  split.
  - intros [H1 [H2 | H2]]; [left; lia |].
    destruct (Z.eq_dec b1 a1) as [E | Hne]; [right; now split | left; lia].
  - intros [H | [H1 H2]]; [split; [lia | left; lia] |].
    split; [lia | now right].
Qed.

Lemma lt_ZQ_asym (a b : Z * Q) : lt_ZQ a b = true -> lt_ZQ b a = false.
Proof.
  intros H. apply lt_ZQ_false. unfold lt_ZQ, le_ZQ in *.
  destruct a as [a1 a2], b as [b1 b2]. cbn [fst snd] in *.
  apply orb_true_iff in H. destruct H as [H | H].
  - left. now apply Z.ltb_lt.
  - apply andb_true_iff in H. destruct H as [H1 H2].
    apply Z.eqb_eq in H1. apply Qltb_true in H2.
    right. split; [exact H1 | now apply Qlt_le_weak].
Qed.

Lemma le_ZQ_trans (a b c : Z * Q) : le_ZQ a b -> le_ZQ b c -> le_ZQ a c.
Proof.
  unfold le_ZQ. intros [H1 | [H1 H1']] [H2 | [H2 H2']].
  - left. lia.
  - left. lia.
  - left. lia.
  - right. split; [lia | now apply Qle_trans with (snd b)].
Qed.

Lemma lt_ZQ_negtrans (a b c : Z * Q) :
  lt_ZQ a b = false -> lt_ZQ b c = false -> lt_ZQ a c = false.
Proof.
  rewrite !lt_ZQ_false. intros H1 H2. now apply le_ZQ_trans with b.
Qed.

Lemma fold_left_ones {A} (l : list A) (z : Z) :
  fold_left Z.add (map (fun _ => 1) l) z = z + Z.of_nat (length l).
Proof.
  revert z. induction l as [| a l IH]; intros z; simpl length; simpl map;
    simpl fold_left; [lia |].
  rewrite IH. lia.
Qed.

Lemma NoDup_firstn {A} (n : nat) (l : list A) : NoDup l -> NoDup (firstn n l).
Proof.
  intros H. rewrite <- (firstn_skipn n l) in H.
  now apply NoDup_app_remove_r in H.
Qed.

Lemma firstn_skipn_before {A} (k : nat) (l : list A) (x y : A) :
  In x (firstn k l) -> In y (skipn k l) -> before l x y.
Proof.
  intros Hx Hy. apply in_split in Hx, Hy.
  destruct Hx as [a1 [a2 Ea]], Hy as [b1 [b2 Eb]].
  exists a1, (a2 ++ b1)%list, b2.
  rewrite <- (firstn_skipn k l) at 1. rewrite Ea, Eb.
  rewrite <- !app_assoc. reflexivity.
Qed.

Lemma StronglySorted_map_In {A B} (R : A -> A -> Prop) (R' : B -> B -> Prop)
      (f : A -> B) (l : list A) :
  StronglySorted R l ->
  (forall a b, In a l -> In b l -> R a b -> R' (f a) (f b)) ->
  StronglySorted R' (map f l).
Proof.
  induction 1 as [| a l Hs IH Hall]; intros H; simpl; constructor.
  - apply IH. intros x y Hx Hy. apply H; now right.
  - rewrite Forall_forall in *. intros y Hy. apply in_map_iff in Hy.
    destruct Hy as [b [<- Hb]]. apply H; [now left | now right | now apply Hall].
Qed.

Section Favourites.
Variable orders : list OrderRow.

(** The entries of [category_counts] are the categories of the orders,
    once each, with the number of orders in the category. *)
Lemma category_counts_entries :
  NoDup (map fst (fst (count_categories orders)))
  /\ (forall c, In c (map fst (fst (count_categories orders)))
                <-> exists o, In o orders /\ or_category o = c)
  /\ (forall c n, In (c, n) (fst (count_categories orders)) ->
                  n = category_count orders c).
Proof.
  rewrite count_categories_pair. cbn [fst].
  assert (Hnd : NoDup (map fst (fold_left (tally Z.add 0 (fun _ => 1)) orders [])))
    by (apply tally_NoDup; constructor).
  split; [exact Hnd |]. split.
  - intros c. rewrite tally_In. simpl. tauto.
  - intros c n Hin. rewrite <- (dict_get_In 0 _ c n Hnd Hin).
    rewrite tally_get, fold_left_ones. reflexivity.
Qed.

(** [category_spending] holds, for each category, the summed price of
    its orders. *)
Lemma category_spending_get (c : string) :
  dict_get 0%Q (snd (count_categories orders)) c = category_spend orders c.
Proof. rewrite count_categories_pair. cbn [snd]. apply tally_get. Qed.
End Favourites.

Section Ranked.
Variables (user : User) (orders : list OrderRow).

(** The ranked entries of [category_counts], before the top three are
    taken. *)
Lemma favorites_from_pairs :
  exists pairs : list (string * Z),
    favorite_categories (make_profile user orders) = map fst (firstn 3 pairs)
    /\ Permutation pairs (fst (count_categories orders))
    /\ StronglySorted
         (fun a b => le_ZQ (category_key orders (fst b))
                           (category_key orders (fst a))) pairs.
Proof.
  eexists. split; [reflexivity |].
  split; [apply sorted_reverse_perm |].
  match goal with
  | |- StronglySorted _ (sorted_reverse ?k ?lt ?l) =>
      pose proof (sorted_reverse_sorted k lt lt_ZQ_asym lt_ZQ_negtrans l) as Hs;
      pose proof (sorted_reverse_perm k lt l) as Hp;
      set (pairs := sorted_reverse k lt l) in *
  end.
  unfold descending in Hs.
  assert (Hkey : forall x, In x pairs ->
            (snd x, dict_get 0%Q (snd (count_categories orders)) (fst x))
            = category_key orders (fst x)).
  { intros [c n] Hx. apply (Permutation_in _ Hp) in Hx. cbn [fst snd].
    unfold category_key. rewrite category_spending_get.
    now rewrite (proj2 (proj2 (category_counts_entries orders)) c n Hx). }
  rewrite <- (map_id pairs).
  apply (StronglySorted_map_In _ _ (fun x => x) pairs Hs).
  intros a b Ha Hb H. apply lt_ZQ_false in H.
  now rewrite (Hkey a Ha), (Hkey b Hb) in H.
Qed.

Lemma favorites_members :
  let favs := favorite_categories (make_profile user orders) in
  NoDup favs
  /\ length favs
     = Nat.min 3 (length (nodup string_dec (map or_category orders)))
  /\ (forall c, In c favs -> exists o, In o orders /\ or_category o = c)
  /\ (favs = [] <-> orders = []).
Proof.
  intros favs. destruct favorites_from_pairs as [pairs [E [Hp _]]].
  fold favs in E.
  destruct (category_counts_entries orders) as [Hnd [Hin _]].
  assert (Hnd' : NoDup (map fst pairs)).
  { apply (Permutation_NoDup (Permutation_sym (Permutation_map fst Hp))), Hnd. }
  assert (Hcats : forall c, In c (map fst pairs)
                            <-> In c (map or_category orders)).
  { intros c. split.
    - intros H. apply (Permutation_in _ (Permutation_map fst Hp)) in H.
      apply Hin in H. destruct H as [o [Ho <-]]. now apply in_map.
    - intros H. apply in_map_iff in H. destruct H as [o [<- Ho]].
      apply (Permutation_in _ (Permutation_sym (Permutation_map fst Hp))).
      apply Hin. now exists o. }
  assert (Hlen : length favs
                 = Nat.min 3 (length (nodup string_dec (map or_category orders)))).
  { rewrite E, length_map, length_firstn. f_equal.
    rewrite <- (length_map fst pairs). apply Permutation_length.
    apply NoDup_Permutation; [exact Hnd' | apply NoDup_nodup |].
    intros c. rewrite Hcats. symmetry. apply nodup_In. }
  split; [| split; [exact Hlen | split]].
  - rewrite E, <- firstn_map. now apply NoDup_firstn.
  - intros c Hc. rewrite E, <- firstn_map in Hc. apply In_firstn in Hc.
    apply Hcats in Hc. apply in_map_iff in Hc. destruct Hc as [o [Eo Ho]].
    now exists o.
  - split.
    + intros Hnil. rewrite Hnil in Hlen. simpl in Hlen.
      destruct orders as [| o rest]; [reflexivity |]. exfalso.
      assert (Ho : In (or_category o)
                      (nodup string_dec (map or_category (o :: rest))))
        by (apply nodup_In; now left).
      destruct (nodup string_dec (map or_category (o :: rest)));
        [destruct Ho | simpl in Hlen; lia].
    + intros Hnil. apply length_zero_iff_nil. rewrite Hlen.
      rewrite Hnil. reflexivity.
Qed.

End Ranked.

(** The favourite categories of a profile are up to three distinct
    categories of the user's orders -- three, or all of them when the
    orders span fewer -- and there is none exactly when the user has no
    order. *)
Theorem favorite_categories_members :
  forall (s : Accessor) (uid : Z) (p : Profile),
    profile_of (store s) uid = Some p ->
    let orders := select_user_orders uid (store s) in
    NoDup (favorite_categories p)
    /\ length (favorite_categories p)
       = Nat.min 3 (length (nodup string_dec (map or_category orders)))
    /\ (forall c, In c (favorite_categories p) ->
                  exists o, In o orders /\ or_category o = c)
    /\ (favorite_categories p = [] <-> orders = []).
Proof.
  intros s uid p Hp orders.
  destruct (profile_of_Some _ _ _ Hp) as [user [rest [_ ->]]].
  apply favorites_members.
Qed.

Lemma favorite_categories_members_witness :
  exists p : Profile,
    profile_of Fixtures.shop 1 = Some p
    /\ favorite_categories p = ["Electronics"; "Books"]
    /\ NoDup (favorite_categories p).
Proof.
  eexists. split; [reflexivity |]. split; [reflexivity |].
  exact (proj1 (favorite_categories_members
                  (Fixtures.connect Fixtures.shop) 1 _ eq_refl)).
Defined.



(* ================================================================== *)
(** * The order history of a profile *)
(* ================================================================== *)

Lemma fold_left_Qplus (l : list Q) (a : Q) :
  (fold_left Qplus l a == a + fold_right Qplus 0 l)%Q.
Proof.
  revert a. induction l as [| x l IH]; intros a; simpl; [ring |].
  rewrite IH. ring.
Qed.

Lemma fold_right_Qplus_perm (l l' : list Q) :
  Permutation l l' -> (fold_right Qplus 0 l == fold_right Qplus 0 l')%Q.
Proof.
  induction 1 as [| x l l' _ IH | x y l | l l' l'' _ IH1 _ IH2]; simpl.
  - reflexivity.
  - now rewrite IH.
  - ring.
  - now rewrite IH1.
Qed.

(** [sum] does not depend on the order of the numbers. *)
Lemma py_sum_perm (l l' : list Q) :
  Permutation l l' -> (py_sum l == py_sum l')%Q.
Proof.
  intros H. unfold py_sum. rewrite !fold_left_Qplus.
  now rewrite (fold_right_Qplus_perm l l' H).
Qed.

Lemma round_half_even_comp (x y : Q) :
  (x == y)%Q -> round_half_even x = round_half_even y.
Proof.
  intros H. apply Z.le_antisymm; apply round_half_even_monotone; rewrite H;
    apply Qle_refl.
Qed.

Lemma py_round_comp (x y : Q) (n : nat) :
  (x == y)%Q -> py_round x n = py_round y n.
Proof.
  intros H. unfold py_round. f_equal. f_equal.
  apply round_half_even_comp. now rewrite H.
Qed.

(** Under the key constraints every order joins with exactly one
    product, so a projection of the joined rows is the projection of the
    orders. *)
Lemma join_projection {X} (db : DB) (proj_row : OrderRow -> X)
      (proj_order : Order -> X) (os : list Order) :
  (forall o p, proj_row (join_order o p) = proj_order o) ->
  well_formed db -> incl os (orders db) ->
  map proj_row
      (flat_map
         (fun o => map (join_order o)
                       (filter (fun p => order_product_id o =? product_id p)
                               (products db))) os)
  = map proj_order os.
Proof.
  intros Hproj [[_ [Hpk _]] [Hfk _]] Hincl.
  unfold foreign_keys in Hfk. rewrite Forall_forall in Hfk.
  induction os as [| o os IH]; [reflexivity |].
  cbn [flat_map]. rewrite map_app, IH by (intros x Hx; apply Hincl; now right).
  destruct (Hfk o (Hincl o (or_introl eq_refl))) as [_ Hp].
  apply in_map_key in Hp. destruct Hp as [p [Hinp Hpid]].
  rewrite (filter_key_eq product_id _ p _ Hpk Hinp Hpid).
  cbn [map app]. now rewrite Hproj.
Qed.

Lemma user_orders_incl (db : DB) (uid : Z) : incl (user_orders db uid) (orders db).
Proof. intros o Ho. unfold user_orders in Ho. now apply filter_In in Ho. Qed.

(** The rows of the order-history query are the user's orders, each
    joined with a product that carries its product id, newest first. *)
Lemma select_user_orders_rows (uid : Z) (db : DB) :
  (forall r, In r (select_user_orders uid db) ->
     exists o pr,
       In o (orders db) /\ order_user_id o = uid
       /\ In pr (products db) /\ product_id pr = order_product_id o
       /\ r = join_order o pr)
  /\ StronglySorted (fun a b => or_order_date b <= or_order_date a)
                    (select_user_orders uid db).
Proof.
  unfold select_user_orders, order_by_desc. split.
  - intros r Hr. apply sorted_reverse_In in Hr.
    apply in_flat_map in Hr. destruct Hr as [o [Ho Hr]].
    apply filter_In in Ho. destruct Ho as [Ho Hu]. apply Z.eqb_eq in Hu.
    apply in_map_iff in Hr. destruct Hr as [pr [<- Hpr]].
    apply filter_In in Hpr. destruct Hpr as [Hpr Hp]. apply Z.eqb_eq in Hp.
    exists o, pr. now repeat split.
  - apply descending_Z, sorted_reverse_sorted;
      [apply Zltb_asym | apply Zltb_negtrans].
Qed.

(** A profile belongs to the stored user with the requested id.  Its
    order rows are that user's orders joined with their products, newest
    first; [total_orders] counts them and [recent_orders] is their first
    five, so no order outside the window is newer than one inside.
    Under the schema's key constraints every order of the user appears
    exactly once: [total_orders] is the number of the user's orders and
    [total_spent] the rounded sum of their prices. *)
Theorem profile_order_history :
  forall (s : Accessor) (uid : Z) (p : Profile),
    profile_of (store s) uid = Some p ->
    let rows := select_user_orders uid (store s) in
    In (user_info p) (users (store s))
    /\ user_id (user_info p) = uid
    /\ total_orders p = Z.of_nat (length rows)
    /\ (forall r, In r rows ->
          exists o pr,
            In o (orders (store s)) /\ order_user_id o = uid
            /\ In pr (products (store s))
            /\ product_id pr = order_product_id o
            /\ r = join_order o pr)
    /\ StronglySorted (fun a b => or_order_date b <= or_order_date a) rows
    /\ recent_orders p = firstn 5 rows
    /\ (length (recent_orders p) <= 5)%nat
    /\ (forall r r', In r (recent_orders p) -> In r' (skipn 5 rows) ->
                     or_order_date r' <= or_order_date r)
    /\ (well_formed (store s) ->
        total_orders p = Z.of_nat (length (user_orders (store s) uid))
        /\ total_spent p
           = py_round (py_sum (map total_price (user_orders (store s) uid))) 2
        /\ Permutation (map or_order_id rows)
                       (map order_id (user_orders (store s) uid))).
Proof.
  intros s uid p Hp rows.
  destruct (profile_of_Some _ _ _ Hp) as [user [rest [Hu ->]]].
  fold rows. cbn [user_info total_orders recent_orders total_spent make_profile].
  destruct (select_user_orders_rows uid (store s)) as [Hrows Hsorted].
  fold rows in Hrows, Hsorted.
  assert (Hin : In user (select_user uid (store s))) by (rewrite Hu; now left).
  unfold select_user in Hin. apply filter_In in Hin.
  destruct Hin as [Hin Hid]. apply Z.eqb_eq in Hid.
  split; [exact Hin |]. split; [exact Hid |]. split; [reflexivity |].
  split; [exact Hrows |]. split; [exact Hsorted |]. split; [reflexivity |].
  split; [apply firstn_le_length |]. split.
  - intros r r' Hr Hr'.
    apply (before_sorted _ rows r r' Hsorted).
    now apply (firstn_skipn_before 5).
  - intros Hwf.
    assert (Hperm : forall X (f : OrderRow -> X) (g : Order -> X),
              (forall o pr, f (join_order o pr) = g o) ->
              Permutation (map f rows) (map g (user_orders (store s) uid))).
    { intros X f g Hfg.
      rewrite <- (join_projection (store s) f g (user_orders (store s) uid)
                    Hfg Hwf (user_orders_incl _ _)).
      apply Permutation_map. unfold rows, select_user_orders, order_by_desc.
      apply sorted_reverse_perm. }
    split; [| split].
    + rewrite <- (length_map or_order_id rows).
      rewrite (Permutation_length (Hperm _ or_order_id order_id
                                     (fun _ _ => eq_refl))).
      now rewrite length_map.
    + apply py_round_comp, py_sum_perm.
      apply (Hperm _ or_total_price total_price). reflexivity.
    + apply (Hperm _ or_order_id order_id). reflexivity.
Qed.

Lemma profile_order_history_witness :
  well_formed Fixtures.shop
  /\ exists p : Profile,
       profile_of Fixtures.shop 1 = Some p
       /\ total_orders p = 6
       /\ map or_order_id (recent_orders p) = [6; 5; 4; 3; 2]
       /\ total_spent p
          = py_round (py_sum (map total_price (user_orders Fixtures.shop 1))) 2.
Proof.
  split; [apply shop_well_formed |].
  eexists. split; [reflexivity |]. split; [reflexivity |].
  split; [reflexivity |].
  destruct (profile_order_history (Fixtures.connect Fixtures.shop) 1 _ eq_refl)
    as [_ [_ [_ [_ [_ [_ [_ [_ H]]]]]]]].
  exact (proj1 (proj2 (H shop_well_formed))).
Defined.

(** A profile is in the segment New User exactly when the user has no
    order; such a profile has spent nothing, has no favourite category
    and an empty recent-orders window. *)
Theorem profile_new_user :
  forall (s : Accessor) (uid : Z) (p : Profile),
    profile_of (store s) uid = Some p ->
    (customer_segment p = "New User" <-> total_orders p = 0)
    /\ (total_orders p = 0 ->
        (total_spent p == 0)%Q /\ (avg_order_value p == 0)%Q
        /\ favorite_categories p = [] /\ recent_orders p = []).
Proof.
  intros s uid p Hp.
  destruct (profile_of_Some _ _ _ Hp) as [user [rest [_ ->]]].
  set (rows := select_user_orders uid (store s)).
  destruct rows as [| r rows'] eqn:E.
  - split; [split; reflexivity |]. intros _. repeat split.
  - assert (Hn : 0 < total_orders (make_profile user (r :: rows')))
      by (cbn [total_orders make_profile length]; lia).
    split; [| intros H0; lia]. split; [| intros H0; lia].
    intros Hseg. exfalso.
    cbn [customer_segment make_profile] in Hseg.
    cbn [total_orders make_profile] in Hn.
    match type of Hseg with
    | _classify_customer ?ts ?n = _ =>
        destruct (classify_cases ts n)
          as [[_ Ec] | [[_ [_ Ec]] | [[_ [_ [_ Ec]]] | [_ [_ [Ho _]]]]]];
        [ rewrite Ec in Hseg; discriminate
        | rewrite Ec in Hseg; discriminate
        | rewrite Ec in Hseg; discriminate
        | now apply Ho ]
    end.
Qed.

Lemma profile_new_user_witness :
  exists p : Profile,
    profile_of Fixtures.shop 4 = Some p
    /\ customer_segment p = "New User"
    /\ total_orders p = 0.
Proof.
  eexists. split; [reflexivity |].
  destruct (profile_new_user (Fixtures.connect Fixtures.shop) 4 _ eq_refl)
    as [H _].
  assert (H0 : total_orders
                 (make_profile (Fixtures.mk_user 4 "dave")
                    (select_user_orders 4 Fixtures.shop)) = 0)
    by reflexivity.
  split; [exact (proj2 H H0) | exact H0].
Defined.

(* ================================================================== *)
(** * Recommendations for every user *)
(* ================================================================== *)

Lemma StronglySorted_filter {A} (R : A -> A -> Prop) (f : A -> bool)
      (l : list A) :
  StronglySorted R l -> StronglySorted R (filter f l).
Proof.
  induction 1 as [| a l Hs IH Hall]; simpl; [constructor |].
  destruct (f a); [| exact IH]. constructor; [exact IH |].
  rewrite Forall_forall in *. intros x Hx. apply filter_In in Hx. now apply Hall.
Qed.

Lemma NoDup_map_firstn {A B} (g : A -> B) (n : nat) (l : list A) :
  NoDup (map g l) -> NoDup (map g (firstn n l)).
Proof. intros H. rewrite <- firstn_map. now apply NoDup_firstn. Qed.

(** The products that pass a filter, with their order counts, ranked by
    count: the list both recommendation queries cut with [LIMIT]. *)
Lemma ranked_products_spec (g : Product -> bool) (db : DB) :
  let rows :=
    order_by_desc pc_count Z.ltb (map (with_count db) (filter g (products db))) in
  (forall r, In r rows ->
     In (pc_product r) (products db) /\ g (pc_product r) = true
     /\ pc_count r = order_count db (pc_product r))
  /\ StronglySorted (fun a b => pc_count b <= pc_count a) rows
  /\ (primary_keys db ->
      NoDup (map (fun r => product_id (pc_product r)) rows)).
Proof.
  intros rows. unfold order_by_desc in rows.
  pose proof (sorted_reverse_perm pc_count Z.ltb
                (map (with_count db) (filter g (products db)))) as Hp.
  fold rows in Hp. split; [| split].
  - intros r Hr. apply (Permutation_in _ Hp) in Hr. apply in_map_iff in Hr.
    destruct Hr as [p [<- Hin]]. apply filter_In in Hin. now repeat split.
  - apply descending_Z, sorted_reverse_sorted;
      [apply Zltb_asym | apply Zltb_negtrans].
  - intros [_ [Hpk _]].
    apply (Permutation_NoDup
             (Permutation_sym
                (Permutation_map (fun r => product_id (pc_product r)) Hp))).
    rewrite map_map. cbn [with_count pc_product].
    now apply NoDup_map_filter.
Qed.

Lemma recommend_run (uid limit : Z) (s : Accessor) :
  recommend_products_for_user uid limit s
  = (Ok match profile_of (store s) uid with
        | None => select_popular_products limit (store s)
        | Some p =>
            if is_empty (favorite_categories p)
            then select_popular_products limit (store s)
            else personal_recommendations (store s) p limit
        end,
     drained s).
Proof.
  unfold recommend_products_for_user.
  rewrite (bind_ok _ _ _ _ _ (build_user_profile_run uid s)).
  destruct (profile_of (store s) uid) as [p |]; [| reflexivity].
  destruct (is_empty (favorite_categories p)); reflexivity.
Qed.

(** Whatever the user and the limit, [recommend_products_for_user]
    returns rows of stored products that are in stock, each with its
    order count, ranked by that count, at most [limit] of them when
    [limit >= 0]; under the primary-key constraint no product is listed
    twice. *)
Theorem recommendations_in_stock_ranked :
  forall (s : Accessor) (uid limit : Z),
    exists (rows : list ProductCount) (s' : Accessor),
      recommend_products_for_user uid limit s = (Ok rows, s')
      /\ store s' = store s
      /\ (forall r, In r rows ->
            In (pc_product r) (products (store s))
            /\ 0 < stock_quantity (pc_product r)
            /\ pc_count r = order_count (store s) (pc_product r))
      /\ StronglySorted (fun a b => pc_count b <= pc_count a) rows
      /\ (0 <= limit -> Z.of_nat (length rows) <= limit)
      /\ (primary_keys (store s) ->
          NoDup (map (fun r => product_id (pc_product r)) rows)).
Proof.
  intros s uid limit. rewrite recommend_run.
  eexists. eexists. split; [reflexivity |]. split; [reflexivity |].
  assert (Hpop :
    let rows := select_popular_products limit (store s) in
    (forall r, In r rows ->
       In (pc_product r) (products (store s))
       /\ 0 < stock_quantity (pc_product r)
       /\ pc_count r = order_count (store s) (pc_product r))
    /\ StronglySorted (fun a b => pc_count b <= pc_count a) rows
    /\ (0 <= limit -> Z.of_nat (length rows) <= limit)
    /\ (primary_keys (store s) ->
        NoDup (map (fun r => product_id (pc_product r)) rows))).
  { intros rows. unfold rows, select_popular_products.
    destruct (ranked_products_spec (fun p => 0 <? stock_quantity p) (store s))
      as [Hin [Hs Hnd]].
    rewrite limit_firstn. split; [| split; [| split]].
    - intros r Hr. apply In_firstn in Hr. destruct (Hin r Hr) as [H1 [H2 H3]].
      apply Z.ltb_lt in H2. now repeat split.
    - now apply sorted_firstn.
    - intros Hn. rewrite <- limit_firstn. now apply limit_length.
    - intros Hpk. now apply NoDup_map_firstn, Hnd. }
  destruct (profile_of (store s) uid) as [p |]; [| exact Hpop].
  destruct (is_empty (favorite_categories p)); [exact Hpop |].
  unfold personal_recommendations, select_category_products.
  set (g := fun p0 => text_in (category p0) (map Some (favorite_categories p))
                      && (0 <? stock_quantity p0)).
  destruct (ranked_products_spec g (store s)) as [Hin [Hs Hnd]].
  rewrite limit_firstn.
  match goal with
  | |- context [py_take limit ?l] =>
      destruct (py_take_firstn limit l) as [k Ek];
      pose proof (py_take_length limit l) as Hlen; rewrite Ek in *
  end.
  split; [| split; [| split]].
  - intros r Hr. apply In_firstn in Hr. apply filter_In in Hr.
    destruct Hr as [Hr _]. apply In_firstn in Hr.
    destruct (Hin r Hr) as [H1 [H2 H3]]. unfold g in H2.
    apply andb_true_iff in H2. destruct H2 as [_ H2]. apply Z.ltb_lt in H2.
    now repeat split.
  - now apply sorted_firstn, StronglySorted_filter, sorted_firstn.
  - exact Hlen.
  - intros Hpk.
    now apply NoDup_map_firstn, NoDup_map_filter, NoDup_map_firstn, Hnd.
Qed.

Lemma recommendations_in_stock_ranked_witness :
  primary_keys Fixtures.shop
  /\ exists rows : list ProductCount,
       fst (recommend_products_for_user 1 2 (Fixtures.connect Fixtures.shop))
       = Ok rows
       /\ Z.of_nat (length rows) <= 2
       /\ NoDup (map (fun r => product_id (pc_product r)) rows).
Proof.
  assert (Hpk : primary_keys Fixtures.shop) by apply shop_well_formed.
  split; [exact Hpk |].
  destruct (recommendations_in_stock_ranked (Fixtures.connect Fixtures.shop) 1 2)
    as [rows [s' [E [_ [_ [_ [Hlen Hnd]]]]]]].
  exists rows. rewrite E. split; [reflexivity |].
  split; [apply Hlen; lia | exact (Hnd Hpk)].
Defined.

(* ================================================================== *)
(** * Similar users: what a row reports *)
(* ================================================================== *)

Lemma find_similar_users_ranking_witness :
  exists (p : Profile) (rows : list SimilarUser),
    profile_of Fixtures.shoppers 1 = Some p
    /\ favorite_categories p <> []
    /\ fst (find_similar_users 1 5 (Fixtures.connect Fixtures.shoppers)) = Ok rows
    /\ map (fun r => (su_user_id r, common_categories r, su_total_orders r)) rows
       = [(3, 1, 2); (2, 1, 1)].
Proof.
  assert (Hp : profile_of Fixtures.shoppers 1
               = Some (make_profile (Fixtures.mk_user 1 "u1")
                         (select_user_orders 1 Fixtures.shoppers)))
    by reflexivity.
  assert (Hf : favorite_categories
                 (make_profile (Fixtures.mk_user 1 "u1")
                    (select_user_orders 1 Fixtures.shoppers)) <> [])
    by (vm_compute; discriminate).
  destruct (find_similar_users_ranking
              (Fixtures.connect Fixtures.shoppers) 1 5 _ Hp Hf)
    as [rows [params [E _]]].
  eexists. exists rows. split; [exact Hp |]. split; [exact Hf |].
  split; [exact E |].
  vm_compute in E. injection E as <-. reflexivity.
Defined.

Lemma text_in_In (x : string) (params : list (option string)) :
  text_in x params = true -> In (Some x) params.
Proof.
  unfold text_in. rewrite existsb_exists. intros [[c |] [Hc E]];
    [| discriminate].
  apply String.eqb_eq in E. now subst.
Qed.

Lemma matched_categories_In (params : list (option string)) (db : DB)
      (u : User) (c : string) :
  In c (matched_categories params db u) ->
  In (Some c) params
  /\ exists o, In o (orders db) /\ order_user_id o = user_id u.
Proof.
  unfold matched_categories. intros H.
  apply in_flat_map in H. destruct H as [o [Ho H]].
  apply filter_In in Ho. destruct Ho as [Ho Hu]. apply Z.eqb_eq in Hu.
  apply in_map_iff in H. destruct H as [p [<- Hp]].
  apply filter_In in Hp. destruct Hp as [_ Hp].
  apply andb_true_iff in Hp. destruct Hp as [_ Hp].
  split; [now apply text_in_In | now exists o].
Qed.

Lemma nodup_length_le {A} (dec : forall x y : A, {x = y} + {x <> y})
      (l : list A) :
  (length (nodup dec l) <= length l)%nat.
Proof.
  apply NoDup_incl_length; [apply NoDup_nodup |].
  intros x Hx. now apply nodup_In in Hx.
Qed.

Lemma NoDup_map_Some {A} (l : list A) : NoDup l -> NoDup (map Some l).
Proof.
  induction 1 as [| x l Hnotin Hnd IH]; simpl; constructor; [| exact IH].
  intros H. apply in_map_iff in H. destruct H as [y [E Hy]].
  injection E as ->. contradiction.
Qed.

Lemma similar_group_ids (params : list (option string)) (db : DB)
      (us : list User) :
  NoDup (map user_id us) ->
  NoDup (map su_user_id (flat_map (similar_group params db) us)).
Proof.
  induction us as [| u us IH]; simpl; intros H; [constructor |].
  inversion H as [| x xs Hnotin Hnd E]. subst.
  rewrite map_app. apply NoDup_app; [| now apply IH |].
  - unfold similar_group. destruct (matched_categories params db u);
      repeat constructor. intros [].
  - intros id Hid Hrest. apply Hnotin.
    apply in_map_iff in Hid. destruct Hid as [r [<- Hr]].
    apply similar_group_In in Hr. destruct Hr as [Er _]. rewrite <- Er.
    apply in_map_iff in Hrest. destruct Hrest as [r' [E' Hr']].
    apply in_flat_map in Hr'. destruct Hr' as [u' [Hu' Hr']].
    apply similar_group_In in Hr'. destruct Hr' as [Er' _].
    rewrite <- E', Er'. now apply in_map.
Qed.

(** Every row of [find_similar_users] stands for a stored user who has
    placed an order; it reports between 1 and 3 common categories and at
    least as many matching orders as common categories.  The store is
    left as it was, and under the primary-key constraint no user
    appears twice. *)
Theorem find_similar_users_counts :
  forall (s : Accessor) (uid limit : Z),
    exists (rows : list SimilarUser) (s' : Accessor),
      find_similar_users uid limit s = (Ok rows, s')
      /\ store s' = store s
      /\ (forall r, In r rows ->
            1 <= common_categories r <= 3
            /\ common_categories r <= su_total_orders r
            /\ exists u,
                 In u (users (store s))
                 /\ su_user_id r = user_id u /\ su_username r = username u
                 /\ exists o, In o (orders (store s))
                              /\ order_user_id o = user_id u)
      /\ (0 <= limit -> Z.of_nat (length rows) <= limit)
      /\ (primary_keys (store s) -> NoDup (map su_user_id rows)).
Proof.
  intros s uid limit. rewrite find_similar_users_run.
  eexists. eexists. split; [reflexivity |]. split; [reflexivity |].
  destruct (profile_of (store s) uid) as [p |];
    [| split; [intros r [] | split; [simpl; lia | constructor]]].
  destruct (is_empty (favorite_categories p));
    [split; [intros r [] | split; [simpl; lia | constructor]] |].
  cbv zeta.
  set (target := nodup string_dec (favorite_categories p)).
  set (params := firstn 3 (map Some target ++ repeat None (3 - length target))).
  assert (Hparams : (length params <= 3)%nat) by apply firstn_le_length.
  destruct (select_similar_users_spec uid params limit (store s))
    as [Hrows [_ Hlen]].
  split; [| split; [exact Hlen |]].
  - intros r Hr. destruct (Hrows r Hr) as [u [Hu [_ Hg]]].
    apply similar_group_In in Hg. destruct Hg as [E1 [E2 [E3 [E4 Hne]]]].
    set (cats := matched_categories params (store s) u) in *.
    assert (Hfirst : exists c, In c cats)
      by (destruct cats as [| c cs]; [congruence | exists c; now left]).
    destruct Hfirst as [c Hc].
    assert (Hle : (length (nodup string_dec cats) <= length params)%nat).
    { rewrite <- (length_map Some). apply NoDup_incl_length.
      - apply NoDup_map_Some, NoDup_nodup.
      - intros x Hx. apply in_map_iff in Hx. destruct Hx as [c' [<- Hc']].
        apply nodup_In in Hc'. now apply matched_categories_In in Hc'. }
    assert (Hpos : (1 <= length (nodup string_dec cats))%nat).
    { assert (Hin : In c (nodup string_dec cats)) by now apply nodup_In.
      destruct (nodup string_dec cats); [destruct Hin | simpl; lia]. }
    pose proof (nodup_length_le string_dec cats) as Hnl.
    split; [lia |]. split; [lia |].
    exists u. split; [exact Hu |]. split; [exact E1 |]. split; [exact E2 |].
    apply (matched_categories_In params (store s) u c Hc).
  - intros [Hpk _]. unfold select_similar_users, order_by_desc.
    rewrite limit_firstn. apply NoDup_map_firstn.
    match goal with
    | |- NoDup (map _ (sorted_reverse ?k ?lt ?l)) =>
        apply (Permutation_NoDup
                 (Permutation_sym
                    (Permutation_map su_user_id (sorted_reverse_perm k lt l))))
    end.
    apply similar_group_ids. now apply NoDup_map_filter.
Qed.

Lemma find_similar_users_counts_witness :
  primary_keys Fixtures.shoppers
  /\ exists rows : list SimilarUser,
       fst (find_similar_users 1 5 (Fixtures.connect Fixtures.shoppers)) = Ok rows
       /\ NoDup (map su_user_id rows)
       /\ Z.of_nat (length rows) <= 5.
Proof.
  assert (Hpk : primary_keys Fixtures.shoppers) by apply shoppers_well_formed.
  split; [exact Hpk |].
  destruct (find_similar_users_counts (Fixtures.connect Fixtures.shoppers) 1 5)
    as [rows [s' [E [_ [_ [Hlen Hnd]]]]]].
  exists rows. rewrite E. split; [reflexivity |].
  split; [exact (Hnd Hpk) | apply Hlen; lia].
Defined.

(* ================================================================== *)
(** * LIKE patterns *)
(* ================================================================== *)










(* ================================================================== *)
(** * Search results: provenance and the unpersonalised ranking *)
(* ================================================================== *)

Lemma select_search_spec (pattern : string) (db : DB) :
  let rows := select_search pattern db in
  (forall r, In r rows ->
     In (pc_product r) (products db)
     /\ (like (product_name (pc_product r)) pattern
         || like (category (pc_product r)) pattern) = true
     /\ pc_count r = order_count db (pc_product r))
  /\ StronglySorted (fun a b => pc_count b <= pc_count a) rows
  /\ (length rows <= 20)%nat
  /\ (primary_keys db ->
      NoDup (map (fun r => product_id (pc_product r)) rows)).
Proof.
  intros rows. unfold rows, select_search.
  destruct (ranked_products_spec
              (fun p => like (product_name p) pattern || like (category p) pattern)
              db) as [Hin [Hs Hnd]].
  rewrite limit_firstn. split; [| split; [| split]].
  - intros r Hr. apply In_firstn in Hr. now apply Hin.
  - now apply sorted_firstn.
  - apply firstn_le_length.
  - intros Hpk. now apply NoDup_map_firstn, Hnd.
Qed.

Lemma py_take_all {A} (n : Z) (l : list A) :
  Z.of_nat (length l) <= n -> py_take n l = l.
Proof.
  intros H. rewrite py_take_nonneg by lia. apply firstn_all2. lia.
Qed.

Lemma search_base_run (term : string) (user_id : option Z) (s : Accessor) :
  user_id = None \/ user_id = Some 0
  \/ (exists uid, user_id = Some uid /\ no_favorites (store s) uid) ->
  get_smart_search_results term user_id s
  = (Ok (base_results term (store s)), drained s).
Proof.
  intros [-> | [-> | [uid [-> Hno]]]]; [reflexivity | reflexivity |].
  unfold get_smart_search_results.
  unfold bind at 1. unfold execute_fetchall at 1. cbv iota beta zeta.
  destruct (truthy (Some uid)); [| reflexivity].
  unfold bind at 1. unfold bind at 1. rewrite build_user_profile_run.
  cbn [store]. destruct Hno as [-> | [p [-> ->]]]; reflexivity.
Qed.

(** Without a user id, with the id 0, or for a user whose profile is
    absent or has no favourite category, the search returns the first
    ten rows of the base ranking as they are: stored products that match
    the pattern on their name or category, each with its order count,
    in descending count order, and without a [relevance_score].  Under
    the primary-key constraint no product is listed twice. *)
Theorem search_unpersonalised :
  forall (s : Accessor) (term : string) (user_id : option Z),
    user_id = None \/ user_id = Some 0
    \/ (exists uid, user_id = Some uid /\ no_favorites (store s) uid) ->
    exists (results : list SearchResult) (s' : Accessor),
      get_smart_search_results term user_id s = (Ok results, s')
      /\ store s' = store s
      /\ results
         = firstn 10 (map of_row (select_search ("%" ++ term ++ "%") (store s)))
      /\ (forall x, In x results ->
            relevance_score x = None
            /\ In (sr_product x) (products (store s))
            /\ (like (product_name (sr_product x)) ("%" ++ term ++ "%")
                || like (category (sr_product x)) ("%" ++ term ++ "%")) = true
            /\ popularity x = order_count (store s) (sr_product x))
      /\ StronglySorted (fun a b => popularity b <= popularity a) results
      /\ (primary_keys (store s) ->
          NoDup (map (fun x => product_id (sr_product x)) results)).
Proof.
  intros s term user_id H. rewrite (search_base_run term user_id s H).
  eexists. eexists. split; [reflexivity |]. split; [reflexivity |].
  unfold base_results. rewrite py_take_nonneg by lia.
  change (Z.to_nat 10) with 10%nat.
  destruct (select_search_spec ("%" ++ term ++ "%") (store s))
    as [Hin [Hs [_ Hnd]]].
  split; [reflexivity |]. split; [| split].
  - intros x Hx. apply In_firstn in Hx. apply in_map_iff in Hx.
    destruct Hx as [r [<- Hr]]. split; [reflexivity |]. now apply Hin.
  - apply sorted_firstn.
    apply (StronglySorted_map_In (fun a b => pc_count b <= pc_count a));
      [exact Hs | auto].
  - intros Hpk. apply NoDup_map_firstn. rewrite map_map. now apply Hnd.
Qed.

Lemma search_unpersonalised_witness :
  no_favorites Fixtures.shop 4
  /\ exists results : list SearchResult,
       fst (get_smart_search_results "ph" (Some 4)
              (Fixtures.connect Fixtures.shop)) = Ok results
       /\ map (fun x => (product_name (sr_product x), popularity x)) results
          = [("Phone", 1); ("Phone book", 0)]
       /\ forall x, In x results -> relevance_score x = None.
Proof.
  assert (Hno : no_favorites Fixtures.shop 4).
  { right. eexists. split; reflexivity. }
  split; [exact Hno |].
  destruct (search_unpersonalised (Fixtures.connect Fixtures.shop) "ph" (Some 4))
    as [results [s' [E [_ [Er [Hx _]]]]]].
  { right. right. exists 4. now split. }
  exists results. rewrite E. split; [reflexivity |].
  split; [rewrite Er; reflexivity |].
  intros x Hin. now apply Hx.
Defined.

Lemma scored_products (favorite_cats : list string) (base : list ProductCount) :
  map sr_product (scored favorite_cats base) = map pc_product base
  /\ map popularity (scored favorite_cats base) = map pc_count base.
Proof. unfold scored. rewrite !map_map. split; reflexivity. Qed.

(** Personalising the search changes the order and adds the scores, but
    not the products or their counts: every result is a stored product
    that matches the pattern and is among the (at most 20) rows of the
    base query, with its order count as popularity.  When the base query
    has at most 10 rows the personalised list holds exactly the products
    of the unpersonalised one.  Under the primary-key constraint no
    product is listed twice. *)
Theorem search_personalised_products :
  forall (s : Accessor) (term : string) (uid : Z) (p : Profile),
    uid <> 0 ->
    profile_of (store s) uid = Some p ->
    favorite_categories p <> [] ->
    let base := select_search ("%" ++ term ++ "%") (store s) in
    exists (results : list SearchResult) (s' : Accessor),
      get_smart_search_results term (Some uid) s = (Ok results, s')
      /\ store s' = store s
      /\ length results = Nat.min 10 (length base)
      /\ (forall x, In x results ->
            In (sr_product x) (map pc_product base)
            /\ In (sr_product x) (products (store s))
            /\ (like (product_name (sr_product x)) ("%" ++ term ++ "%")
                || like (category (sr_product x)) ("%" ++ term ++ "%")) = true
            /\ popularity x = order_count (store s) (sr_product x))
      /\ ((length base <= 10)%nat ->
          Permutation (map sr_product results)
                      (map sr_product (base_results term (store s))))
      /\ (primary_keys (store s) ->
          NoDup (map (fun x => product_id (sr_product x)) results)).
Proof.
  intros s term uid p Hu Hp Hf base.
  rewrite (search_personal_run term uid s p Hu Hp Hf). fold base.
  eexists. eexists. split; [reflexivity |]. split; [reflexivity |].
  destruct (select_search_spec ("%" ++ term ++ "%") (store s))
    as [Hin [_ [_ Hnd]]].
  fold base in Hin, Hnd.
  set (favs := favorite_categories p).
  pose proof (sorted_reverse_perm relevance Qltb (scored favs base)) as Hperm.
  unfold ranked. rewrite py_take_nonneg by lia.
  change (Z.to_nat 10) with 10%nat.
  split; [| split; [| split]].
  - rewrite length_firstn, sorted_reverse_length. unfold scored.
    now rewrite !length_map.
  - intros x Hx. apply In_firstn in Hx. apply (Permutation_in _ Hperm) in Hx.
    unfold scored in Hx. rewrite map_map in Hx. apply in_map_iff in Hx.
    destruct Hx as [r [<- Hr]]. cbn [set_relevance of_row sr_product popularity].
    split; [now apply in_map | now apply Hin].
  - intros Hlen. rewrite firstn_all2
      by (rewrite sorted_reverse_length; unfold scored;
          now rewrite !length_map).
    rewrite (Permutation_map sr_product Hperm).
    rewrite (proj1 (scored_products favs base)).
    unfold base_results. fold base.
    rewrite py_take_all by (rewrite length_map; lia).
    rewrite map_map. reflexivity.
  - intros Hpk. apply NoDup_map_firstn.
    apply (Permutation_NoDup
             (Permutation_sym
                (Permutation_map (fun x => product_id (sr_product x)) Hperm))).
    unfold scored. rewrite !map_map.
    cbn [set_relevance of_row sr_product]. now apply Hnd.
Qed.

Lemma search_personalised_products_witness :
  exists (p : Profile) (results : list SearchResult),
    profile_of Fixtures.widgets 1 = Some p
    /\ favorite_categories p <> []
    /\ fst (get_smart_search_results "widget" (Some 1)
              (Fixtures.connect Fixtures.widgets)) = Ok results
    /\ Permutation (map sr_product results)
         (map sr_product (base_results "widget" Fixtures.widgets)).
Proof.
  assert (Hp : profile_of Fixtures.widgets 1
               = Some (make_profile (Fixtures.mk_user 1 "gina")
                         (select_user_orders 1 Fixtures.widgets)))
    by reflexivity.
  assert (Hf : favorite_categories
                 (make_profile (Fixtures.mk_user 1 "gina")
                    (select_user_orders 1 Fixtures.widgets)) <> [])
    by (vm_compute; discriminate).
  destruct (search_personalised_products
              (Fixtures.connect Fixtures.widgets) "widget" 1 _
              ltac:(discriminate) Hp Hf)
    as [results [s' [E [_ [_ [_ [Hperm _]]]]]]].
  eexists. exists results. split; [exact Hp |]. split; [exact Hf |].
  rewrite E. split; [reflexivity |]. apply Hperm. vm_compute. lia.
Defined.

(* ================================================================== *)
(** * Predictions: gaps, category and the overdue customer *)
(* ================================================================== *)

Lemma time_diffs_spec (orders : list OrderRow) :
  length (time_diffs orders) = (length orders - 1)%nat
  /\ Forall (fun g => 0 <= g) (time_diffs orders).
Proof.
  induction orders as [| o1 rest IH]; [split; [reflexivity | constructor] |].
  destruct rest as [| o2 rest']; [split; [reflexivity | constructor] |].
  destruct IH as [IHlen IHall].
  change (time_diffs (o1 :: o2 :: rest'))
    with (Z.abs (timedelta_days (or_order_date o1) (or_order_date o2))
          :: time_diffs (o2 :: rest')).
  split.
  - cbn [length] in *. lia.
  - constructor; [apply Z.abs_nonneg | exact IHall].
Qed.

Lemma fold_left_add_nonneg (xs : list Z) (z : Z) :
  Forall (fun g => 0 <= g) xs -> 0 <= z -> 0 <= fold_left Z.add xs z.
Proof.
  intros H. revert z. induction H as [| x xs Hx _ IH]; intros z Hz; simpl;
    [exact Hz | apply IH; lia].
Qed.

Lemma np_mean_nonneg (xs : list Z) :
  xs <> [] -> Forall (fun g => 0 <= g) xs -> (0 <= np_mean xs)%Q.
Proof.
  intros Hne Hall. unfold np_mean.
  assert (Hlen : (0 < inject_Z (Z.of_nat (length xs)))%Q).
  { replace 0%Q with (inject_Z 0) by reflexivity. rewrite <- Zlt_Qlt.
    destruct xs; [congruence | simpl; lia]. }
  apply Qle_shift_div_l; [exact Hlen |]. rewrite Qmult_0_l.
  replace 0%Q with (inject_Z 0) by reflexivity. rewrite <- Zle_Qle.
  now apply fold_left_add_nonneg.
Qed.

Lemma py_max_0_nonpos (x : Q) : (x <= 0)%Q -> py_max 0 x = 0%Q.
Proof.
  intros H. unfold py_max. destruct (Qltb 0 x) eqn:E; [| reflexivity].
  apply Qltb_true in E. lra.
Qed.

Lemma probability_of_overdue (avg days : Q) :
  (0 < avg)%Q -> (avg <= days)%Q ->
  (py_round (py_min 1 (py_max (1 # 10) (days / avg))) 2 == 1)%Q.
Proof.
  intros Ha H. apply Qle_antisym; [apply probability_bounds |].
  apply Qle_trans with (py_round 1 2); [vm_compute; discriminate |].
  apply py_round_monotone.
  assert (Hr : (1 <= days / avg)%Q).
  { apply Qle_shift_div_l; [exact Ha | lra]. }
  unfold py_min, py_max. destruct (Qltb (1 # 10) (days / avg)) eqn:E1;
    [| apply Qltb_false in E1; lra].
  destruct (Qltb (days / avg) 1) eqn:E2; [apply Qltb_true in E2; lra | lra].
Qed.

(** A prediction, which needs at least two orders in the window, always
    names a likely category: the first favourite.  The day gaps it
    averages are one fewer than the orders of the window and none is
    negative, so the average is not negative.  A customer whose days
    since the last order have reached the average gap is predicted to
    buy in 0 days, with probability 1 when that gap is positive; when
    all gaps are 0 the probability is 0.1; and the predicted days never
    exceed the reported average gap when the last order is not in the
    future. *)
Theorem prediction_of_window :
  forall (s : Accessor) (uid : Z) (now : datetime) (p : Profile),
    profile_of (store s) uid = Some p ->
    (2 <= length (recent_orders p))%nat ->
    exists (pred : Prediction) (s' : Accessor),
      predict_next_purchase uid now s = (Ok (Some pred), s')
      /\ store s' = store s
      /\ (exists c, likely_category pred = Some c
                    /\ hd_error (favorite_categories p) = Some c)
      /\ let gaps := time_diffs (recent_orders p) in
         let avg := np_mean gaps in
         let days := inject_Z (days_since_last_order pred) in
         length gaps = (length (recent_orders p) - 1)%nat
         /\ Forall (fun g => 0 <= g) gaps
         /\ (0 <= avg)%Q
         /\ avg_days_between_orders pred = py_round avg 1
         /\ (0 <= avg_days_between_orders pred)%Q
         /\ (avg <= days -> predicted_days_until_next_purchase pred == 0)%Q
         /\ (0 < avg -> avg <= days -> purchase_probability pred == 1)%Q
         /\ (avg == 0 -> purchase_probability pred == 1 # 10)%Q
         /\ (0 <= days ->
             predicted_days_until_next_purchase pred
             <= avg_days_between_orders pred)%Q.
Proof.
  intros s uid now p Hp Hlen. rewrite predict_next_purchase_run, Hp.
  destruct (recent_orders p) as [| o1 [| o2 rest]] eqn:E;
    [simpl in Hlen; lia | simpl in Hlen; lia |].
  exists (prediction_of p o1 now), (drained s).
  split; [reflexivity |]. split; [reflexivity |].
  destruct (profile_of_Some _ _ _ Hp) as [user [others [_ Ep]]].
  assert (Hfav : favorite_categories p <> []).
  { rewrite Ep. intros Hnil.
    apply (favorites_members user (select_user_orders uid (store s))) in Hnil.
    rewrite Ep in E. cbn [recent_orders make_profile] in E.
    rewrite Hnil in E. discriminate. }
  split.
  { destruct (favorite_categories p) as [| c cs] eqn:Ef; [congruence |].
    exists c. unfold prediction_of. cbn [likely_category]. rewrite Ef.
    split; reflexivity. }
  rewrite <- E. cbv zeta.
  destruct (time_diffs_spec (recent_orders p)) as [Hgl Hgall].
  assert (Hne : time_diffs (recent_orders p) <> []).
  { intros Hnil. rewrite Hnil in Hgl. rewrite E in Hgl. simpl in Hgl. lia. }
  pose proof (np_mean_nonneg _ Hne Hgall) as Havg.
  unfold prediction_of.
  cbn [avg_days_between_orders days_since_last_order
       predicted_days_until_next_purchase purchase_probability].
  set (avg := np_mean (time_diffs (recent_orders p))) in *.
  set (days := inject_Z (timedelta_days now (or_order_date o1))).
  split; [exact Hgl |]. split; [exact Hgall |]. split; [exact Havg |].
  split; [reflexivity |]. split; [now apply py_round1_nonneg |].
  split; [| split; [| split]].
  - intros H. rewrite py_max_0_nonpos by lra. reflexivity.
  - intros Hpos H. rewrite (Qpos_nonzero avg Hpos).
    now apply probability_of_overdue.
  - intros H0. apply Qeq_bool_iff in H0. rewrite H0. reflexivity.
  - intros Hd. apply py_round_monotone.
    destruct (py_max_spec 0 (avg - days)) as [_ [Em | Em]]; rewrite Em; lra.
Qed.

Lemma prediction_of_window_witness :
  exists (p : Profile) (pred : Prediction),
    profile_of Fixtures.cadence 1 = Some p
    /\ (2 <= length (recent_orders p))%nat
    /\ fst (predict_next_purchase 1 (Fixtures.day 9)
              (Fixtures.connect Fixtures.cadence)) = Ok (Some pred)
    /\ likely_category pred = Some "Grocery"
    /\ (predicted_days_until_next_purchase pred == 0)%Q
    /\ (purchase_probability pred == 1)%Q.
Proof.
  assert (Hp : profile_of Fixtures.cadence 1
               = Some (make_profile (Fixtures.mk_user 1 "erin")
                         (select_user_orders 1 Fixtures.cadence)))
    by reflexivity.
  assert (Hlen : (2 <= length (recent_orders
                                 (make_profile (Fixtures.mk_user 1 "erin")
                                    (select_user_orders 1 Fixtures.cadence))))%nat)
    by (vm_compute; lia).
  destruct (prediction_of_window (Fixtures.connect Fixtures.cadence) 1
              (Fixtures.day 9) _ Hp Hlen)
    as [pred [s' [E [_ [_ H]]]]].
  eexists. exists pred. split; [exact Hp |]. split; [exact Hlen |].
  rewrite E. split; [reflexivity |].
  cbv zeta in H. destruct H as [_ [_ [_ [_ [_ [H0 [H1 _]]]]]]].
  assert (Ed : days_since_last_order pred = 5)
    by (vm_compute in E; injection E as <- _; reflexivity).
  split; [vm_compute in E; injection E as <- _; reflexivity |].
  split.
  - apply H0. rewrite Ed. vm_compute. discriminate.
  - apply H1; [vm_compute; reflexivity | rewrite Ed; vm_compute; discriminate].
Defined.

(* ================================================================== *)
(** * The analytics methods only read *)
(* ================================================================== *)



(* ================================================================== *)
(** * A negative limit *)
(* ================================================================== *)

(** A negative [limit] does not fail.  On the fallback path the query's
    [LIMIT] is then no limit, so every in-stock product is returned.  On
    the personalised path the query is unlimited as well, so all in-stock
    products of the favourite categories outside the recent-orders
    window are candidates, and the slice [[:limit]] drops the last
    [-limit] of them.  [find_similar_users] returns the same rows for
    every negative limit. *)
Theorem negative_limit_is_unlimited :
  forall (s : Accessor) (uid limit : Z),
    limit < 0 ->
    (no_favorites (store s) uid ->
     exists rows s',
       recommend_products_for_user uid limit s = (Ok rows, s')
       /\ Permutation rows
            (map (with_count (store s))
                 (filter (fun p => 0 <? stock_quantity p)
                         (products (store s)))))
    /\ (forall p,
          profile_of (store s) uid = Some p ->
          favorite_categories p <> [] ->
          exists rows s',
            recommend_products_for_user uid limit s = (Ok rows, s')
            /\ let kept :=
                 filter
                   (fun r =>
                      negb (existsb (Z.eqb (product_id (pc_product r)))
                                    (map or_product_id (recent_orders p))))
                   (order_by_desc pc_count Z.ltb
                      (map (with_count (store s))
                           (filter (fun q =>
                                      text_in (category q)
                                              (map Some (favorite_categories p))
                                      && (0 <? stock_quantity q))
                                   (products (store s))))) in
               rows = firstn (length kept - Z.to_nat (- limit)) kept)
    /\ (exists rows s',
          find_similar_users uid limit s = (Ok rows, s')
          /\ forall n, n < 0 ->
                       fst (find_similar_users uid n s) = Ok rows).
Proof.
  intros s uid limit Hneg.
  assert (Hlim : forall A (l : list A), Sql.limit limit l = l).
  { intros A l. unfold Sql.limit. destruct (Z.ltb_spec limit 0); [reflexivity | lia]. }
  split; [| split].
  - intros Hno. rewrite (recommend_fallback_run uid limit s Hno).
    eexists. eexists. split; [reflexivity |].
    unfold select_popular_products. rewrite Hlim. apply sorted_reverse_perm.
  - intros p Hp Hf. rewrite (recommend_personal_run uid limit s p Hp Hf).
    unfold personal_recommendations, select_category_products.
    assert (Hlim2 : forall A (l : list A), Sql.limit (limit * 2) l = l).
    { intros A l. unfold Sql.limit.
      destruct (Z.ltb_spec (limit * 2) 0); [reflexivity | lia]. }
    rewrite Hlim2. eexists. eexists. split; [reflexivity |]. cbv zeta.
    unfold py_take. destruct (Z.ltb_spec limit 0); [reflexivity | lia].
  - rewrite find_similar_users_run. eexists. eexists.
    split; [reflexivity |]. intros n Hn. rewrite find_similar_users_run.
    cbn [fst]. f_equal.
    destruct (profile_of (store s) uid) as [p |]; [| reflexivity].
    destruct (is_empty (favorite_categories p)); [reflexivity |].
    cbv zeta. unfold select_similar_users, Sql.limit.
    destruct (Z.ltb_spec limit 0); [| lia].
    destruct (Z.ltb_spec n 0); [reflexivity | lia].
Qed.

Lemma negative_limit_is_unlimited_witness :
  -1 < 0
  /\ no_favorites Fixtures.shop 4
  /\ exists rows : list ProductCount,
       fst (recommend_products_for_user 4 (-1) (Fixtures.connect Fixtures.shop))
       = Ok rows
       /\ length rows = 5%nat.
Proof.
  assert (Hno : no_favorites Fixtures.shop 4).
  { right. eexists. split; reflexivity. }
  split; [lia |]. split; [exact Hno |].
  destruct (negative_limit_is_unlimited (Fixtures.connect Fixtures.shop) 4 (-1))
    as [H _]; [lia |].
  destruct (H Hno) as [rows [s' [E Hperm]]].
  exists rows. rewrite E. split; [reflexivity |].
  rewrite (Permutation_length Hperm). reflexivity.
Defined.
